(** * Schulmanager API: a shallow embedding of the scrape-and-normalize core

    The development follows the TypeScript sources:
    - [services/schulmanager.service.ts]  (session, week anchor, extraction,
      timetable and substitution derivation),
    - [models/lesson.model.ts], [models/substitution.model.ts],
    - [services/cache.service.ts],
    - [controllers/timetable.controller.ts] (date check, week summary of
      the cancelled lessons) and [middleware/apiAuth.middleware.ts].

    JavaScript values are modelled as the code uses them: numbers that are
    integers in every execution as [Z], strings as [string] (bytes of the
    UTF-8 source text), [undefined]/missing properties as [None], thrown
    exceptions as the [Throw] case of [Result], and a [Date] as its time
    value (milliseconds since the epoch, UTC) together with the host's
    offset from UTC. *)

From Stdlib Require Import ZArith Lia String Ascii List QArith Qround.
From Stdlib Require Import DecimalString DecimalPos Sorted.
From stdpp Require Import gmap strings list.

Local Open Scope string_scope.
Local Open Scope Z_scope.

(* ===================================================================== *)
(** ** JavaScript built-ins used by the sources *)
(* ===================================================================== *)

Module JS.

(** A computation that returns a value or throws. *)
Inductive Result (A : Type) : Type :=
| Ok (a : A)
| Throw (e : string).
Arguments Ok {A} a.
Arguments Throw {A} e.

Definition bind {A B} (r : Result A) (k : A -> Result B) : Result B :=
  match r with
  | Ok a => k a
  | Throw e => Throw e
  end.

Definition isOk {A} (r : Result A) : bool :=
  match r with Ok _ => true | Throw _ => false end.

(** [s || d] on strings: the empty string is falsy. *)
Definition orStr (s d : string) : string :=
  match s with
  | EmptyString => d
  | _ => s
  end.

(** [o || d] where the property may be missing. *)
Definition orDefault (o : option string) (d : string) : string :=
  match o with
  | Some s => orStr s d
  | None => d
  end.

(** Truthiness of an optional string property. *)
Definition truthy (o : option string) : bool :=
  match o with
  | Some (String _ _) => true
  | _ => false
  end.

(** [n.toString()] for an integer-valued number. *)
Definition Number_toString (n : Z) : string :=
  NilZero.string_of_int (Z.to_int n).

(** [s.padStart(targetLength, c)] with a one-character filler. *)
Definition padStart (targetLength : nat) (c : ascii) (s : string) : string :=
  string_of_list_ascii (repeat c (targetLength - String.length s)) ++ s.

(** [s.startsWith(p)]. *)
Definition startsWith (s p : string) : bool := String.prefix p s.

(** [s.includes(sub)]. *)
Definition includes (s sub : string) : bool :=
  match String.index 0 sub s with
  | Some _ => true
  | None => false
  end.

(** White space removed by [trim]: the ECMAScript WhiteSpace and
    LineTerminator code points, as they stand in the UTF-8 text.
    One byte: TAB, LF, VT, FF, CR, SP. *)
Definition isWhiteSpace (c : ascii) : bool :=
  let n := nat_of_ascii c in
  (((9 <=? n) && (n <=? 13)) || (n =? 32))%nat.

(** Two bytes: U+00A0 (C2 A0). *)
Definition isWhiteSpace2 (a b : ascii) : bool :=
  ((nat_of_ascii a =? 194) && (nat_of_ascii b =? 160))%nat.

(** Three bytes: U+1680 (E1 9A 80); U+2000 to U+200A, U+2028, U+2029,
    U+202F (E2 80 ..); U+205F (E2 81 9F); U+3000 (E3 80 80);
    U+FEFF (EF BB BF). *)
Definition isWhiteSpace3 (a b c : ascii) : bool :=
  let x := nat_of_ascii a in
  let y := nat_of_ascii b in
  let z := nat_of_ascii c in
  ((x =? 225) && (y =? 154) && (z =? 128)
   || (x =? 226) && (y =? 128)
      && ((128 <=? z) && (z <=? 138) || (z =? 168) || (z =? 169) || (z =? 175))
   || (x =? 226) && (y =? 129) && (z =? 159)
   || (x =? 227) && (y =? 128) && (z =? 128)
   || (x =? 239) && (y =? 187) && (z =? 191))%nat.

Fixpoint trimStartL (l : list ascii) : list ascii :=
  match l with
  | a :: r =>
      if isWhiteSpace a then trimStartL r
      else
        match r with
        | b :: r' =>
            if isWhiteSpace2 a b then trimStartL r'
            else
              match r' with
              | c :: r'' => if isWhiteSpace3 a b c then trimStartL r'' else l
              | [] => l
              end
        | [] => l
        end
  | [] => []
  end.

(** The same from the end, on the reversed text. *)
Fixpoint trimEndR (l : list ascii) : list ascii :=
  match l with
  | a :: r =>
      if isWhiteSpace a then trimEndR r
      else
        match r with
        | b :: r' =>
            if isWhiteSpace2 b a then trimEndR r'
            else
              match r' with
              | c :: r'' => if isWhiteSpace3 c b a then trimEndR r'' else l
              | [] => l
              end
        | [] => l
        end
  | [] => []
  end.

Definition trim (s : string) : string :=
  string_of_list_ascii
    (rev (trimEndR (rev (trimStartL (list_ascii_of_string s))))).

(** [s.split('\n')[0]]: the text before the first line feed. *)
Fixpoint firstLine (s : string) : string :=
  match s with
  | EmptyString => EmptyString
  | String c r => if (nat_of_ascii c =? 10)%nat then EmptyString
                  else String c (firstLine r)
  end.

(** [s.toLowerCase()] on the ASCII letters; other bytes are kept. *)
Definition lowerChar (c : ascii) : ascii :=
  let n := nat_of_ascii c in
  if ((65 <=? n) && (n <=? 90))%nat then ascii_of_nat (n + 32) else c.

Fixpoint toLowerCase (s : string) : string :=
  match s with
  | EmptyString => EmptyString
  | String c r => String (lowerChar c) (toLowerCase r)
  end.

(** A template-literal hole [${x}] for a property that may be missing. *)
Definition tplStr (o : option string) : string :=
  match o with Some s => s | None => "undefined" end.

Definition tplNum (o : option Z) : string :=
  match o with Some n => Number_toString n | None => "undefined" end.

(* --------------------------------------------------------------------- *)
(** *** Date

    A [Date] is its time value [t] in milliseconds since 1970-01-01T00:00Z.
    The host time zone is a fixed offset [tz] in minutes east of UTC
    (daylight-saving transitions are not modelled).  The calendar is the
    proleptic Gregorian one, computed per 400-year era. *)

Definition msPerDay : Z := 86400000.
Definition msPerMinute : Z := 60000.

Definition Day (t : Z) : Z := t / msPerDay.
Definition TimeWithinDay (t : Z) : Z := t mod msPerDay.

(** 0 = Sunday, 1 = Monday, ..., 6 = Saturday; day 0 was a Thursday. *)
Definition WeekDayOfDay (d : Z) : Z := (d + 4) mod 7.
Definition WeekDay (t : Z) : Z := WeekDayOfDay (Day t).

Definition LocalTime (tz t : Z) : Z := t + tz * msPerMinute.
Definition UTC (tz t : Z) : Z := t - tz * msPerMinute.

Record Civil : Type := mkCivil { c_year : Z; c_month : Z; c_date : Z }.

(** Position in the era, with the year starting on March 1st. *)
Definition yearOfEra (doe : Z) : Z :=
  (doe - doe / 1460 + doe / 36524 - doe / 146096) / 365.
Definition dayOfYear (doe : Z) : Z :=
  let yoe := yearOfEra doe in doe - (365 * yoe + yoe / 4 - yoe / 100).
Definition monthIndex (doy : Z) : Z := (5 * doy + 2) / 153.

(** Year, month (1..12) and day of month of a day number. *)
Definition civilFromDays (z : Z) : Civil :=
  let z' := z + 719468 in
  let era := z' / 146097 in
  let doe := z' mod 146097 in
  let yoe := yearOfEra doe in
  let doy := dayOfYear doe in
  let mp := monthIndex doy in
  let d := doy - (153 * mp + 2) / 5 + 1 in
  let m := if mp <? 10 then mp + 3 else mp - 9 in
  mkCivil (yoe + era * 400 + (if m <=? 2 then 1 else 0)) m d.

(** Day number of a year, month (1..12) and day of month. *)
Definition daysFromCivil (y m d : Z) : Z :=
  let y' := y - (if m <=? 2 then 1 else 0) in
  let era := y' / 400 in
  let yoe := y' - era * 400 in
  let doy := (153 * (if 2 <? m then m - 3 else m + 9) + 2) / 5 + d - 1 in
  let doe := yoe * 365 + yoe / 4 - yoe / 100 + doy in
  era * 146097 + doe - 719468.

Definition YearFromTime (t : Z) : Z := c_year (civilFromDays (Day t)).
(** Months are 0-based in ECMAScript. *)
Definition MonthFromTime (t : Z) : Z := c_month (civilFromDays (Day t)) - 1.
Definition DateFromTime (t : Z) : Z := c_date (civilFromDays (Day t)).

(** [MakeDay(year, month, date)]: [date] may lie outside the month. *)
Definition MakeDay (year month date : Z) : Z :=
  daysFromCivil year (month + 1) 1 + date - 1.
Definition MakeDate (day time : Z) : Z := day * msPerDay + time.

(** [date.getDay()], [date.getDate()], [date.setDate(dt)] work in local
    time; [setDate] returns the new time value. *)
Definition getDay (tz t : Z) : Z := WeekDay (LocalTime tz t).
Definition getDate (tz t : Z) : Z := DateFromTime (LocalTime tz t).
Definition setDate (tz t dt : Z) : Z :=
  let lt := LocalTime tz t in
  UTC tz (MakeDate (MakeDay (YearFromTime lt) (MonthFromTime lt) dt)
                   (TimeWithinDay lt)).

Definition pad2 (n : Z) : string := padStart 2 "0" (Number_toString n).

(** The year of [toISOString]: four digits, or a sign and six digits. *)
Definition isoYear (y : Z) : string :=
  if (0 <=? y) && (y <=? 9999) then padStart 4 "0" (Number_toString y)
  else (if y <? 0 then "-" else "+") ++ padStart 6 "0" (Number_toString (Z.abs y)).

(** [date.toISOString().split('T')[0]]: the UTC calendar date. *)
Definition toISODate (t : Z) : string :=
  let c := civilFromDays (Day t) in
  isoYear (c_year c) ++ "-" ++ pad2 (c_month c) ++ "-" ++ pad2 (c_date c).

Definition digitVal (c : ascii) : option Z :=
  let n := nat_of_ascii c in
  if ((48 <=? n) && (n <=? 57))%nat then Some (Z.of_nat (n - 48)) else None.

Fixpoint digitsVal (acc : Z) (l : list ascii) : option Z :=
  match l with
  | [] => Some acc
  | c :: r => match digitVal c with
              | Some d => digitsVal (10 * acc + d) r
              | None => None
              end
  end.

Definition isDash (c : ascii) : bool := (nat_of_ascii c =? 45)%nat.

(** [new Date(s)] for the date-only form [YYYY-MM-DD], which is read as
    midnight UTC.  As in V8 the month must be 01 to 12 and the day 01 to
    31; a day past the end of the month runs over into the next month
    ([MakeDay]).  Any other text is an Invalid Date here ([None]): the
    request router only lets the date-only form through, and the reader
    V8 falls back to for other texts is not modelled. *)
Definition Date_parse (s : string) : option Z :=
  match list_ascii_of_string s with
  | [y1; y2; y3; y4; s1; m1; m2; s2; d1; d2] =>
      if isDash s1 && isDash s2 then
        match digitsVal 0 [y1; y2; y3; y4], digitsVal 0 [m1; m2],
              digitsVal 0 [d1; d2] with
        | Some y, Some m, Some d =>
            if (1 <=? m) && (m <=? 12) && (1 <=? d) && (d <=? 31)
            then Some (MakeDate (MakeDay y (m - 1) d) 0) else None
        | _, _, _ => None
        end
      else None
  | _ => None
  end.

(** [date.toLocaleDateString('de-DE', { weekday: 'long' })]. *)
Definition germanWeekday (wd : Z) : string :=
  match wd with
  | 0 => "Sonntag"
  | 1 => "Montag"
  | 2 => "Dienstag"
  | 3 => "Mittwoch"
  | 4 => "Donnerstag"
  | 5 => "Freitag"
  | _ => "Samstag"
  end.

Definition toLocaleWeekday (tz : Z) (d : option Z) : string :=
  match d with
  | Some t => germanWeekday (getDay tz t)
  | None => "Invalid Date"
  end.

End JS.

Import JS.

(* ===================================================================== *)
(** ** The week anchor (SchulmanagerService.getMondayOfWeek) *)
(* ===================================================================== *)

Module WeekAnchor.

(** [getMondayOfWeek(date)]: weekday and day of month are read in local
    time, the result is printed in UTC. *)
Definition mondayInstant (tz date : Z) : Z :=
  let day := getDay tz date in
  let diff := getDate tz date - day + (if day =? 0 then -6 else 1) in
  setDate tz date diff.

Definition getMondayOfWeek (tz date : Z) : string :=
  toISODate (mondayInstant tz date).

(** Feeding the result back in: [getMondayOfWeek(new Date(s))]. *)
Definition again (tz : Z) (s : string) : option string :=
  match Date_parse s with
  | Some t => Some (getMondayOfWeek tz t)
  | None => None
  end.

(** Weekday of the calendar date a date string names. *)
Definition weekdayOfDateString (s : string) : option Z :=
  match Date_parse s with
  | Some t => Some (WeekDay t)
  | None => None
  end.

(** How far back the Monday lies from a weekday (0 = Sunday). *)
Definition backToMonday (wd : Z) : Z := if wd =? 0 then 6 else wd - 1.

End WeekAnchor.

(* ===================================================================== *)
(** ** models/lesson.model.ts *)
(* ===================================================================== *)

Module LessonModel.

Record t : Type := mk {
  id : string;
  subject : string;
  teacher : string;
  room : string;
  startTime : string;
  endTime : string;
  lessonNumber : Z;
  date : string;
  isSubstitution : bool;
  isCancelled : bool
}.

(** The untyped argument of [fromScrapedData]: any property may be missing. *)
Record Data : Type := mkData {
  d_id : option string;
  d_subject : option string;
  d_teacher : option string;
  d_room : option string;
  d_startTime : option string;
  d_endTime : option string;
  d_lessonNumber : option Z;
  d_date : option string;
  d_isSubstitution : option bool;
  d_isCancelled : option bool
}.

(** [now] is the clock read by [new Date()]. *)
Definition fromScrapedData (now : Z) (data : Data) : t :=
  mk (orDefault (d_id data)
        (tplStr (d_date data) ++ "-" ++ tplNum (d_lessonNumber data)))
     (orDefault (d_subject data) "Unbekannt")
     (orDefault (d_teacher data) "N/A")
     (orDefault (d_room data) "N/A")
     (orDefault (d_startTime data) "00:00")
     (orDefault (d_endTime data) "00:00")
     (default 0 (d_lessonNumber data))
     (orDefault (d_date data) (toISODate now))
     (default false (d_isSubstitution data))
     (default false (d_isCancelled data)).

End LessonModel.

(* ===================================================================== *)
(** ** models/substitution.model.ts *)
(* ===================================================================== *)

Module SubstitutionModel.

Inductive SubstitutionType : Type :=
| SUBSTITUTION
| CANCELLATION
| ROOM_CHANGE
| TIME_CHANGE
| OTHER.

Record t : Type := mk {
  id : string;
  date : string;
  lessonNumber : Z;
  originalSubject : string;
  originalTeacher : string;
  substituteSubject : option string;
  substituteTeacher : option string;
  room : option string;
  isCancelled : bool;
  note : option string;
  type : SubstitutionType
}.

(** The untyped argument of [fromScrapedData].  [d_originalRoom] and
    [d_note] are read by the model; [d_info] is what [getSubstitutions]
    passes. *)
Record Data : Type := mkData {
  d_id : option string;
  d_date : option string;
  d_lessonNumber : option Z;
  d_originalSubject : option string;
  d_originalTeacher : option string;
  d_substituteSubject : option string;
  d_substituteTeacher : option string;
  d_room : option string;
  d_originalRoom : option string;
  d_isCancelled : option bool;
  d_note : option string;
  d_info : option string
}.

(** [data.note?.toLowerCase().includes('fällt aus')]. *)
Definition noteSaysCancelled (note : option string) : bool :=
  match note with
  | Some n => includes (toLowerCase n) "fällt aus"
  | None => false
  end.

(** [a !== b] on optional strings. *)
Definition differs (a b : option string) : bool :=
  match a, b with
  | Some x, Some y => negb (String.eqb x y)
  | None, None => false
  | _, _ => true
  end.

Definition classify (data : Data) : SubstitutionType :=
  if default false (d_isCancelled data) || noteSaysCancelled (d_note data)
  then CANCELLATION
  else if truthy (d_substituteTeacher data) || truthy (d_substituteSubject data)
  then SUBSTITUTION
  else if truthy (d_room data) && differs (d_room data) (d_originalRoom data)
  then ROOM_CHANGE
  else OTHER.

Definition fromScrapedData (now : Z) (data : Data) : t :=
  mk (orDefault (d_id data)
        (tplStr (d_date data) ++ "-" ++ tplNum (d_lessonNumber data)))
     (orDefault (d_date data) (toISODate now))
     (default 0 (d_lessonNumber data))
     (orDefault (d_originalSubject data) "Unbekannt")
     (orDefault (d_originalTeacher data) "N/A")
     (d_substituteSubject data)
     (d_substituteTeacher data)
     (d_room data)
     (default false (d_isCancelled data))
     (d_note data)
     (classify data).

End SubstitutionModel.

(* ===================================================================== *)
(** ** services/schulmanager.service.ts: extraction and normalization *)
(* ===================================================================== *)

Module SchulmanagerService.

Record ScrapedLesson : Type := mkScraped {
  hour : Z;
  class_ : string;
  teacher : string;
  room : string;
  isSubstitution : bool;
  isCancelled : bool;
  substitutionInfo : option string
}.

(** [WeekSchedule = Record<string, ScrapedLesson[]>]: own string keys in
    insertion order, which is the order [Object.entries] walks them in.
    (Keys that are canonical array indices would come first, but such a
    key holds digits only and never contains a weekday abbreviation.) *)
Definition WeekSchedule : Type := list (string * list ScrapedLesson).

Fixpoint getProp (key : string) (o : WeekSchedule) : option (list ScrapedLesson) :=
  match o with
  | [] => None
  | (k, v) :: r => if String.eqb key k then Some v else getProp key r
  end.

Fixpoint setProp (key : string) (v : list ScrapedLesson) (o : WeekSchedule)
  : WeekSchedule :=
  match o with
  | [] => [(key, v)]
  | (k, w) :: r => if String.eqb key k then (k, v) :: r
                   else (k, w) :: setProp key v r
  end.

(** *** The rendered document, as far as the extractor reads it *)

(** A [.timetable-left/right/bottom] region: the text of its first nested
    [span], if any, and its own [textContent]. *)
Record Region : Type := mkRegion {
  spanText : option string;
  regionText : string
}.

(** A [.lesson-cell] marker element. *)
Record LessonCell : Type := mkCell {
  timetableLeft : option Region;
  timetableRight : option Region;
  timetableBottom : option Region;
  classList : list string;
  textContent : string;
  (** [textContent] of the first [.substitution-info, .change-info] *)
  substitutionElement : option string;
  (** whether [.text-warning, .text-danger, .badge-warning] matches *)
  warningMarker : bool
}.

(** A [td]: the marker it contains, if any. *)
Definition Cell : Type := option LessonCell.

Record Table : Type := mkTable {
  (** [textContent] of every [thead th], first column included *)
  headers : list string;
  (** the [td]s of every [tbody tr] *)
  rows : list (list Cell)
}.

(** [(el?.querySelector('span')?.textContent || el?.textContent)?.trim() || ''] *)
Definition regionLabel (el : option Region) : string :=
  match el with
  | Some r => trim (orDefault (spanText r) (regionText r))
  | None => ""
  end.

Definition contains (classes : list string) (c : string) : bool :=
  existsb (String.eqb c) classes.

Definition cellClassName (lc : LessonCell) : string :=
  regionLabel (timetableLeft lc).

(** The body of the [if (lessonCell)] branch: the lesson pushed for this
    cell, or [None] when the subject label is empty. *)
Definition scrapeCell (hourNumber : Z) (lc : LessonCell) : option ScrapedLesson :=
  let className := cellClassName lc in
  let teacher := regionLabel (timetableRight lc) in
  let room := regionLabel (timetableBottom lc) in
  let hasSubstitutionClass :=
    contains (classList lc) "substitution" || contains (classList lc) "changed"
    || contains (classList lc) "cancelled" in
  let isCancelled :=
    contains (classList lc) "cancelled" || includes (textContent lc) "fällt aus"
    || includes (textContent lc) "entfällt" || false in
  let substitutionInfo :=
    match substitutionElement lc with
    | Some txt => trim txt
    | None => ""
    end in
  let isSubstitution :=
    hasSubstitutionClass || (0 <? String.length substitutionInfo)%nat
    || warningMarker lc in
  match className with
  | EmptyString => None
  | _ => Some (mkScraped hourNumber className teacher room isSubstitution
                 isCancelled
                 (match substitutionInfo with
                  | EmptyString => None
                  | _ => Some substitutionInfo
                  end))
  end.

(** Day labels: the header cells after the first, each trimmed and cut at
    its first line. *)
Definition dayName (headerText : string) : string :=
  trim (firstLine (trim headerText)).

Definition dayHeaders (t : Table) : list string :=
  map dayName (tail (headers t)).

(** [days.forEach(day => { schedule[day] = []; })] *)
Definition initSchedule (days : list string) : WeekSchedule :=
  fold_left (fun sched day => setProp day [] sched) days [].

(** [schedule[days[dayIndex]].push(lesson)]: an index past the headers
    reads [schedule["undefined"]], and pushing to a missing property
    throws. *)
Definition pushLesson (days : list string) (dayIndex : nat)
    (lesson : ScrapedLesson) (sched : WeekSchedule) : Result WeekSchedule :=
  let key := tplStr (days !! dayIndex) in
  match getProp key sched with
  | Some ls => Ok (setProp key (ls ++ [lesson]) sched)
  | None => Throw "TypeError: Cannot read properties of undefined (reading 'push')"
  end.

Definition processCell (days : list string) (hourNumber : Z) (dayIndex : nat)
    (cell : Cell) (sched : WeekSchedule) : Result WeekSchedule :=
  match cell with
  | Some lc =>
      match scrapeCell hourNumber lc with
      | Some lesson => pushLesson days dayIndex lesson sched
      | None => Ok sched
      end
  | None => Ok sched
  end.

(** [cells.forEach((cell, dayIndex) => ...)], from [dayIndex] on. *)
Fixpoint forEachCell (days : list string) (hourNumber : Z)
    (cells : list Cell) (dayIndex : nat) (sched : WeekSchedule)
  : Result WeekSchedule :=
  match cells with
  | [] => Ok sched
  | cell :: rest =>
      match processCell days hourNumber dayIndex cell sched with
      | Ok sched' => forEachCell days hourNumber rest (S dayIndex) sched'
      | Throw e => Throw e
      end
  end.

(** [rows.forEach((row, hourIndex) => ...)], from [hourIndex] on. *)
Fixpoint forEachRow (days : list string) (rws : list (list Cell))
    (hourIndex : nat) (sched : WeekSchedule) : Result WeekSchedule :=
  match rws with
  | [] => Ok sched
  | row :: rest =>
      match forEachCell days (Z.of_nat hourIndex + 1) row 0 sched with
      | Ok sched' => forEachRow days rest (S hourIndex) sched'
      | Throw e => Throw e
      end
  end.

(** The function passed to [page.evaluate]; the document may lack the
    [.calendar-table]. *)
Definition extractSchedule (doc : option Table) : Result WeekSchedule :=
  match doc with
  | None => Ok []
  | Some t =>
      let days := dayHeaders t in
      forEachRow days (rows t) 0 (initSchedule days)
  end.

(** *** Session and portal *)

Record Session : Type := mkSession {
  browser : bool;                 (** [this.browser !== null] *)
  page : bool;                    (** [this.page !== null] *)
  isLoggedIn : bool;
  loginPromise : option nat       (** the in-flight promise, by identity *)
}.

(** What the portal renders for [?start=<monday>], or the failure raised
    by the navigation and the waits. *)
Definition Portal : Type := string -> Result (option Table).

Definition notLoggedIn : string := "Not logged in to Schulmanager".

(** [getWeekSchedule(date?)]; [now] is the clock read by [new Date()]. *)
Definition getWeekSchedule (tz : Z) (portal : Portal) (now : Z) (s : Session)
    (date : option Z) : Result WeekSchedule :=
  if negb (isLoggedIn s) || negb (page s) then Throw notLoggedIn
  else
    let targetDate := default now date in
    let mondayDate := WeekAnchor.getMondayOfWeek tz targetDate in
    bind (portal mondayDate) extractSchedule.

Definition dayMapping (dayOfWeek : string) : option string :=
  if String.eqb dayOfWeek "Montag" then Some "Mo"
  else if String.eqb dayOfWeek "Dienstag" then Some "Di"
  else if String.eqb dayOfWeek "Mittwoch" then Some "Mi"
  else if String.eqb dayOfWeek "Donnerstag" then Some "Do"
  else if String.eqb dayOfWeek "Freitag" then Some "Fr"
  else None.

(** The [for ... of Object.entries(weekSchedule)] loop with its [break]. *)
Fixpoint findDay (shortDay : option string) (entries : WeekSchedule)
  : list ScrapedLesson :=
  match entries with
  | [] => []
  | (dayKey, lessons) :: r =>
      if includes dayKey (tplStr shortDay) then lessons else findDay shortDay r
  end.

Definition shortDayOf (tz : Z) (date : string) : option string :=
  dayMapping (toLocaleWeekday tz (Date_parse date)).

(** *** Clock times of a period *)

Definition startHour (hour : Z) : Z :=
  8 + Qfloor (inject_Z (hour - 1) * 0.75)%Q.
Definition startMinute (hour : Z) : Z := Z.rem ((hour - 1) * 45) 60.
Definition endMinute (hour : Z) : Z := Z.rem (startMinute hour + 45) 60.
Definition endHour (hour : Z) : Z :=
  startHour hour + Qfloor (inject_Z (startMinute hour + 45) / inject_Z 60)%Q.

Definition clock (h m : Z) : string :=
  padStart 2 "0" (Number_toString h) ++ ":" ++ padStart 2 "0" (Number_toString m).

(** The callback of [daySchedule.map]. *)
Definition toLesson (now : Z) (date : string) (lesson : ScrapedLesson)
  : LessonModel.t :=
  let startTime := clock (startHour (hour lesson)) (startMinute (hour lesson)) in
  let endTime := clock (endHour (hour lesson)) (endMinute (hour lesson)) in
  LessonModel.fromScrapedData now
    (LessonModel.mkData None
       (Some (class_ lesson)) (Some (teacher lesson)) (Some (room lesson))
       (Some startTime) (Some endTime) (Some (hour lesson)) (Some date)
       (Some (isSubstitution lesson)) (Some (isCancelled lesson))).

Definition toLessons (now : Z) (date : string) (daySchedule : list ScrapedLesson)
  : list LessonModel.t :=
  map (toLesson now date) daySchedule.

(** [getTimetable(date)] *)
Definition getTimetable (tz : Z) (portal : Portal) (now : Z) (s : Session)
    (date : string) : Result (list LessonModel.t) :=
  if negb (isLoggedIn s) then Throw notLoggedIn
  else
    bind (getWeekSchedule tz portal now s None) (fun weekSchedule =>
      let shortDay := shortDayOf tz date in
      let daySchedule := findDay shortDay weekSchedule in
      Ok (toLessons now date daySchedule)).

(** *** Substitutions *)

(** The object literal built in [getSubstitutions]. *)
Definition substitutionData (lesson : LessonModel.t) : SubstitutionModel.Data :=
  let cancelled := LessonModel.isCancelled lesson in
  SubstitutionModel.mkData
    None
    (Some (LessonModel.date lesson))
    (Some (LessonModel.lessonNumber lesson))
    (Some (LessonModel.subject lesson))
    (Some (if cancelled then "Unbekannt" else LessonModel.teacher lesson))
    (if cancelled then None else Some (LessonModel.subject lesson))
    (if cancelled then None else Some (LessonModel.teacher lesson))
    (Some (LessonModel.room lesson))
    None
    (Some cancelled)
    None
    (Some (if cancelled then "Stunde fällt aus" else "Vertretung")).

(** The [for (const lesson of lessons)] loop. *)
Fixpoint toSubstitutions (now : Z) (lessons : list LessonModel.t)
  : list SubstitutionModel.t :=
  match lessons with
  | [] => []
  | lesson :: rest =>
      if LessonModel.isSubstitution lesson || LessonModel.isCancelled lesson
      then SubstitutionModel.fromScrapedData now (substitutionData lesson)
             :: toSubstitutions now rest
      else toSubstitutions now rest
  end.

(** [getSubstitutions(date)] *)
Definition getSubstitutions (tz : Z) (portal : Portal) (now : Z) (s : Session)
    (date : string) : Result (list SubstitutionModel.t) :=
  if negb (isLoggedIn s) then Throw notLoggedIn
  else
    bind (getTimetable tz portal now s date) (fun lessons =>
      Ok (toSubstitutions now lessons)).

(** [getCancelledClasses(date)] *)
Definition getCancelledClasses (tz : Z) (portal : Portal) (now : Z) (s : Session)
    (date : string) : Result (list LessonModel.t) :=
  if negb (isLoggedIn s) then Throw notLoggedIn
  else
    bind (getTimetable tz portal now s date) (fun lessons =>
      Ok (List.filter LessonModel.isCancelled lessons)).

End SchulmanagerService.

(* ===================================================================== *)
(** ** services/schulmanager.service.ts: the session manager *)
(* ===================================================================== *)

Module Login.

Import SchulmanagerService.

(** What the browser answers during one run of [performLogin]: every
    awaited call either completes or rejects. *)
Record Run : Type := mkRun {
  launch : Result unit;            (** [puppeteer.launch(...)] *)
  newPage : Result unit;           (** [browser.newPage()] *)
  gotoLogin : Result unit;         (** [page.goto(login page)] *)
  settleBefore : Result unit;      (** [page.waitForTimeout(2000)] *)
  emailByForm : Result bool;       (** [.login-form input[type="text"]] found *)
  emailByType : Result bool;       (** [input[type="email"]] found *)
  emailByName : Result bool;       (** [input[name="email"]] found *)
  typeEmail : Result unit;
  passwordInput : Result bool;     (** [input[type="password"]] found *)
  typePassword : Result unit;
  submitButton : Result bool;      (** [.login-form button] found *)
  click : Result unit;
  waitForNavigation : Result unit; (** its rejection is caught and logged *)
  settleAfter : Result unit;       (** [page.waitForTimeout(3000)] *)
  url : string                     (** [page.url()] *)
}.

(** The remote side: what a login with these credentials runs into. *)
Definition Env : Type := string -> string -> Run.

(** Code that reads and writes the session and may throw. *)
Definition M (A : Type) : Type := Session -> Result A * Session.

Definition ret {A} (a : A) : M A := fun s => (Ok a, s).
Definition throw {A} (e : string) : M A := fun s => (Throw e, s).
Definition lift {A} (r : Result A) : M A := fun s => (r, s).
Definition bindM {A B} (m : M A) (k : A -> M B) : M B :=
  fun s => match m s with
           | (Ok a, s') => k a s'
           | (Throw e, s') => (Throw e, s')
           end.
Definition tryCatch {A} (body : M A) (handler : string -> M A) : M A :=
  fun s => match body s with
           | (Ok a, s') => (Ok a, s')
           | (Throw e, s') => handler e s'
           end.

Notation "x <- m ;; k" := (bindM m (fun x => k))
  (at level 65, m at next level, right associativity).
Notation "m ;;; k" := (bindM m (fun _ => k))
  (at level 65, right associativity).

Definition getSession : M Session := fun s => (Ok s, s).
Definition setBrowser (b : bool) : M unit :=
  fun s => (Ok tt, mkSession b (page s) (isLoggedIn s) (loginPromise s)).
Definition setPage (b : bool) : M unit :=
  fun s => (Ok tt, mkSession (browser s) b (isLoggedIn s) (loginPromise s)).
Definition setIsLoggedIn (b : bool) : M unit :=
  fun s => (Ok tt, mkSession (browser s) (page s) b (loginPromise s)).
Definition setLoginPromise (p : option nat) (s : Session) : Session :=
  mkSession (browser s) (page s) (isLoggedIn s) p.

(** [init()] *)
Definition init (run : Run) : M unit :=
  s <- getSession ;;
  if browser s then ret tt
  else
    lift (launch run) ;;; setBrowser true ;;;
    lift (newPage run) ;;; setPage true.

(** The three locators for the e-mail field, first match wins. *)
Definition findEmailInput (run : Run) : M bool :=
  a <- lift (emailByForm run) ;;
  if a then ret true
  else b <- lift (emailByType run) ;;
       if b then ret true else lift (emailByName run).

Definition dashboardMarker : string := "schulmanager-online.de/#/".

(** The [try] block of [performLogin]. *)
Definition loginSequence (run : Run) : M bool :=
  init run ;;;
  s <- getSession ;;
  if negb (page s) then throw "Browser page not initialized"
  else
    lift (gotoLogin run) ;;;
    lift (settleBefore run) ;;;
    emailInput <- findEmailInput run ;;
    if negb emailInput then throw "Could not find email input field"
    else
      lift (typeEmail run) ;;;
      pw <- lift (passwordInput run) ;;
      if negb pw then throw "Could not find password input field"
      else
        lift (typePassword run) ;;;
        sb <- lift (submitButton run) ;;
        if negb sb then throw "Could not find submit button"
        else
          lift (click run) ;;;
          tryCatch (lift (waitForNavigation run)) (fun _ => ret tt) ;;;
          lift (settleAfter run) ;;;
          let ok := includes (url run) dashboardMarker in
          setIsLoggedIn ok ;;; ret ok.

(** [performLogin(username, password)] *)
Definition performLogin (env : Env) (username password : string) : M bool :=
  tryCatch (loginSequence (env username password))
           (fun _ => setIsLoggedIn false ;;; ret false).

(** *** Interleaving of callers

    Tasks run to their next [await] without interruption.  A call of
    [login] runs its synchronous prefix; an attempt settles when the body
    of [performLogin] reaches its end (its writes to [isLoggedIn] all
    happen in that last segment); a task whose promise has settled
    resumes.  Promises and tasks are named by their position. *)

Inductive Promise : Type :=
| Pending (username password : string)
| Settled (r : Result bool).

Inductive Task : Type :=
| Awaiting (leader : bool) (pid : nat)
| Returned (r : Result bool).

Record State : Type := mkState {
  session : Session;
  promises : list Promise;
  tasks : list Task
}.

Inductive Label : Type :=
| Call (username password : string)   (** a caller enters [login] *)
| Settle (pid : nat)                  (** the attempt [pid] finishes *)
| Resume (tid : nat)                  (** the task [tid] continues after its [await] *)
| Close.                              (** [close()] completes *)

Definition initial : State :=
  mkState (mkSession false false false None) [] [].

(** The synchronous prefix of [login]. *)
Definition call (username password : string) (st : State) : State :=
  let s := session st in
  if isLoggedIn s then
    mkState s (promises st) (tasks st ++ [Returned (Ok true)])
  else
    match loginPromise s with
    | Some pid => mkState s (promises st) (tasks st ++ [Awaiting false pid])
    | None =>
        let pid := length (promises st) in
        mkState (setLoginPromise (Some pid) s)
                (promises st ++ [Pending username password])
                (tasks st ++ [Awaiting true pid])
    end.

Definition settle (env : Env) (pid : nat) (st : State) : option State :=
  match promises st !! pid with
  | Some (Pending username password) =>
      let '(r, s') := performLogin env username password (session st) in
      Some (mkState s' (<[pid := Settled r]> (promises st)) (tasks st))
  | _ => None
  end.

(** After the [await]: the caller that started the attempt leaves through
    [finally { this.loginPromise = null }]; both kinds of caller return or
    rethrow what the promise settled with. *)
Definition resume (tid : nat) (st : State) : option State :=
  match tasks st !! tid with
  | Some (Awaiting leader pid) =>
      match promises st !! pid with
      | Some (Settled r) =>
          Some (mkState
                  (if leader then setLoginPromise None (session st)
                   else session st)
                  (promises st)
                  (<[tid := Returned r]> (tasks st)))
      | _ => None
      end
  | _ => None
  end.

(** [close()] *)
Definition close (st : State) : State :=
  let s := session st in
  if browser s then
    mkState (mkSession false false false (loginPromise s))
            (promises st) (tasks st)
  else st.

Definition step (env : Env) (l : Label) (st : State) : option State :=
  match l with
  | Call username password => Some (call username password st)
  | Settle pid => settle env pid st
  | Resume tid => resume tid st
  | Close => Some (close st)
  end.

Fixpoint exec (env : Env) (ls : list Label) (st : State) : option State :=
  match ls with
  | [] => Some st
  | l :: rest =>
      match step env l st with
      | Some st' => exec env rest st'
      | None => None
      end
  end.

Definition reachable (env : Env) (st : State) : Prop :=
  exists ls, exec env ls initial = Some st.

Definition pendingAt (st : State) (pid : nat) : Prop :=
  exists username password, promises st !! pid = Some (Pending username password).

(** What holds in every state the callers can bring about. *)
Record Inv (st : State) : Prop := mkInv {
  (** a caller that started an attempt and still waits owns the marker *)
  inv_leader : forall tid pid,
    tasks st !! tid = Some (Awaiting true pid) ->
    loginPromise (session st) = Some pid;
  inv_leader_unique : forall tid tid' pid pid',
    tasks st !! tid = Some (Awaiting true pid) ->
    tasks st !! tid' = Some (Awaiting true pid') ->
    tid = tid';
  (** the marker names the attempt of a caller that still waits *)
  inv_marker : forall pid,
    loginPromise (session st) = Some pid ->
    exists tid, tasks st !! tid = Some (Awaiting true pid);
  (** an attempt in flight is the marked one, and nobody is logged in *)
  inv_pending : forall pid,
    pendingAt st pid ->
    loginPromise (session st) = Some pid /\ isLoggedIn (session st) = false;
  (** attempts settle with a boolean *)
  inv_settled : forall pid r,
    promises st !! pid = Some (Settled r) -> exists b, r = Ok b;
  inv_returned : forall tid r,
    tasks st !! tid = Some (Returned r) -> exists b, r = Ok b;
  (** a waiting task waits for an attempt that exists *)
  inv_waiting : forall tid leader pid,
    tasks st !! tid = Some (Awaiting leader pid) ->
    (pid < length (promises st))%nat
}.

End Login.

(* ===================================================================== *)
(** ** services/cache.service.ts *)
(* ===================================================================== *)

Module CacheService.

Section Cache.

(** The cached values; [undefined] is not one of them. *)
Context {V : Type}.

(** *** The store behind the service (the [node-cache] package)

    An entry holds the value and the instant (ms) from which it counts as
    expired; [0] stands for no expiry. *)
Record Entry : Type := mkEntry { v : V; t : Z }.

(** Modelled from the spec: the store's entry construction is not part of
    the sources.  An entry lives for [ttl] seconds from [now]; the
    package reads the TTL 0 as no expiry. *)
Definition wrap (now ttl : Z) (value : V) : Entry :=
  mkEntry value (if ttl =? 0 then 0 else now + ttl * 1000).

(** Modelled from the spec: the store's expiry test is not part of the
    sources.  An entry is expired once its instant has passed. *)
Definition expired (now : Z) (e : Entry) : bool :=
  negb (t e =? 0) && (t e <? now).

(** Modelled from the spec: [NodeCache.set] is not part of the sources.
    It stores the value under the key with the TTL. *)
Definition NodeCache_set (key : string) (value : V) (ttl now : Z)
    (data : gmap string Entry) : gmap string Entry :=
  <[key := wrap now ttl value]> data.

(** Modelled from the spec: [NodeCache.get] is not part of the sources.
    An absent or expired key yields no value; an expired entry is removed
    when it is looked up. *)
Definition NodeCache_get (key : string) (now : Z) (data : gmap string Entry)
  : option V * gmap string Entry :=
  match data !! key with
  | Some e => if expired now e then (None, delete key data) else (Some (v e), data)
  | None => (None, data)
  end.

(** Modelled from the spec: [NodeCache.keys] is not part of the sources.
    It lists the keys of all stored entries. *)
Definition NodeCache_keys (data : gmap string Entry) : list string :=
  (map_to_list data).*1.

(** Modelled from the spec: [NodeCache.del] is not part of the sources.
    It removes the listed keys and counts those that were present. *)
Definition NodeCache_del (keys : list string) (data : gmap string Entry)
  : nat * gmap string Entry :=
  fold_left
    (fun acc key =>
       match acc.2 !! key with
       | Some _ => (S acc.1, delete key acc.2)
       | None => acc
       end)
    keys (0%nat, data).

(** *** CacheService *)

(** [config.cache.ttl.timetable], read from the environment. *)
Variable ttlTimetable : Z.

(** [ttl || config.cache.ttl.timetable] *)
Definition effectiveTtl (ttl : option Z) : Z :=
  match ttl with
  | Some 0 | None => ttlTimetable
  | Some n => n
  end.

Definition set (key : string) (value : V) (ttl : option Z) (now : Z)
    (data : gmap string Entry) : gmap string Entry :=
  NodeCache_set key value (effectiveTtl ttl) now data.

Definition get (key : string) (now : Z) (data : gmap string Entry)
  : option V * gmap string Entry :=
  NodeCache_get key now data.

Definition delByPrefix (prefix : string) (data : gmap string Entry)
  : nat * gmap string Entry :=
  let keys := List.filter (fun key => startsWith key prefix) (NodeCache_keys data) in
  NodeCache_del keys data.

(** The world [getOrSet] runs in: the clock, the cache, and how often the
    compute function has been invoked so far. *)
Record World : Type := mkWorld {
  clock : Z;
  data : gmap string Entry;
  calls : nat
}.

(** The compute function: given how many times it ran before, what this
    invocation settles with and how long it takes (ms). *)
Definition Compute : Type := nat -> Result V * Z.

(** [getOrSet(key, fn, ttl)], run without another task in between. *)
Definition getOrSet (key : string) (fn : Compute) (ttl : option Z) (w : World)
  : Result V * World :=
  let '(cached, data1) := get key (clock w) (data w) in
  match cached with
  | Some value => (Ok value, mkWorld (clock w) data1 (calls w))
  | None =>
      let '(r, elapsed) := fn (calls w) in
      let now' := clock w + elapsed in
      match r with
      | Ok value =>
          (Ok value, mkWorld now' (set key value ttl now' data1) (S (calls w)))
      | Throw e => (Throw e, mkWorld now' data1 (S (calls w)))
      end
  end.

(** Time passing between two calls. *)
Definition later (delta : Z) (w : World) : World :=
  mkWorld (clock w + delta) (data w) (calls w).

(** A live entry: present and not expired at [now]. *)
Definition live (key : string) (now : Z) (data : gmap string Entry) (value : V)
  : Prop :=
  exists e, data !! key = Some e /\ expired now e = false /\ v e = value.

End Cache.

Definition getTimetableKey (userId date : string) : string :=
  "timetable:" ++ userId ++ ":" ++ date.
Definition getSubstitutionsKey (userId date : string) : string :=
  "substitutions:" ++ userId ++ ":" ++ date.
Definition getUserDataKey (userId : string) : string :=
  "user:" ++ userId.

End CacheService.

(* ===================================================================== *)
(** ** The other methods of the models, the service and the cache *)
(* ===================================================================== *)

(** models/lesson.model.ts: the methods of [LessonModel]. *)
Module LessonMethods.

Import LessonModel.

(** [toAlexaFormat()] *)
Definition toAlexaFormat (l : LessonModel.t) : string :=
  if isCancelled l then
    subject l ++ " in der " ++ Number_toString (lessonNumber l)
    ++ ". Stunde fällt aus"
  else
    let output := "Um " ++ startTime l ++ " Uhr " ++ subject l in
    let output :=
      if isSubstitution l then output ++ " mit Vertretung bei " ++ teacher l
      else output ++ " bei " ++ teacher l in
    if truthy (Some (room l)) && negb (String.eqb (room l) "N/A")
    then output ++ " in Raum " ++ room l
    else output.

(** A Lesson handed to [fromScrapedData] as it is: every property set. *)
Definition asData (l : LessonModel.t) : LessonModel.Data :=
  mkData (Some (id l)) (Some (subject l)) (Some (teacher l)) (Some (room l))
         (Some (startTime l)) (Some (endTime l)) (Some (lessonNumber l))
         (Some (date l)) (Some (isSubstitution l)) (Some (isCancelled l)).

End LessonMethods.

(** models/substitution.model.ts: the methods of [SubstitutionModel]. *)
Module SubstitutionMethods.

Import SubstitutionModel.

(** [toAlexaFormat()] *)
Definition toAlexaFormat (e : SubstitutionModel.t) : string :=
  match type e with
  | CANCELLATION =>
      originalSubject e ++ " in der " ++ Number_toString (lessonNumber e)
      ++ ". Stunde fällt aus"
  | SUBSTITUTION =>
      let output :=
        originalSubject e ++ " in der " ++ Number_toString (lessonNumber e)
        ++ ". Stunde" in
      let output :=
        if truthy (substituteTeacher e)
        then output ++ " wird von " ++ tplStr (substituteTeacher e) ++ " vertreten"
        else output in
      if truthy (substituteSubject e)
         && differs (substituteSubject e) (Some (originalSubject e))
      then output ++ " mit " ++ tplStr (substituteSubject e)
      else output
  | ROOM_CHANGE =>
      originalSubject e ++ " in der " ++ Number_toString (lessonNumber e)
      ++ ". Stunde ist in Raum " ++ tplStr (room e)
  | _ =>
      originalSubject e ++ " in der " ++ Number_toString (lessonNumber e)
      ++ ". Stunde: " ++ orDefault (note e) "Änderung"
  end.

(** [isToday()]: the date against today's UTC date. *)
Definition isToday (now : Z) (e : SubstitutionModel.t) : bool :=
  String.eqb (date e) (toISODate now).

(** [isUpcoming()]: [new Date(this.date) >= now]; a comparison with an
    Invalid Date is false. *)
Definition isUpcoming (now : Z) (e : SubstitutionModel.t) : bool :=
  match Date_parse (date e) with
  | Some t => now <=? t
  | None => false
  end.

End SubstitutionMethods.

(** services/schulmanager.service.ts: the remaining methods. *)
Module ServiceMethods.

Import SchulmanagerService.

(** [isAuthenticated()] *)
Definition isAuthenticated (s : Session) : bool := isLoggedIn s.

(** [hasSubstitutionsToday()] *)
Definition hasSubstitutionsToday (tz : Z) (portal : Portal) (now : Z)
    (s : Session) : Result bool :=
  let today := toISODate now in
  bind (getSubstitutions tz portal now s today) (fun substitutions =>
    Ok (0 <? length substitutions)%nat).

End ServiceMethods.

(** services/cache.service.ts: the remaining key operations. *)
Module CacheMethods.

Import CacheService.

Section Ops.

Context {V : Type}.

(** Modelled from the spec: [NodeCache.flushAll] is not part of the
    sources.  It drops every entry. *)
Definition NodeCache_flushAll (data : gmap string (@Entry V))
  : gmap string (@Entry V) := ∅.

(** [flush()] *)
Definition flush (data : gmap string (@Entry V)) : gmap string (@Entry V) :=
  NodeCache_flushAll data.

End Ops.

End CacheMethods.

(** controllers: the parts of the handlers that compute on their own. *)
Module Controllers.

Import SchulmanagerService.

Definition isDigit (c : ascii) : bool :=
  let n := nat_of_ascii c in ((48 <=? n) && (n <=? 57))%nat.

(** [/^\d{4}-\d{2}-\d{2}$/.test(date)] *)
Definition dateRegexTest (date : string) : bool :=
  match list_ascii_of_string date with
  | [y1; y2; y3; y4; s1; m1; m2; s2; d1; d2] =>
      isDigit y1 && isDigit y2 && isDigit y3 && isDigit y4 && isDash s1
      && isDigit m1 && isDigit m2 && isDash s2 && isDigit d1 && isDigit d2
  | _ => false
  end.

(** What [getWeekCancelled] caches: the cancelled lessons of every day
    and their number. *)
Record WeekCancelled : Type := mkWeekCancelled {
  days : WeekSchedule;
  totalCancelled : Z
}.

(** The [for ... of Object.entries(weekSchedule)] loop of
    [getWeekCancelled]. *)
Definition cancelledOfWeek (weekSchedule : WeekSchedule) : WeekCancelled :=
  fold_left
    (fun acc entry =>
       let cancelled := List.filter isCancelled (snd entry) in
       mkWeekCancelled (setProp (fst entry) cancelled (days acc))
                       (totalCancelled acc + Z.of_nat (length cancelled)))
    weekSchedule (mkWeekCancelled [] 0).

End Controllers.

(** middleware/apiAuth.middleware.ts *)
Module ApiAuth.

Inductive Outcome : Type :=
| Next                                      (** [next()] *)
| Rejected (status : Z) (code : string).    (** [res.status(..).json(..)] *)

(** [apiKeyAuth(req, res, next)], for the configured key, the request
    path and the [X-API-Key] header. *)
Definition apiKeyAuth (configKey : string) (path : string)
    (apiKey : option string) : Outcome :=
  if String.eqb path "/health" || startsWith path "/health" then Next
  else if negb (truthy apiKey) then Rejected 401 "MISSING_API_KEY"
  else if SubstitutionModel.differs apiKey (Some configKey)
  then Rejected 401 "INVALID_API_KEY"
  else Next.

End ApiAuth.

(* ===================================================================== *)
(** ** Reference definitions the properties are stated against *)
(* ===================================================================== *)

(** The period times as the design document words them, on integers. *)
Module TimeSpec.

Definition startHour (h : Z) : Z := 8 + (3 * (h - 1)) / 4.
Definition startMinute (h : Z) : Z := ((h - 1) * 45) mod 60.
Definition endMinute (h : Z) : Z := (startMinute h + 45) mod 60.
Definition endHour (h : Z) : Z := startHour h + (startMinute h + 45) / 60.

(** A non-negative number written with at least two digits. *)
Definition twoDigits (n : Z) : string :=
  if n <? 10 then "0" ++ Number_toString n else Number_toString n.

Definition startTime (h : Z) : string :=
  twoDigits (startHour h) ++ ":" ++ twoDigits (startMinute h).
Definition endTime (h : Z) : string :=
  twoDigits (endHour h) ++ ":" ++ twoDigits (endMinute h).

End TimeSpec.

(** The raw slots of a day, as the design document speaks of them: the
    marker cells of the columns filed under one day label, row by row,
    each with its 1-based hour. *)
Module RawSlots.

Import SchulmanagerService.

Record RawSlot : Type := mkSlot { slotHour : Z; slotCell : LessonCell }.

Definition subjectLabel (sl : RawSlot) : string := cellClassName (slotCell sl).

Definition hasSubject (sl : RawSlot) : bool :=
  negb (String.eqb (subjectLabel sl) "").

(** The property a column's lessons are pushed to. *)
Definition columnKey (days : list string) (dayIndex : nat) : string :=
  tplStr (days !! dayIndex).

Definition cellSlot (days : list string) (key : string) (hourNumber : Z)
    (dayIndex : nat) (cell : Cell) : list RawSlot :=
  match cell with
  | Some lc => if String.eqb key (columnKey days dayIndex)
               then [mkSlot hourNumber lc] else []
  | None => []
  end.

Fixpoint rowSlots (days : list string) (key : string) (hourNumber : Z)
    (cells : list Cell) (dayIndex : nat) : list RawSlot :=
  match cells with
  | [] => []
  | cell :: rest =>
      cellSlot days key hourNumber dayIndex cell
      ++ rowSlots days key hourNumber rest (S dayIndex)
  end.

Fixpoint tableSlots (days : list string) (key : string)
    (rws : list (list Cell)) (hourIndex : nat) : list RawSlot :=
  match rws with
  | [] => []
  | row :: rest =>
      rowSlots days key (Z.of_nat hourIndex + 1) row 0
      ++ tableSlots days key rest (S hourIndex)
  end.

Definition daySlots (t : Table) (key : string) : list RawSlot :=
  tableSlots (dayHeaders t) key (rows t) 0.

Definition scrapeSlot (sl : RawSlot) : option ScrapedLesson :=
  scrapeCell (slotHour sl) (slotCell sl).

(** A Lesson stands for a slot: same subject, same hour. *)
Definition lessonOf (lesson : LessonModel.t) (sl : RawSlot) : Prop :=
  LessonModel.subject lesson = subjectLabel sl /\
  LessonModel.lessonNumber lesson = slotHour sl.

End RawSlots.

(** A small rendered week used in the examples. *)
Module Demo.

Import SchulmanagerService.

Definition region (txt : string) : Region := mkRegion (Some txt) txt.

Definition plainCell (subject teacher room : string) : LessonCell :=
  mkCell (Some (region subject)) (Some (region teacher)) (Some (region room))
         ["lesson-cell"] (subject ++ teacher ++ room) None false.

(** Cancelled lessons carry their text directly in the regions. *)
Definition cancelledCell (subject teacher room : string) : LessonCell :=
  mkCell (Some (mkRegion None subject)) (Some (mkRegion None teacher))
         (Some (mkRegion None room))
         ["lesson-cell"; "cancelled"] (subject ++ teacher ++ room) None false.

Definition changedCell (subject teacher room : string) : LessonCell :=
  mkCell (Some (region subject)) (Some (region teacher)) (Some (region room))
         ["lesson-cell"; "changed"] (subject ++ teacher ++ room) None false.

(** A marker without a subject label. *)
Definition blankCell : LessonCell :=
  mkCell (Some (region "  ")) None None ["lesson-cell"] "  " None false.

Definition headerRow : list string := ["Stunde"; "Mo"; "Di"; "Mi"; "Do"; "Fr"].

Definition thisWeek : Table :=
  mkTable headerRow
    [ [Some (plainCell "Mathe" "Schmidt" "101"); None; None; None; None];
      [Some (cancelledCell "Deutsch" "Meyer" "102");
       Some (plainCell "Physik" "Braun" "201"); None; None; None];
      [Some blankCell; None; Some (plainCell "Sport" "Wolf" "Halle"); None; None];
      [Some (changedCell "Englisch" "Klein" "103"); None; None; None; None] ].

Definition nextWeek : Table :=
  mkTable headerRow
    [ [Some (plainCell "Kunst" "Vogel" "301"); None; None; None; None] ].

(** Wednesday 2025-10-15, 10:00 UTC; its week starts on 2025-10-13. *)
Definition now : Z := 1760522400000.

Definition portal : Portal :=
  fun monday =>
    if String.eqb monday "2025-10-13" then Ok (Some thisWeek)
    else if String.eqb monday "2025-10-20" then Ok (Some nextWeek)
    else Throw "TimeoutError: waiting for selector .calendar-table failed".

Definition session : Session := mkSession true true true None.

Definition lessonsOr {A} (r : Result (list A)) : list A :=
  match r with Ok l => l | Throw _ => [] end.

Definition weekOr (r : Result WeekSchedule) : WeekSchedule :=
  match r with Ok w => w | Throw _ => [] end.

Definition week : WeekSchedule :=
  Eval vm_compute in weekOr (extractSchedule (Some thisWeek)).

Definition monday : list LessonModel.t :=
  Eval vm_compute in lessonsOr (getTimetable 0 portal now session "2025-10-13").

Definition mondaySubstitutions : list SubstitutionModel.t :=
  Eval vm_compute in lessonsOr (getSubstitutions 0 portal now session "2025-10-13").

Definition cancelledLesson : LessonModel.t :=
  LessonModel.mk "2025-10-13-2" "Deutsch" "Meyer" "102" "08:45" "09:30" 2
                 "2025-10-13" true true.

(** The portal accepts one password and is unreachable otherwise. *)
Definition goodRun : Login.Run :=
  Login.mkRun (Ok tt) (Ok tt) (Ok tt) (Ok tt) (Ok false) (Ok true) (Ok false)
    (Ok tt) (Ok true) (Ok tt) (Ok true) (Ok tt)
    (Throw "TimeoutError: Navigation timeout of 30000 ms exceeded") (Ok tt)
    "https://login.schulmanager-online.de/#/dashboard".

Definition offlineRun : Login.Run :=
  Login.mkRun (Ok tt) (Ok tt) (Throw "net::ERR_INTERNET_DISCONNECTED") (Ok tt)
    (Ok false) (Ok false) (Ok false) (Ok tt) (Ok false) (Ok tt) (Ok false)
    (Ok tt) (Ok tt) (Ok tt) "about:blank".

Definition env : Login.Env :=
  fun _ password => if String.eqb password "geheim" then goodRun else offlineRun.

(** Two callers while the portal is unreachable, then a third. *)
Definition twoCallers : list Login.Label :=
  [Login.Call "anna" "falsch"; Login.Call "anna" "falsch"].

Definition inFlight : Login.State :=
  Eval vm_compute in
    match Login.exec env twoCallers Login.initial with
    | Some st => st
    | None => Login.initial
    end.

Definition afterFailure : Login.State :=
  Eval vm_compute in
    match Login.exec env [Login.Settle 0; Login.Resume 0; Login.Resume 1] inFlight with
    | Some st => st
    | None => Login.initial
    end.

(** A cache with one entry of each of two categories. *)
Definition twoCategories : gmap string (@CacheService.Entry nat) :=
  <[CacheService.getTimetableKey "default" "2025-10-13"
    := CacheService.mkEntry 1%nat 0]>
    (<[CacheService.getSubstitutionsKey "default" "2025-10-13"
       := CacheService.mkEntry 2%nat 0]> ∅).

(** A compute function that yields 7 at once, and a cache at 1 s. *)
Definition seven : @CacheService.Compute nat := fun _ => (Ok 7%nat, 0).
Definition emptyWorld : @CacheService.World nat := CacheService.mkWorld 1000 ∅ 0.

End Demo.

(** Exhaustive checks over a finite range, used for the calendar. *)
Module RangeCheck.

(** [f] holds on [z, z+1, ..., z + fuel - 1]. *)
Fixpoint checkFrom (f : Z -> bool) (fuel : nat) (z : Z) : bool :=
  match fuel with
  | O => true
  | S fuel' => if f z then checkFrom f fuel' (z + 1) else false
  end.

(** The day [doe] of an era falls in a year 0..399 of the era, a month
    index 0..11 and a day of month 1..31. *)
Definition eraDayOk (doe : Z) : bool :=
  let yoe := yearOfEra doe in
  let doy := dayOfYear doe in
  let mp := monthIndex doy in
  let d := doy - (153 * mp + 2) / 5 + 1 in
  (0 <=? yoe) && (yoe <=? 399) && (0 <=? mp) && (mp <=? 11)
  && (1 <=? d) && (d <=? 31).

(** The four digits [isoYear] prints for [y] read back as [y]. *)
Definition yearDigitsOk (y : Z) : bool :=
  match list_ascii_of_string (isoYear y) with
  | [a; b; c; d] =>
      match digitsVal 0 [a; b; c; d] with
      | Some v => v =? y
      | None => false
      end
  | _ => false
  end.

(** The two digits [pad2] prints for [n] read back as [n]. *)
Definition twoDigitsOk (n : Z) : bool :=
  match list_ascii_of_string (pad2 n) with
  | [a; b] =>
      match digitsVal 0 [a; b] with
      | Some v => v =? n
      | None => false
      end
  | _ => false
  end.

End RangeCheck.

(** Names used in the statements about the extraction. *)
Module ExtractionTerms.

Import SchulmanagerService RawSlots.

(** The error of [schedule[undefined].push(lesson)]. *)
Definition pushError : string :=
  "TypeError: Cannot read properties of undefined (reading 'push')".

(** Some slot with a subject is filed under a key that is no day label. *)
Definition misfiledIn (days : list string) (slots : string -> list RawSlot) : Prop :=
  exists key sl, ~ In key days /\ In sl (slots key) /\ hasSubject sl = true.

End ExtractionTerms.

(** Names used in the statements about substitutions. *)
Module SubstitutionTerms.

(** The entry is a cancellation. *)
Definition isCancellation (e : SubstitutionModel.t) : bool :=
  match SubstitutionModel.type e with
  | SubstitutionModel.CANCELLATION => true
  | _ => false
  end.

(** The Lesson carries one of the two flags. *)
Definition flagged (l : LessonModel.t) : bool :=
  LessonModel.isSubstitution l || LessonModel.isCancelled l.

End SubstitutionTerms.

(** Names used in the statements about the session. *)
Module SessionTerms.

Import SchulmanagerService.

(** A logged-in session has its browser and its page. *)
Definition connected (s : Session) : Prop :=
  isLoggedIn s = true -> browser s = true /\ page s = true.

End SessionTerms.

(** A caller that logs in with the accepted password. *)
Module LoginDemo.

Definition oneLogin : list Login.Label :=
  [Login.Call "anna" "geheim"; Login.Settle 0; Login.Resume 0].

Definition loggedIn : Login.State :=
  Eval vm_compute in
    match Login.exec Demo.env oneLogin Login.initial with
    | Some st => st
    | None => Login.initial
    end.

End LoginDemo.

(** A compute function whose login fails after five seconds. *)
Module CacheDemo.

Definition failing : @CacheService.Compute nat :=
  fun _ => (Throw "Failed to login to Schulmanager", 5000).

End CacheDemo.

(** Names used in the statements about the handlers. *)
Module ControllerTerms.

Import SchulmanagerService.

(** A day's entry with its cancelled lessons only. *)
Definition cancelledEntry (entry : string * list ScrapedLesson)
  : string * list ScrapedLesson :=
  (fst entry, List.filter isCancelled (snd entry)).

(** All lessons of a week, day after day. *)
Definition allLessons (ws : WeekSchedule) : list ScrapedLesson :=
  concat (map snd ws).

End ControllerTerms.

(** Names used in the statements about the weekday column. *)
Module WeekdayTerms.

Import SchulmanagerService.

(** The portal's short name of a school day (1 = Monday, ..., 5 = Friday). *)
Definition shortName (wd : Z) : option string :=
  match wd with
  | 1 => Some "Mo"
  | 2 => Some "Di"
  | 3 => Some "Mi"
  | 4 => Some "Do"
  | 5 => Some "Fr"
  | _ => None
  end.

(** The day header of a weekday's column on a page: the first one that
    contains the weekday's short name. *)
Definition columnOf (doc : Table) (wd : Z) : option string :=
  match shortName wd with
  | Some short => List.find (fun header => includes header short) (dayHeaders doc)
  | None => None
  end.

(** A Lesson carries the labels of a requested date. *)
Definition labelled (date : string) (l : LessonModel.t) : Prop :=
  LessonModel.date l = date /\
  LessonModel.id l
  = date ++ "-" ++ Number_toString (LessonModel.lessonNumber l).

End WeekdayTerms.

(* ===================================================================== *)
(** ** Properties *)
(* ===================================================================== *)

(** *** Numbers and strings *)




Lemma orStr_nonempty (s d : string) : s <> "" -> orStr s d = s.
Proof. destruct s; [congruence | reflexivity]. Qed.


Lemma orStr_default_nonempty (s d : string) : d <> "" -> orStr s d <> "".
Proof. destruct s; cbn; [auto | discriminate]. Qed.

(** *** Period times *)

Section Times.

Import SchulmanagerService.









Lemma toLesson_lessonNumber now date sl :
  LessonModel.lessonNumber (toLesson now date sl) = hour sl.
Proof. reflexivity. Qed.



Lemma getTimetable_inv tz portal now s date lessons :
  getTimetable tz portal now s date = Ok lessons ->
  exists ws, getWeekSchedule tz portal now s None = Ok ws /\
             lessons = toLessons now date (findDay (shortDayOf tz date) ws).
Proof.
  unfold getTimetable. destruct (negb (isLoggedIn s)); [discriminate|].
  destruct (getWeekSchedule tz portal now s None) as [ws|e]; cbn; [|discriminate].
  intros [= <-]. eauto.
Qed.

End Times.

(** *** Extraction *)

Section Extraction.

Import SchulmanagerService RawSlots.

Lemma getProp_setProp key key0 v sched :
  getProp key (setProp key0 v sched)
  = if String.eqb key key0 then Some v else getProp key sched.
Proof.
  induction sched as [|[k w] r IH]; cbn.
  - destruct (String.eqb key key0); reflexivity.
  - destruct (String.eqb_spec key0 k) as [->|Hne]; cbn.
    + destruct (String.eqb key k); reflexivity.
    + destruct (String.eqb_spec key k) as [->|Hne'].
      * destruct (String.eqb_spec k key0); [congruence | reflexivity].
      * exact IH.
Qed.

Lemma scrapeCell_None h lc :
  scrapeCell h lc = None <-> cellClassName lc = "".
Proof.
  unfold scrapeCell. destruct (cellClassName lc); split; congruence.
Qed.

Lemma scrapeCell_Some h lc l :
  scrapeCell h lc = Some l ->
  class_ l = cellClassName lc /\ hour l = h /\ cellClassName lc <> "".
Proof.
  unfold scrapeCell. destruct (cellClassName lc) eqn:E; [discriminate|].
  intros [= <-]. cbn. repeat split. discriminate.
Qed.

Lemma scrapeSlot_hasSubject sl :
  hasSubject sl = match scrapeSlot sl with Some _ => true | None => false end.
Proof.
  unfold hasSubject, scrapeSlot, subjectLabel, scrapeCell.
  destruct (cellClassName (slotCell sl)); reflexivity.
Qed.

(** What one cell adds to the property [key]. *)
Lemma processCell_getProp days h i cell sched sched' :
  processCell days h i cell sched = Ok sched' ->
  forall key,
    getProp key sched'
    = (fun ls => (ls ++ omap scrapeSlot (cellSlot days key h i cell))%list)
        <$> getProp key sched.
Proof.
  intros H key. unfold processCell in H.
  assert (Hid : forall o : option (list ScrapedLesson), o = (fun ls => (ls ++ [])%list) <$> o).
  { intros [ls|]; cbn; [rewrite app_nil_r|]; reflexivity. }
  destruct cell as [lc|]; cbn [cellSlot].
  - destruct (scrapeCell h lc) as [lesson|] eqn:Hs.
    + unfold pushLesson in H. fold (columnKey days i) in H.
      destruct (getProp (columnKey days i) sched) as [ls0|] eqn:Hg; [|discriminate].
      injection H as <-. rewrite getProp_setProp.
      destruct (String.eqb_spec key (columnKey days i)) as [->|Hne].
      * rewrite Hg. cbn. unfold scrapeSlot. cbn. rewrite Hs. reflexivity.
      * cbn. apply Hid.
    + injection H as <-.
      destruct (String.eqb key (columnKey days i)); cbn.
      * unfold scrapeSlot. cbn. rewrite Hs. apply Hid.
      * apply Hid.
  - injection H as <-. cbn. apply Hid.
Qed.

Lemma forEachCell_getProp days h cells :
  forall i sched sched',
    forEachCell days h cells i sched = Ok sched' ->
    forall key,
      getProp key sched'
      = (fun ls => (ls ++ omap scrapeSlot (rowSlots days key h cells i))%list)
          <$> getProp key sched.
Proof.
  induction cells as [|cell rest IH]; intros i sched sched' H key.
  - injection H as <-. cbn. destruct (getProp key sched); cbn;
      [rewrite app_nil_r|]; reflexivity.
  - cbn in H.
    destruct (processCell days h i cell sched) as [sched1|e] eqn:Hp; [|discriminate].
    rewrite (IH _ _ _ H key), (processCell_getProp _ _ _ _ _ _ Hp key).
    cbn [rowSlots]. rewrite omap_app.
    destruct (getProp key sched); cbn; [rewrite app_assoc|]; reflexivity.
Qed.

Lemma forEachRow_getProp days rws :
  forall hi sched sched',
    forEachRow days rws hi sched = Ok sched' ->
    forall key,
      getProp key sched'
      = (fun ls => (ls ++ omap scrapeSlot (tableSlots days key rws hi))%list)
          <$> getProp key sched.
Proof.
  induction rws as [|row rest IH]; intros hi sched sched' H key.
  - injection H as <-. cbn. destruct (getProp key sched); cbn;
      [rewrite app_nil_r|]; reflexivity.
  - cbn in H.
    destruct (forEachCell days (Z.of_nat hi + 1) row 0 sched) as [sched1|e] eqn:Hc;
      [|discriminate].
    rewrite (IH _ _ _ H key), (forEachCell_getProp _ _ _ _ _ _ Hc key).
    cbn [tableSlots]. rewrite omap_app.
    destruct (getProp key sched); cbn; [rewrite app_assoc|]; reflexivity.
Qed.

Lemma initSchedule_getProp days key ls :
  getProp key (initSchedule days) = Some ls -> ls = [].
Proof.
  unfold initSchedule.
  assert (G : forall sched,
             (forall l, getProp key sched = Some l -> l = []) ->
             getProp key (fold_left (fun sched day => setProp day [] sched) days sched)
             = Some ls -> ls = []).
  { induction days as [|d r IH]; intros sched Hs; cbn.
    - apply Hs.
    - apply IH. intros l. rewrite getProp_setProp.
      destruct (String.eqb key d); [congruence | apply Hs]. }
  apply G. cbn. discriminate.
Qed.

(** The lessons filed under a day label are those of the day's slots that
    carry a subject, in row order. *)
Lemma extractSchedule_day t ws key ls :
  extractSchedule (Some t) = Ok ws ->
  getProp key ws = Some ls ->
  ls = omap scrapeSlot (daySlots t key).
Proof.
  cbn. intros H Hg.
  rewrite (forEachRow_getProp _ _ _ _ _ H key) in Hg.
  destruct (getProp key (initSchedule (dayHeaders t))) as [l0|] eqn:H0;
    [|discriminate].
  apply initSchedule_getProp in H0. subst l0. cbn in Hg.
  injection Hg as <-. reflexivity.
Qed.

Lemma omap_scrapeSlot_length slots :
  length (omap scrapeSlot slots) = length (List.filter hasSubject slots).
Proof.
  induction slots as [|sl r IH]; cbn; [reflexivity|].
  rewrite scrapeSlot_hasSubject.
  destruct (scrapeSlot sl); cbn; rewrite IH; reflexivity.
Qed.

Lemma toLessons_lessonOf now date slots :
  Forall2 lessonOf (toLessons now date (omap scrapeSlot slots))
          (List.filter hasSubject slots).
Proof.
  induction slots as [|sl r IH]; cbn; [constructor|].
  rewrite scrapeSlot_hasSubject.
  destruct (scrapeSlot sl) as [l|] eqn:Hs; cbn; [|exact IH].
  constructor; [|exact IH].
  apply scrapeCell_Some in Hs as (Hc & Hh & Hne).
  split; cbn.
  - rewrite Hc. apply orStr_nonempty, Hne.
  - exact Hh.
Qed.

(** Keys stay unique, so an entry met by [Object.entries] is the one the
    property lookup finds. *)
Lemma keys_setProp key v sched :
  (setProp key v sched).*1
  = match getProp key sched with
    | Some _ => sched.*1
    | None => (sched.*1 ++ [key])%list
    end.
Proof.
  induction sched as [|[k w] r IH]; cbn; [reflexivity|].
  destruct (String.eqb_spec key k) as [->|Hne]; cbn; [reflexivity|].
  rewrite IH. destruct (getProp key r); reflexivity.
Qed.

Lemma getProp_None_keys key sched :
  getProp key sched = None -> ~ In key sched.*1.
Proof.
  induction sched as [|[k w] r IH]; cbn; [tauto|].
  destruct (String.eqb_spec key k) as [->|Hne]; [discriminate|].
  intros H [He|Hin]; [congruence | exact (IH H Hin)].
Qed.

Lemma NoDup_setProp key v sched :
  List.NoDup sched.*1 -> List.NoDup (setProp key v sched).*1.
Proof.
  intros H. rewrite keys_setProp.
  destruct (getProp key sched) eqn:E; [exact H|].
  apply NoDup_ListNoDup, NoDup_app. rewrite !NoDup_ListNoDup.
  split; [exact H|]. split.
  - intros x Hx Hk. apply list_elem_of_In in Hx.
    apply list_elem_of_In in Hk. cbn in Hk. destruct Hk as [<-|[]].
    exact (getProp_None_keys _ _ E Hx).
  - constructor; [cbn; tauto | constructor].
Qed.

Lemma NoDup_initSchedule days : List.NoDup (initSchedule days).*1.
Proof.
  unfold initSchedule.
  assert (G : forall sched, List.NoDup sched.*1 ->
            List.NoDup (fold_left (fun sched day => setProp day [] sched) days sched).*1).
  { induction days as [|d r IH]; intros sched H; cbn; [exact H|].
    apply IH, NoDup_setProp, H. }
  apply G. constructor.
Qed.

Lemma NoDup_forEachCell days h cells :
  forall i sched sched',
    forEachCell days h cells i sched = Ok sched' ->
    List.NoDup sched.*1 -> List.NoDup sched'.*1.
Proof.
  induction cells as [|cell rest IH]; intros i sched sched' H Hn.
  - injection H as <-. exact Hn.
  - cbn in H.
    destruct (processCell days h i cell sched) as [sched1|e] eqn:Hp; [|discriminate].
    apply (IH _ _ _ H). unfold processCell in Hp.
    destruct cell as [lc|]; [|injection Hp as <-; exact Hn].
    destruct (scrapeCell h lc); [|injection Hp as <-; exact Hn].
    unfold pushLesson in Hp.
    destruct (getProp (tplStr (days !! i)) sched); [|discriminate].
    injection Hp as <-. apply NoDup_setProp, Hn.
Qed.

Lemma NoDup_forEachRow days rws :
  forall hi sched sched',
    forEachRow days rws hi sched = Ok sched' ->
    List.NoDup sched.*1 -> List.NoDup sched'.*1.
Proof.
  induction rws as [|row rest IH]; intros hi sched sched' H Hn.
  - injection H as <-. exact Hn.
  - cbn in H.
    destruct (forEachCell days (Z.of_nat hi + 1) row 0 sched) as [sched1|e] eqn:Hc;
      [|discriminate].
    apply (IH _ _ _ H), (NoDup_forEachCell _ _ _ _ _ _ Hc), Hn.
Qed.

Lemma getProp_In key ls sched :
  List.NoDup sched.*1 -> In (key, ls) sched -> getProp key sched = Some ls.
Proof.
  induction sched as [|[k w] r IH]; cbn; [tauto|].
  intros Hn [He|Hin].
  - injection He as -> ->. rewrite String.eqb_refl. reflexivity.
  - inversion Hn as [|? ? Hk Hr]; subst.
    destruct (String.eqb_spec key k) as [->|Hne]; [|exact (IH Hr Hin)].
    exfalso. apply Hk. change k with (fst (k, ls)). apply in_map, Hin.
Qed.

(** The loop over the entries ends with no lessons or with the lessons of
    an entry whose key contains the abbreviation. *)
Lemma findDay_cases shortDay ws :
  findDay shortDay ws = [] \/
  exists key, In (key, findDay shortDay ws) ws /\
              includes key (tplStr shortDay) = true.
Proof.
  induction ws as [|[k ls] r IH]; cbn; [left; reflexivity|].
  destruct (includes k (tplStr shortDay)) eqn:E.
  - right. exists k. split; [left; reflexivity | exact E].
  - destruct IH as [IH|(key & Hin & Hk)]; [left; exact IH|].
    right. exists key. split; [right; exact Hin | exact Hk].
Qed.

Lemma rowSlots_hour days key h cells :
  forall i, Forall (fun sl => slotHour sl = h) (rowSlots days key h cells i).
Proof.
  induction cells as [|cell rest IH]; intros i; cbn; [constructor|].
  apply Forall_app. split; [|apply IH].
  destruct cell as [lc|]; cbn; [|constructor].
  destruct (String.eqb key (columnKey days i)); repeat constructor.
Qed.

(** Hours are row positions counted from one. *)
Lemma tableSlots_hour days key rws :
  forall hi, Forall (fun sl => Z.of_nat hi + 1 <= slotHour sl)
                    (tableSlots days key rws hi).
Proof.
  induction rws as [|row rest IH]; intros hi; cbn; [constructor|].
  apply Forall_app. split.
  - eapply List.Forall_impl; [|apply rowSlots_hour]. cbn. intros sl ->. lia.
  - eapply List.Forall_impl; [|apply (IH (S hi))]. cbn. intros sl H. lia.
Qed.

(** Where the lessons of [getTimetable] come from: the slots of one day
    column of the week rendered for the current date's anchor. *)
Lemma getTimetable_slots tz portal now s date lessons :
  getTimetable tz portal now s date = Ok lessons ->
  exists slots,
    lessons = toLessons now date (omap scrapeSlot slots) /\
    Forall (fun sl => 1 <= slotHour sl) slots /\
    (slots = [] \/
     exists doc key,
       portal (WeekAnchor.getMondayOfWeek tz now) = Ok (Some doc) /\
       includes key (tplStr (shortDayOf tz date)) = true /\
       slots = daySlots doc key).
Proof.
  intros H. apply getTimetable_inv in H as (ws & Hw & ->).
  unfold getWeekSchedule in Hw.
  destruct (negb (isLoggedIn s) || negb (page s)); [discriminate|].
  cbn [default] in Hw.
  destruct (portal (WeekAnchor.getMondayOfWeek tz now)) as [[doc|]|e] eqn:Hp;
    cbn [bind] in Hw; try discriminate.
  - destruct (findDay_cases (shortDayOf tz date) ws) as [E|(key & Hin & Hk)].
    + exists []. rewrite E. split; [reflexivity|]. split; [constructor|].
      left; reflexivity.
    + exists (daySlots doc key). split; [|split].
      * f_equal. apply (extractSchedule_day doc ws key); [exact Hw|].
        apply getProp_In; [|exact Hin].
        cbn in Hw. apply (NoDup_forEachRow _ _ _ _ _ Hw), NoDup_initSchedule.
      * eapply List.Forall_impl; [|apply tableSlots_hour]. cbn. intros sl Hs. lia.
      * right. exists doc, key. auto.
  - cbn in Hw. injection Hw as <-. exists []. cbn.
    split; [reflexivity|]. split; [constructor|]. left; reflexivity.
Qed.

End Extraction.

(** *** Lesson times (getTimetable) *)

Section LessonTimes.

Import SchulmanagerService RawSlots.





Lemma In_omap_scrapeSlot slots sl0 :
  In sl0 (omap scrapeSlot slots) ->
  exists sl, In sl slots /\ scrapeSlot sl = Some sl0.
Proof.
  induction slots as [|sl r IH]; cbn; [tauto|].
  destruct (scrapeSlot sl) as [x|] eqn:E; cbn.
  - intros [->|Hin]; [exists sl; auto|].
    destruct (IH Hin) as (sl' & H1 & H2). exists sl'. auto.
  - intros Hin. destruct (IH Hin) as (sl' & H1 & H2). exists sl'. auto.
Qed.

(** Every Lesson of a timetable is the image of a scraped slot whose hour
    is at least one. *)
Lemma getTimetable_lesson tz portal now s date lessons l :
  getTimetable tz portal now s date = Ok lessons ->
  In l lessons ->
  exists sl, l = toLesson now date sl /\ 1 <= hour sl /\ class_ sl <> "".
Proof.
  intros H Hin.
  apply getTimetable_slots in H as (slots & -> & Hh & _).
  unfold toLessons in Hin. apply in_map_iff in Hin as (sl0 & <- & Hin).
  apply In_omap_scrapeSlot in Hin as (sl & Hsl & Hs).
  exists sl0. split; [reflexivity|].
  rewrite List.Forall_forall in Hh. specialize (Hh sl Hsl).
  unfold scrapeSlot in Hs. apply scrapeCell_Some in Hs as (Hc & Hhour & Hne).
  split; [lia | congruence].
Qed.



(** The periods the design document asks to check. *)
Example period_times :
  map (fun h => (clock (startHour h) (startMinute h),
                 clock (endHour h) (endMinute h))) [1; 2; 5; 8]
  = [("08:00", "08:45"); ("08:45", "09:30"); ("11:00", "11:45");
     ("13:15", "14:00")].
Proof. vm_compute. reflexivity. Qed.

End LessonTimes.

(** *** One Lesson per slot with a subject *)

Section LessonCount.

Import SchulmanagerService RawSlots.

(** C3.  For the slots extracted for a day, in row order, the Lessons
    built from the day's schedule stand one-to-one for the slots with a
    non-empty subject label, in the same order; slots with an empty label
    leave no Lesson, so the number of Lessons is the number of slots with
    a non-empty subject. *)
Theorem toLessons_count t ws key ls now date :
  extractSchedule (Some t) = Ok ws ->
  getProp key ws = Some ls ->
  Forall2 lessonOf (toLessons now date ls)
          (List.filter hasSubject (daySlots t key)) /\
  length (toLessons now date ls)
  = length (List.filter hasSubject (daySlots t key)).
Proof.
  intros H Hg. rewrite (extractSchedule_day t ws key ls H Hg). split.
  - apply toLessons_lessonOf.
  - unfold toLessons. rewrite length_map. apply omap_scrapeSlot_length.
Qed.

Lemma toLessons_count_witness :
  length (toLessons Demo.now "2025-10-13"
            (Demo.lessonsOr (match getProp "Mo" Demo.week with
                             | Some ls => Ok ls
                             | None => Throw ""
                             end)))
  = 3%nat /\
  length (daySlots Demo.thisWeek "Mo") = 4%nat.
Proof.
  assert (H : extractSchedule (Some Demo.thisWeek) = Ok Demo.week)
    by (vm_compute; reflexivity).
  assert (Hg : getProp "Mo" Demo.week
               = Some (Demo.lessonsOr (match getProp "Mo" Demo.week with
                                       | Some ls => Ok ls
                                       | None => Throw ""
                                       end)))
    by (vm_compute; reflexivity).
  destruct (toLessons_count _ _ _ _ Demo.now "2025-10-13" H Hg) as [_ Hlen].
  split; [rewrite Hlen; vm_compute; reflexivity | vm_compute; reflexivity].
Defined.

End LessonCount.

(** *** Substitutions *)

Section Substitutions.

Import SchulmanagerService.

Lemma toLesson_teacher_nonempty now date sl :
  LessonModel.teacher (toLesson now date sl) <> "".
Proof. cbn. apply orStr_default_nonempty. discriminate. Qed.

Lemma truthy_Some_nonempty (x : string) : x <> "" -> truthy (Some x) = true.
Proof. destruct x; [congruence | reflexivity]. Qed.

(** An entry comes from exactly the Lessons that carry a flag. *)
Lemma In_toSubstitutions now lessons e :
  In e (toSubstitutions now lessons) <->
  exists lesson,
    In lesson lessons /\
    (LessonModel.isSubstitution lesson || LessonModel.isCancelled lesson) = true /\
    e = SubstitutionModel.fromScrapedData now (substitutionData lesson).
Proof.
  induction lessons as [|l r IH]; cbn.
  - split; [tauto | intros (x & [] & _)].
  - destruct (LessonModel.isSubstitution l || LessonModel.isCancelled l) eqn:E; cbn.
    + rewrite IH. split.
      * intros [<-|(x & Hin & Hf & He)]; [exists l; auto|].
        exists x. auto.
      * intros (x & [<-|Hin] & Hf & He); [left; auto|].
        right. exists x. auto.
    + rewrite IH. split.
      * intros (x & Hin & Hf & He). exists x. auto.
      * intros (x & [<-|Hin] & Hf & He); [congruence|]. exists x. auto.
Qed.

(** A Lesson with neither flag leaves no entry; one with a flag leaves
    exactly one. *)
Lemma toSubstitutions_single now lesson :
  toSubstitutions now [lesson]
  = if LessonModel.isSubstitution lesson || LessonModel.isCancelled lesson
    then [SubstitutionModel.fromScrapedData now (substitutionData lesson)]
    else [].
Proof.
  cbn. destruct (LessonModel.isSubstitution lesson || LessonModel.isCancelled lesson);
    reflexivity.
Qed.

(** The entry of a cancelled Lesson, field by field. *)
Lemma cancelled_entry now lesson :
  LessonModel.isCancelled lesson = true ->
  let e := SubstitutionModel.fromScrapedData now (substitutionData lesson) in
  SubstitutionModel.type e = SubstitutionModel.CANCELLATION /\
  SubstitutionModel.originalTeacher e = "Unbekannt" /\
  SubstitutionModel.substituteTeacher e = None /\
  SubstitutionModel.substituteSubject e = None /\
  SubstitutionModel.isCancelled e = true.
Proof.
  intros H. cbn. unfold SubstitutionModel.classify. cbn. rewrite H. cbn. auto.
Qed.

(** C4.  For a cancelled Lesson [getSubstitutions] emits one entry of type
    CANCELLATION with the "Unbekannt" teacher and no substitute fields,
    but the entry's note is missing: the sentinel text is handed over
    under the key [info], which [SubstitutionModel.fromScrapedData] does
    not read. *)
Theorem cancelled_entry_note_missing now lesson :
  LessonModel.isCancelled lesson = true ->
  exists e,
    toSubstitutions now [lesson] = [e] /\
    SubstitutionModel.type e = SubstitutionModel.CANCELLATION /\
    SubstitutionModel.originalTeacher e = "Unbekannt" /\
    SubstitutionModel.d_info (substitutionData lesson) = Some "Stunde fällt aus" /\
    SubstitutionModel.note e = None.
Proof.
  intros H.
  exists (SubstitutionModel.fromScrapedData now (substitutionData lesson)).
  rewrite toSubstitutions_single, H, orb_true_r.
  split; [reflexivity|].
  destruct (cancelled_entry now lesson H) as (Ht & Ho & _).
  split; [exact Ht|]. split; [exact Ho|].
  unfold substitutionData. rewrite H. split; reflexivity.
Qed.

Lemma cancelled_entry_note_missing_witness :
  exists e,
    toSubstitutions Demo.now [Demo.cancelledLesson] = [e] /\
    SubstitutionModel.type e = SubstitutionModel.CANCELLATION /\
    SubstitutionModel.originalTeacher e = "Unbekannt" /\
    SubstitutionModel.d_info (substitutionData Demo.cancelledLesson)
    = Some "Stunde fällt aus" /\
    SubstitutionModel.note e = None.
Proof.
  apply (cancelled_entry_note_missing Demo.now Demo.cancelledLesson).
  reflexivity.
Defined.

Lemma getSubstitutions_inv tz portal now s date subs :
  getSubstitutions tz portal now s date = Ok subs ->
  exists lessons, getTimetable tz portal now s date = Ok lessons /\
                  subs = toSubstitutions now lessons.
Proof.
  unfold getSubstitutions. destruct (negb (isLoggedIn s)); [discriminate|].
  destruct (getTimetable tz portal now s date) as [lessons|e]; cbn; [|discriminate].
  intros [= <-]. eauto.
Qed.

(** C5.  No entry returned by [getSubstitutions] has type ROOM_CHANGE:
    the object handed to the model never carries an [originalRoom]; every
    entry is a CANCELLATION or a SUBSTITUTION, and an entry that is not
    cancelled carries the Lesson's teacher, which is never empty, as its
    substitute teacher. *)
Theorem getSubstitutions_no_room_change tz portal now s date subs e :
  getSubstitutions tz portal now s date = Ok subs ->
  In e subs ->
  SubstitutionModel.type e <> SubstitutionModel.ROOM_CHANGE /\
  (SubstitutionModel.type e = SubstitutionModel.CANCELLATION \/
   SubstitutionModel.type e = SubstitutionModel.SUBSTITUTION) /\
  (SubstitutionModel.isCancelled e = false ->
   exists teacher, SubstitutionModel.substituteTeacher e = Some teacher /\
                   teacher <> "") /\
  (forall lesson, SubstitutionModel.d_originalRoom (substitutionData lesson) = None).
Proof.
  intros H Hin.
  apply getSubstitutions_inv in H as (lessons & Ht & ->).
  apply In_toSubstitutions in Hin as (lesson & Hl & _ & ->).
  destruct (getTimetable_lesson _ _ _ _ _ _ _ Ht Hl) as (sl & -> & _ & _).
  pose proof (toLesson_teacher_nonempty now date sl) as Hne.
  set (lesson := toLesson now date sl) in *.
  assert (Hty : SubstitutionModel.type
                  (SubstitutionModel.fromScrapedData now (substitutionData lesson))
                = if LessonModel.isCancelled lesson
                  then SubstitutionModel.CANCELLATION
                  else SubstitutionModel.SUBSTITUTION).
  { cbn [SubstitutionModel.type SubstitutionModel.fromScrapedData].
    unfold SubstitutionModel.classify, substitutionData.
    cbn [SubstitutionModel.d_isCancelled SubstitutionModel.d_note
         SubstitutionModel.d_substituteTeacher SubstitutionModel.d_substituteSubject
         SubstitutionModel.noteSaysCancelled default].
    destruct (LessonModel.isCancelled lesson); cbn [orb]; [reflexivity|].
    rewrite (truthy_Some_nonempty _ Hne). reflexivity. }
  rewrite Hty. split; [|split; [|split]].
  - destruct (LessonModel.isCancelled lesson); discriminate.
  - destruct (LessonModel.isCancelled lesson); auto.
  - cbn [SubstitutionModel.isCancelled SubstitutionModel.substituteTeacher
         SubstitutionModel.fromScrapedData substitutionData
         SubstitutionModel.d_isCancelled SubstitutionModel.d_substituteTeacher default].
    intros Hc. cbv [id] in Hc. rewrite Hc. exists (LessonModel.teacher lesson). auto.
  - reflexivity.
Qed.

Lemma getSubstitutions_no_room_change_witness :
  Forall (fun e => SubstitutionModel.type e <> SubstitutionModel.ROOM_CHANGE)
         Demo.mondaySubstitutions.
Proof.
  assert (H : getSubstitutions 0 Demo.portal Demo.now Demo.session "2025-10-13"
              = Ok Demo.mondaySubstitutions) by (vm_compute; reflexivity).
  apply List.Forall_forall. intros e Hin.
  exact (proj1 (getSubstitutions_no_room_change _ _ _ _ _ _ e H Hin)).
Defined.

(** Outside [getSubstitutions] the room-change branch can be taken. *)
Example room_change_reachable_elsewhere :
  SubstitutionModel.classify
    (SubstitutionModel.mkData None None None None None None None
       (Some "204") None None None None)
  = SubstitutionModel.ROOM_CHANGE.
Proof. reflexivity. Qed.

End Substitutions.

(** *** Which week a timetable is read from *)

Section CurrentWeek.

Import SchulmanagerService.

Lemma toLesson_labels now date sl :
  date <> "" ->
  LessonModel.date (toLesson now date sl) = date /\
  LessonModel.id (toLesson now date sl)
  = (date ++ "-" ++ Number_toString (hour sl))%string.
Proof.
  intros H. split; cbn.
  - apply orStr_nonempty, H.
  - reflexivity.
Qed.

End CurrentWeek.

(** *** The calendar *)

Section Calendar.

Import RangeCheck.

Lemma checkFrom_sound (f : Z -> bool) (fuel : nat) :
  forall z, checkFrom f fuel z = true ->
  forall k, z <= k < z + Z.of_nat fuel -> f k = true.
Proof.
  induction fuel as [|fuel IH]; intros z H k Hk; [lia|].
  cbn [checkFrom] in H. destruct (f z) eqn:E; [|discriminate].
  destruct (Z.eq_dec k z) as [->|Hne]; [exact E|].
  apply (IH (z + 1) H). lia.
Qed.

Lemma eraDayOk_all (doe : Z) : 0 <= doe < 146097 -> eraDayOk doe = true.
Proof.
  intros H. apply (checkFrom_sound eraDayOk (Z.to_nat 146097) 0); [|lia].
  vm_compute. reflexivity.
Qed.

Lemma yearDigitsOk_all (y : Z) : 0 <= y <= 9999 -> yearDigitsOk y = true.
Proof.
  intros H. apply (checkFrom_sound yearDigitsOk (Z.to_nat 10000) 0); [|lia].
  vm_compute. reflexivity.
Qed.

Lemma twoDigitsOk_all (n : Z) : 0 <= n <= 31 -> twoDigitsOk n = true.
Proof.
  intros H. apply (checkFrom_sound twoDigitsOk (Z.to_nat 32) 0); [|lia].
  vm_compute. reflexivity.
Qed.

Lemma civilFromDays_range (z : Z) :
  1 <= c_month (civilFromDays z) <= 12 /\ 1 <= c_date (civilFromDays z) <= 31.
Proof.
  unfold civilFromDays. cbn [c_month c_date].
  set (doe := (z + 719468) mod 146097).
  assert (Hdoe : 0 <= doe < 146097) by (apply Z.mod_pos_bound; lia).
  pose proof (eraDayOk_all doe Hdoe) as Hok. unfold eraDayOk in Hok.
  set (mp := monthIndex (dayOfYear doe)) in *.
  destruct (Z.ltb_spec mp 10); lia.
Qed.

(** The day number of the calendar date of a day number is that number. *)
Lemma daysFromCivil_civilFromDays (z : Z) :
  daysFromCivil (c_year (civilFromDays z)) (c_month (civilFromDays z))
                (c_date (civilFromDays z)) = z.
Proof.
  unfold civilFromDays. cbn [c_year c_month c_date].
  set (era := (z + 719468) / 146097).
  set (doe := (z + 719468) mod 146097).
  assert (Hz : z + 719468 = 146097 * era + doe) by (apply Z.div_mod; lia).
  assert (Hdoe : 0 <= doe < 146097) by (apply Z.mod_pos_bound; lia).
  pose proof (eraDayOk_all doe Hdoe) as Hok. unfold eraDayOk in Hok.
  unfold dayOfYear in *.
  set (yoe := yearOfEra doe) in *.
  set (doy := doe - (365 * yoe + yoe / 4 - yoe / 100)) in *.
  set (mp := monthIndex doy) in *.
  assert (Hyoe : 0 <= yoe < 400) by lia.
  assert (Hera : forall c, (yoe + era * 400 + c - c) / 400 = era).
  { intros c. replace (yoe + era * 400 + c - c) with (yoe + era * 400) by lia.
    rewrite Z.div_add by lia. rewrite Z.div_small by lia. lia. }
  unfold daysFromCivil.
  destruct (Z.ltb_spec mp 10) as [Hlt|Hge].
  - destruct (Z.leb_spec (mp + 3) 2); [lia|].
    destruct (Z.ltb_spec 2 (mp + 3)); [|lia].
    rewrite Hera. replace (mp + 3 - 3) with mp by lia.
    replace (yoe + era * 400 + 0 - 0 - era * 400) with yoe by lia.
    unfold doy. lia.
  - destruct (Z.leb_spec (mp - 9) 2); [|lia].
    destruct (Z.ltb_spec 2 (mp - 9)); [lia|].
    rewrite Hera. replace (mp - 9 + 9) with mp by lia.
    replace (yoe + era * 400 + 1 - 1 - era * 400) with yoe by lia.
    unfold doy. lia.
Qed.

Lemma daysFromCivil_date (y m d : Z) :
  daysFromCivil y m d = daysFromCivil y m 1 + d - 1.
Proof. unfold daysFromCivil. lia. Qed.

(** [MakeDay] on the year and month of [t]: the first of the month plus
    the days asked for. *)
Lemma MakeDay_same_month (t dt : Z) :
  MakeDay (YearFromTime t) (MonthFromTime t) dt = Day t - DateFromTime t + dt.
Proof.
  unfold MakeDay, YearFromTime, MonthFromTime, DateFromTime.
  rewrite Z.sub_add.
  pose proof (daysFromCivil_civilFromDays (Day t)) as H.
  rewrite daysFromCivil_date in H. lia.
Qed.

Lemma Day_MakeDate (day time : Z) :
  0 <= time < msPerDay -> Day (MakeDate day time) = day.
Proof.
  intros H. unfold Day, MakeDate.
  rewrite Z.div_add_l by (unfold msPerDay; lia).
  rewrite Z.div_small by exact H. lia.
Qed.

Lemma TimeWithinDay_range (t : Z) : 0 <= TimeWithinDay t < msPerDay.
Proof. apply Z.mod_pos_bound. reflexivity. Qed.

Lemma list_ascii_of_string_app (a b : string) :
  list_ascii_of_string (a ++ b)
  = (list_ascii_of_string a ++ list_ascii_of_string b)%list.
Proof. induction a as [|c a IH]; simpl; [|rewrite IH]; reflexivity. Qed.

(** A printed date is read back as midnight UTC of the same day. *)
Lemma Date_parse_toISODate (t : Z) :
  0 <= YearFromTime t <= 9999 ->
  Date_parse (toISODate t) = Some (Day t * msPerDay).
Proof.
  unfold YearFromTime, toISODate, Date_parse. intros Hy.
  pose proof (civilFromDays_range (Day t)) as [Hm Hd].
  pose proof (daysFromCivil_civilFromDays (Day t)) as Hrt.
  destruct (civilFromDays (Day t)) as [y m d] eqn:Hc. cbn [c_year c_month c_date] in *.
  pose proof (yearDigitsOk_all y Hy) as H1. unfold yearDigitsOk in H1.
  assert (Hm' : 0 <= m <= 31) by lia. assert (Hd' : 0 <= d <= 31) by lia.
  pose proof (twoDigitsOk_all m Hm') as H2. unfold twoDigitsOk in H2.
  pose proof (twoDigitsOk_all d Hd') as H3. unfold twoDigitsOk in H3.
  rewrite !list_ascii_of_string_app.
  destruct (list_ascii_of_string (isoYear y)) as [|y1 [|y2 [|y3 [|y4 [|? ?]]]]];
    try discriminate.
  destruct (list_ascii_of_string (pad2 m)) as [|m1 [|m2 [|? ?]]]; try discriminate.
  destruct (list_ascii_of_string (pad2 d)) as [|d1 [|d2 [|? ?]]]; try discriminate.
  cbn [app list_ascii_of_string isDash nat_of_ascii andb].
  change (isDash "-") with true. cbn [andb].
  destruct (digitsVal 0 [y1; y2; y3; y4]) as [vy|]; [|discriminate].
  destruct (digitsVal 0 [m1; m2]) as [vm|]; [|discriminate].
  destruct (digitsVal 0 [d1; d2]) as [vd|]; [|discriminate].
  apply Z.eqb_eq in H1, H2, H3. subst vy vm vd.
  assert (Hr : (1 <=? m) && (m <=? 12) && (1 <=? d) && (d <=? 31) = true).
  { rewrite !andb_true_iff, !Z.leb_le. lia. }
  rewrite Hr. f_equal. unfold MakeDate, MakeDay. rewrite Z.add_0_r, Z.sub_add.
  f_equal. rewrite <- Hrt. unfold daysFromCivil. lia.
Qed.

End Calendar.

(** *** The week anchor *)

Section WeekAnchorFacts.

Import WeekAnchor.

(** In local time [getMondayOfWeek] does reach the Monday of the week,
    at the same time of day. *)
Lemma mondayInstant_local (tz date : Z) :
  LocalTime tz (mondayInstant tz date)
  = MakeDate (Day (LocalTime tz date) - backToMonday (getDay tz date))
             (TimeWithinDay (LocalTime tz date)).
Proof.
  unfold mondayInstant, setDate, getDate, backToMonday.
  rewrite MakeDay_same_month. unfold LocalTime, UTC.
  rewrite Z.sub_add. f_equal.
  destruct (Z.eqb_spec (getDay tz date) 0) as [E|E]; lia.
Qed.

Lemma mondayInstant_local_weekday (tz date : Z) :
  WeekDay (LocalTime tz (mondayInstant tz date)) = 1.
Proof.
  rewrite mondayInstant_local. unfold WeekDay.
  rewrite Day_MakeDate by apply TimeWithinDay_range.
  unfold getDay, WeekDay, WeekDayOfDay, backToMonday.
  set (D := Day (LocalTime tz date)).
  destruct (Z.eqb_spec ((D + 4) mod 7) 0) as [E|E];
    pose proof (Z.mod_pos_bound (D + 4) 7 ltac:(lia));
    pose proof (Z.div_mod (D + 4) 7 ltac:(lia)).
  - replace (D - 6 + 4) with (1 + ((D + 4) / 7 - 1) * 7) by lia.
    rewrite Z.mod_add by lia. reflexivity.
  - replace (D - ((D + 4) mod 7 - 1) + 4) with (1 + ((D + 4) / 7) * 7) by lia.
    rewrite Z.mod_add by lia. reflexivity.
Qed.

Lemma LocalTime_utc (t : Z) : LocalTime 0 t = t.
Proof. unfold LocalTime. lia. Qed.

Lemma Day_midnight (d : Z) : Day (d * msPerDay) = d.
Proof. unfold Day. apply Z.div_mul. discriminate. Qed.

Lemma TimeWithinDay_midnight (d : Z) : TimeWithinDay (d * msPerDay) = 0.
Proof. unfold TimeWithinDay. apply Z.mod_mul. discriminate. Qed.

(** On a host whose local time is UTC the printed date is a Monday. *)
Lemma getMondayOfWeek_utc_monday (date : Z) :
  0 <= YearFromTime (mondayInstant 0 date) <= 9999 ->
  weekdayOfDateString (getMondayOfWeek 0 date) = Some 1.
Proof.
  intros Hy.
  pose proof (mondayInstant_local_weekday 0 date) as H.
  rewrite LocalTime_utc in H.
  unfold weekdayOfDateString, getMondayOfWeek.
  rewrite (Date_parse_toISODate _ Hy).
  revert H. generalize (mondayInstant 0 date). intros m H.
  unfold WeekDay in *. rewrite Day_midnight. rewrite H. reflexivity.
Qed.

(** The Monday of a Monday's midnight is that midnight. *)
Lemma mondayInstant_utc_fixed (d : Z) :
  WeekDayOfDay d = 1 -> mondayInstant 0 (d * msPerDay) = d * msPerDay.
Proof.
  intros H. rewrite <- (LocalTime_utc (mondayInstant 0 (d * msPerDay))).
  rewrite mondayInstant_local. unfold getDay. rewrite !LocalTime_utc.
  unfold WeekDay. rewrite Day_midnight, TimeWithinDay_midnight, H.
  unfold backToMonday, MakeDate. cbn [Z.eqb]. lia.
Qed.

(** ... and printing the Monday of the printed date gives it again. *)
Lemma getMondayOfWeek_utc_idempotent (date : Z) :
  0 <= YearFromTime (mondayInstant 0 date) <= 9999 ->
  again 0 (getMondayOfWeek 0 date) = Some (getMondayOfWeek 0 date).
Proof.
  intros Hy.
  pose proof (mondayInstant_local_weekday 0 date) as H.
  rewrite LocalTime_utc in H.
  unfold again. unfold getMondayOfWeek at 1.
  rewrite (Date_parse_toISODate _ Hy).
  unfold getMondayOfWeek.
  revert H. generalize (mondayInstant 0 date). intros m H.
  rewrite mondayInstant_utc_fixed by exact H.
  unfold toISODate. rewrite Day_midnight. reflexivity.
Qed.

(** C1.  On a host one hour east of UTC, at 00:30 local time on Wednesday
    2025-11-05 (2025-11-04T23:30Z), [getMondayOfWeek] moves to Monday
    00:30 local time and prints that instant in UTC: the result is
    2025-11-02, a Sunday, and feeding it back in gives 2025-10-27. *)
Theorem getMondayOfWeek_east_of_utc :
  toISODate 1762299000000 = "2025-11-04" /\
  TimeWithinDay 1762299000000 = 23 * 3600000 + 30 * 60000 /\
  getDay 60 1762299000000 = 3 /\
  getMondayOfWeek 60 1762299000000 = "2025-11-02" /\
  weekdayOfDateString "2025-11-02" = Some 0 /\
  again 60 "2025-11-02" = Some "2025-10-27".
Proof. vm_compute. repeat split; reflexivity. Qed.

(** West of UTC a date string, read as midnight UTC, falls on the evening
    before in local time: a Monday's date is sent to the Tuesday of the
    week before. *)
Example getMondayOfWeek_west_of_utc :
  weekdayOfDateString "2025-10-13" = Some 1 /\
  again (-300) "2025-10-13" = Some "2025-10-07" /\
  weekdayOfDateString "2025-10-07" = Some 2.
Proof. vm_compute. repeat split; reflexivity. Qed.

End WeekAnchorFacts.

(** *** The cache *)

Section CacheFacts.

Import CacheService.

Context {V : Type}.

Lemma NodeCache_del_lookup (keys : list string) :
  forall (n : nat) (d : gmap string (@Entry V)) (k : string),
    (fold_left
       (fun acc key =>
          match acc.2 !! key with
          | Some _ => (S acc.1, delete key acc.2)
          | None => acc
          end)
       keys (n, d)).2 !! k
    = if bool_decide (k ∈ keys) then None else d !! k.
Proof.
  induction keys as [|key r IH]; intros n d k; cbn [fold_left].
  - cbn. case_bool_decide as H; [|reflexivity]. inversion H.
  - cbn [snd fst].
    assert (Hstep : forall m (d' : gmap string (@Entry V)),
              (forall j, d' !! j = if bool_decide (j = key) then None else d !! j) ->
              (fold_left
                 (fun acc key0 =>
                    match acc.2 !! key0 with
                    | Some _ => (S acc.1, delete key0 acc.2)
                    | None => acc
                    end) r (m, d')).2 !! k
              = if bool_decide (k ∈ key :: r) then None else d !! k).
    { intros m d' Hd'. rewrite IH, Hd'.
      destruct (decide (k = key)) as [->|Hk].
      - rewrite (bool_decide_eq_true_2 (key = key)) by reflexivity.
        rewrite (bool_decide_eq_true_2 (key ∈ key :: r))
          by (apply elem_of_cons; left; reflexivity).
        destruct (bool_decide (key ∈ r)); reflexivity.
      - rewrite (bool_decide_eq_false_2 (k = key)) by exact Hk.
        destruct (decide (k ∈ r)) as [Hr|Hr].
        + rewrite (bool_decide_eq_true_2 (k ∈ r)) by exact Hr.
          rewrite (bool_decide_eq_true_2 (k ∈ key :: r))
            by (apply elem_of_cons; right; exact Hr).
          reflexivity.
        + rewrite (bool_decide_eq_false_2 (k ∈ r)) by exact Hr.
          rewrite (bool_decide_eq_false_2 (k ∈ key :: r))
            by (apply not_elem_of_cons; split; assumption).
          reflexivity. }
    destruct (d !! key) eqn:E.
    + apply Hstep. intros j. destruct (decide (j = key)) as [->|Hj].
      * rewrite bool_decide_eq_true_2 by reflexivity. apply lookup_delete_eq.
      * rewrite bool_decide_eq_false_2 by exact Hj.
        apply lookup_delete_ne. congruence.
    + apply Hstep. intros j. destruct (decide (j = key)) as [->|Hj].
      * rewrite bool_decide_eq_true_2 by reflexivity. exact E.
      * rewrite bool_decide_eq_false_2 by exact Hj. reflexivity.
Qed.

Lemma elem_of_NodeCache_keys (d : gmap string (@Entry V)) (k : string) :
  k ∈ NodeCache_keys d <-> is_Some (d !! k).
Proof.
  unfold NodeCache_keys. rewrite list_elem_of_fmap. split.
  - intros ([k' e] & -> & Hin). apply elem_of_map_to_list in Hin. cbn. eauto.
  - intros [e He]. exists (k, e). split; [reflexivity|].
    apply elem_of_map_to_list, He.
Qed.

Lemma delByPrefix_get (prefix : string) (d : gmap string (@Entry V))
    (k : string) :
  (delByPrefix prefix d).2 !! k
  = if startsWith k prefix then None else d !! k.
Proof.
  unfold delByPrefix, NodeCache_del. rewrite NodeCache_del_lookup.
  case_bool_decide as Hin.
  - apply list_elem_of_In, filter_In in Hin as [_ Hp]. rewrite Hp. reflexivity.
  - destruct (startsWith k prefix) eqn:Hp; [|reflexivity].
    destruct (d !! k) as [e|] eqn:E; [|reflexivity].
    exfalso. apply Hin, list_elem_of_In, filter_In. split; [|exact Hp].
    apply list_elem_of_In, elem_of_NodeCache_keys. rewrite E. eauto.
Qed.

(** C7.  [delByPrefix(prefix)] deletes exactly the entries whose key
    starts with the prefix: afterwards no such key is left, and every key
    that does not start with the prefix holds the entry it held before. *)
Theorem delByPrefix_exact (prefix : string) (d : gmap string (@Entry V)) :
  (forall k, startsWith k prefix = true ->
             (delByPrefix prefix d).2 !! k = None) /\
  (forall k, startsWith k prefix = false ->
             (delByPrefix prefix d).2 !! k = d !! k).
Proof.
  split; intros k Hk; rewrite delByPrefix_get, Hk; reflexivity.
Qed.

End CacheFacts.

(** Clearing the timetable category leaves the substitutions in place. *)
Lemma delByPrefix_exact_witness :
  let d' := (CacheService.delByPrefix "timetable:" Demo.twoCategories).2 in
  d' !! "timetable:default:2025-10-13" = None /\
  d' !! "substitutions:default:2025-10-13"
  = Some (CacheService.mkEntry 2%nat 0).
Proof.
  destruct (delByPrefix_exact "timetable:" Demo.twoCategories) as [Hgone Hkept].
  split.
  - apply Hgone. reflexivity.
  - rewrite Hkept by reflexivity. vm_compute. reflexivity.
Defined.

Section GetOrSet.

Import CacheService.

Context {V : Type}.

(** [config.cache.ttl.timetable] *)
Variable cfg : Z.

Lemma get_live (key : string) (now : Z) (d : gmap string (@Entry V)) (value : V) :
  live key now d value -> get key now d = (Some value, d).
Proof.
  intros (e & He & Hx & Hv). unfold get, NodeCache_get.
  rewrite He, Hx, Hv. reflexivity.
Qed.

Lemma get_not_live (key : string) (now : Z) (d : gmap string (@Entry V)) :
  (forall value, ~ live key now d value) -> (get key now d).1 = None.
Proof.
  intros H. unfold get, NodeCache_get.
  destruct (d !! key) as [e|] eqn:He; [|reflexivity].
  destruct (expired now e) eqn:Hx; [reflexivity|].
  exfalso. apply (H (v e)). exists e. auto.
Qed.

Lemma getOrSet_hit (key : string) (fn : Compute) (ttl : option Z)
    (w : @World V) (value : V) :
  live key (clock w) (data w) value ->
  getOrSet cfg key fn ttl w = (Ok value, w).
Proof.
  intros H. unfold getOrSet. rewrite (get_live _ _ _ _ H).
  destruct w; reflexivity.
Qed.

Lemma getOrSet_miss (key : string) (fn : Compute) (ttl : option Z)
    (w : @World V) (value : V) (elapsed : Z) :
  (forall x, ~ live key (clock w) (data w) x) ->
  fn (calls w) = (Ok value, elapsed) ->
  getOrSet cfg key fn ttl w
  = (Ok value,
     mkWorld (clock w + elapsed)
       (NodeCache_set key value (effectiveTtl cfg ttl) (clock w + elapsed)
          (get key (clock w) (data w)).2)
       (S (calls w))).
Proof.
  intros H Hfn. unfold getOrSet.
  pose proof (get_not_live _ _ _ H) as Hg.
  destruct (get key (clock w) (data w)) as [cached d1]. cbn in Hg. subst cached.
  rewrite Hfn. reflexivity.
Qed.

(** C6, as the code has it.  With a live entry under the key, [getOrSet]
    returns its value and neither runs the compute function nor changes
    the cache.  Without one it runs the compute function once and, when
    that succeeds, stores the result under the key and returns it; the
    entry is stored with the given TTL when that is a non-zero number and
    with the configured timetable TTL when it is 0 or left out.  A second
    call for the key before that entry expires returns the same value
    without running any compute function. *)
Theorem getOrSet_spec (key : string) (fn : Compute) (ttl : option Z)
    (w : @World V) :
  (forall value,
     live key (clock w) (data w) value ->
     getOrSet cfg key fn ttl w = (Ok value, w)) /\
  (forall value elapsed,
     (forall x, ~ live key (clock w) (data w) x) ->
     fn (calls w) = (Ok value, elapsed) ->
     let now' := clock w + elapsed in
     let stored := match ttl with
                   | Some 0 | None => cfg
                   | Some n => n
                   end in
     exists w',
       getOrSet cfg key fn ttl w = (Ok value, w') /\
       calls w' = S (calls w) /\
       clock w' = now' /\
       data w' !! key = Some (wrap now' stored value) /\
       (forall delta fn' ttl',
          expired (now' + delta) (wrap now' stored value) = false ->
          getOrSet cfg key fn' ttl' (later delta w') = (Ok value, later delta w'))).
Proof.
  split; [intros value; apply getOrSet_hit|].
  intros value elapsed Hmiss Hfn now' stored.
  eexists. split; [apply (getOrSet_miss _ _ _ _ _ _ Hmiss Hfn)|].
  cbn [calls clock data]. split; [reflexivity|]. split; [reflexivity|].
  assert (Hlook : NodeCache_set key value (effectiveTtl cfg ttl) now'
                    (get key (clock w) (data w)).2 !! key
                  = Some (wrap now' stored value)).
  { unfold NodeCache_set. rewrite lookup_insert_eq. reflexivity. }
  split; [exact Hlook|].
  intros delta fn' ttl' Hx. apply getOrSet_hit. cbn [later clock data].
  exists (wrap now' stored value). split; [exact Hlook|]. split; [exact Hx|].
  reflexivity.
Qed.

End GetOrSet.

Section GetOrSetExamples.

Import CacheService.

Lemma getOrSet_spec_witness :
  exists w',
    getOrSet 21600 "k" Demo.seven (Some 60) Demo.emptyWorld = (Ok 7%nat, w') /\
    calls w' = 1%nat /\
    getOrSet 21600 "k" Demo.seven (Some 60) (later 59000 w') = (Ok 7%nat, later 59000 w').
Proof.
  destruct (getOrSet_spec 21600 "k" Demo.seven (Some 60) Demo.emptyWorld) as [_ Hmiss].
  assert (Hno : forall x, ~ live "k" (clock Demo.emptyWorld) (data Demo.emptyWorld) x).
  { intros x (e & He & _). vm_compute in He. discriminate. }
  destruct (Hmiss 7%nat 0 Hno eq_refl) as (w' & H1 & H2 & _ & _ & H5).
  exists w'. split; [exact H1|]. split; [exact H2|].
  apply H5. vm_compute. reflexivity.
Defined.

(** Given the TTL 0, the cache is asked to keep the entry for the
    configured timetable TTL (21600 s by default), not for the TTL 0 (no
    expiry in node-cache): the stored entry differs from the one the TTL
    0 would give, and once the 21600 s are over a further call runs the
    compute function again. *)
Lemma getOrSet_given_ttl_counterexample :
  let w1 := (getOrSet 21600 "k" Demo.seven (Some 0) Demo.emptyWorld).2 in
  data w1 <> NodeCache_set "k" 7%nat 0 1000 ∅ /\
  data w1 !! "k" = Some (mkEntry 7%nat 21601000) /\
  NodeCache_set "k" 7%nat 0 1000 ∅ !! "k" = Some (mkEntry 7%nat 0) /\
  calls (getOrSet 21600 "k" Demo.seven (Some 0) (later 21600001 w1)).2 = 2%nat.
Proof.
  cbv zeta.
  assert (H1 : data (getOrSet 21600 "k" Demo.seven (Some 0) Demo.emptyWorld).2 !! "k"
               = Some (mkEntry 7%nat 21601000)) by (vm_compute; reflexivity).
  assert (H2 : NodeCache_set "k" 7%nat 0 1000 (∅ : gmap string (@Entry nat)) !! "k"
               = Some (mkEntry 7%nat 0)) by (vm_compute; reflexivity).
  split; [|split; [exact H1 | split; [exact H2 | vm_compute; reflexivity]]].
  intros Heq. rewrite Heq, H2 in H1. discriminate.
Qed.

End GetOrSetExamples.

(** *** Login *)

Section LoginFacts.

Import SchulmanagerService Login.

Ltac step_run :=
  match goal with
  | |- context [match ?x with Ok _ => _ | Throw _ => _ end] => destruct x
  | |- context [if ?b then _ else _] => destruct b
  | |- context [let (_, _) := ?x in _] => destruct x
  end; cbn.

(** The [try] block leaves the in-flight marker alone; when it returns,
    it returns the value it has just written to [isLoggedIn]. *)
Lemma loginSequence_cases (run : Run) (s : Session) :
  loginPromise (loginSequence run s).2 = loginPromise s /\
  forall b, (loginSequence run s).1 = Ok b -> isLoggedIn (loginSequence run s).2 = b.
Proof.
  unfold loginSequence, init, findEmailInput, bindM, tryCatch, lift, ret, throw,
    getSession, setBrowser, setPage, setIsLoggedIn.
  destruct s as [br pg li lp]. cbn.
  repeat step_run; (split; [reflexivity | intros b' E; congruence]).
Qed.

Lemma performLogin_total (env : Env) (username password : string) (s : Session) :
  exists b s',
    performLogin env username password s = (Ok b, s') /\
    isLoggedIn s' = b /\
    loginPromise s' = loginPromise s /\
    (forall e s0,
       loginSequence (env username password) s = (Throw e, s0) ->
       b = false /\ isLoggedIn s' = false).
Proof.
  unfold performLogin, tryCatch.
  destruct (loginSequence_cases (env username password) s) as [Hlp Hok].
  destruct (loginSequence (env username password) s) as [[b|e] s1] eqn:E;
    cbn [fst snd] in *.
  - exists b, s1. split; [reflexivity|]. split; [apply Hok; reflexivity|].
    split; [exact Hlp|]. intros e s0 [=].
  - exists false. eexists. split; [reflexivity|]. cbn.
    split; [reflexivity|]. split; [exact Hlp|]. auto.
Qed.

Lemma Inv_initial : Inv initial.
Proof.
  constructor; cbn; try (intros; discriminate).
  intros pid (u & p & H). discriminate.
Qed.

Lemma Inv_call (username password : string) (st : State) :
  Inv st -> Inv (call username password st).
Proof.
  intros I. unfold call.
  destruct (isLoggedIn (session st)) eqn:Hli;
    [|destruct (loginPromise (session st)) as [pid0|] eqn:Hlp].
  - (* already logged in: the caller returns true *)
    constructor; cbn [session promises tasks].
    + intros tid pid H. apply lookup_snoc_Some in H as [[_ H]|[_ [=]]].
      exact (inv_leader st I _ _ H).
    + intros tid tid' pid pid' H H'.
      apply lookup_snoc_Some in H as [[_ H]|[_ [=]]].
      apply lookup_snoc_Some in H' as [[_ H']|[_ [=]]].
      exact (inv_leader_unique st I _ _ _ _ H H').
    + intros pid H. destruct (inv_marker st I pid H) as [tid Ht].
      exists tid. apply lookup_snoc_Some. left.
      split; [exact (lookup_lt_Some _ _ _ Ht) | exact Ht].
    + exact (inv_pending st I).
    + exact (inv_settled st I).
    + intros tid r H. apply lookup_snoc_Some in H as [[_ H]|[_ [= <-]]].
      * exact (inv_returned st I _ _ H).
      * eauto.
    + intros tid leader pid H. apply lookup_snoc_Some in H as [[_ H]|[_ [=]]].
      exact (inv_waiting st I _ _ _ H).
  - (* an attempt is marked: the caller waits for it *)
    constructor; cbn [session promises tasks].
    + intros tid pid H. apply lookup_snoc_Some in H as [[_ H]|[_ [=]]].
      exact (inv_leader st I _ _ H).
    + intros tid tid' pid pid' H H'.
      apply lookup_snoc_Some in H as [[_ H]|[_ [=]]].
      apply lookup_snoc_Some in H' as [[_ H']|[_ [=]]].
      exact (inv_leader_unique st I _ _ _ _ H H').
    + intros pid H. destruct (inv_marker st I pid H) as [tid Ht].
      exists tid. apply lookup_snoc_Some. left.
      split; [exact (lookup_lt_Some _ _ _ Ht) | exact Ht].
    + exact (inv_pending st I).
    + exact (inv_settled st I).
    + intros tid r H. apply lookup_snoc_Some in H as [[_ H]|[_ [=]]].
      exact (inv_returned st I _ _ H).
    + intros tid leader pid H. apply lookup_snoc_Some in H as [[_ H]|[_ [= <- <-]]].
      * exact (inv_waiting st I _ _ _ H).
      * destruct (inv_marker st I pid0 Hlp) as [tid0 Ht0].
        exact (inv_waiting st I _ _ _ Ht0).
  - (* no attempt is marked: the caller starts one *)
    assert (Hnolead : forall tid pid, tasks st !! tid = Some (Awaiting true pid) -> False).
    { intros tid pid H. pose proof (inv_leader st I _ _ H). congruence. }
    assert (Hnopend : forall pid, ~ pendingAt st pid).
    { intros pid H. destruct (inv_pending st I pid H). congruence. }
    constructor; cbn [session promises tasks setLoginPromise loginPromise isLoggedIn].
    + intros tid pid H. apply lookup_snoc_Some in H as [[_ H]|[_ [= <-]]].
      * destruct (Hnolead _ _ H).
      * reflexivity.
    + intros tid tid' pid pid' H H'.
      apply lookup_snoc_Some in H as [[_ H]|[-> _]]; [destruct (Hnolead _ _ H)|].
      apply lookup_snoc_Some in H' as [[_ H']|[-> _]]; [destruct (Hnolead _ _ H')|].
      reflexivity.
    + intros pid [= <-]. exists (length (tasks st)).
      apply lookup_snoc_Some. right. auto.
    + intros pid (u & p & H).
      apply lookup_snoc_Some in H as [[_ H]|[-> _]].
      * destruct (Hnopend pid). exists u, p. exact H.
      * auto.
    + intros pid r H. apply lookup_snoc_Some in H as [[_ H]|[_ [=]]].
      exact (inv_settled st I _ _ H).
    + intros tid r H. apply lookup_snoc_Some in H as [[_ H]|[_ [=]]].
      exact (inv_returned st I _ _ H).
    + intros tid leader pid H. rewrite length_app. cbn.
      apply lookup_snoc_Some in H as [[_ H]|[_ [= <- <-]]].
      * pose proof (inv_waiting st I _ _ _ H). lia.
      * lia.
Qed.

Lemma Inv_settle (env : Env) (pid : nat) (st st' : State) :
  Inv st -> settle env pid st = Some st' -> Inv st'.
Proof.
  intros I H. unfold settle in H.
  destruct (promises st !! pid) as [[u p|r]|] eqn:Hp; try discriminate.
  destruct (performLogin_total env u p (session st)) as (b & s' & E & Hb & Hlp & _).
  rewrite E in H. injection H as <-.
  assert (Hpend : pendingAt st pid) by (exists u, p; exact Hp).
  destruct (inv_pending st I pid Hpend) as [Hmark _].
  constructor; cbn [session promises tasks]; rewrite ?Hlp.
  - exact (inv_leader st I).
  - exact (inv_leader_unique st I).
  - exact (inv_marker st I).
  - intros pid' (u' & p' & H').
    apply list_lookup_insert_Some in H' as [(_ & [=] & _)|[Hne H']].
    assert (Hpend' : pendingAt st pid') by (exists u', p'; exact H').
    destruct (inv_pending st I pid' Hpend') as [Hmark' _]. congruence.
  - intros pid' r H'.
    apply list_lookup_insert_Some in H' as [(_ & [= <-] & _)|[_ H']].
    + eauto.
    + exact (inv_settled st I _ _ H').
  - exact (inv_returned st I).
  - intros tid leader pid' H'. rewrite length_insert.
    exact (inv_waiting st I _ _ _ H').
Qed.

Lemma Inv_resume (tid : nat) (st st' : State) :
  Inv st -> resume tid st = Some st' -> Inv st'.
Proof.
  intros I H. unfold resume in H.
  destruct (tasks st !! tid) as [[leader pid|r0]|] eqn:Ht; try discriminate.
  destruct (promises st !! pid) as [[u p|r]|] eqn:Hp; try discriminate.
  injection H as <-.
  assert (Hother : forall tid' x,
            <[tid := Returned r]> (tasks st) !! tid' = Some x ->
            (tid' = tid /\ x = Returned r) \/ (tid' <> tid /\ tasks st !! tid' = Some x)).
  { intros tid' x H'.
    apply list_lookup_insert_Some in H' as [(-> & <- & _)|[Hne H']]; auto. }
  destruct leader; constructor; cbn [session promises tasks setLoginPromise
                                       loginPromise isLoggedIn].
  - intros tid' pid' H'. destruct (Hother _ _ H') as [[_ [=]]|[Hne H'']].
    destruct Hne. symmetry. exact (inv_leader_unique st I _ _ _ _ Ht H'').
  - intros t1 t2 p1 p2 H1 H2.
    destruct (Hother _ _ H1) as [[_ [=]]|[_ H1']].
    destruct (Hother _ _ H2) as [[_ [=]]|[_ H2']].
    exact (inv_leader_unique st I _ _ _ _ H1' H2').
  - intros pid' [=].
  - intros pid' Hpend. destruct (inv_pending st I pid' Hpend) as [Hmark _].
    pose proof (inv_leader st I _ _ Ht) as Hmine.
    assert (pid' = pid) by congruence. subst pid'.
    destruct Hpend as (u & p & Hpend). cbn in Hpend. congruence.
  - exact (inv_settled st I).
  - intros tid' r' H'. destruct (Hother _ _ H') as [[_ [= <-]]|[_ H'']].
    + exact (inv_settled st I _ _ Hp).
    + exact (inv_returned st I _ _ H'').
  - intros tid' leader pid' H'. destruct (Hother _ _ H') as [[_ [=]]|[_ H'']].
    exact (inv_waiting st I _ _ _ H'').
  - intros tid' pid' H'. destruct (Hother _ _ H') as [[_ [=]]|[_ H'']].
    exact (inv_leader st I _ _ H'').
  - intros t1 t2 p1 p2 H1 H2.
    destruct (Hother _ _ H1) as [[_ [=]]|[_ H1']].
    destruct (Hother _ _ H2) as [[_ [=]]|[_ H2']].
    exact (inv_leader_unique st I _ _ _ _ H1' H2').
  - intros pid' Hm. destruct (inv_marker st I pid' Hm) as [tid0 Ht0].
    exists tid0. apply list_lookup_insert_Some. right. split; [|exact Ht0].
    intros ->. congruence.
  - exact (inv_pending st I).
  - exact (inv_settled st I).
  - intros tid' r' H'. destruct (Hother _ _ H') as [[_ [= <-]]|[_ H'']].
    + exact (inv_settled st I _ _ Hp).
    + exact (inv_returned st I _ _ H'').
  - intros tid' leader pid' H'. destruct (Hother _ _ H') as [[_ [=]]|[_ H'']].
    exact (inv_waiting st I _ _ _ H'').
Qed.

Lemma Inv_close (st : State) : Inv st -> Inv (close st).
Proof.
  intros I. unfold close. destruct (browser (session st)); [|exact I].
  constructor; cbn [session promises tasks loginPromise isLoggedIn].
  - exact (inv_leader st I).
  - exact (inv_leader_unique st I).
  - exact (inv_marker st I).
  - intros pid H. destruct (inv_pending st I pid H). auto.
  - exact (inv_settled st I).
  - exact (inv_returned st I).
  - exact (inv_waiting st I).
Qed.

Lemma Inv_step (env : Env) (l : Label) (st st' : State) :
  Inv st -> step env l st = Some st' -> Inv st'.
Proof.
  intros I H. destruct l as [u p|pid|tid|]; cbn in H.
  - injection H as <-. apply Inv_call, I.
  - exact (Inv_settle env pid st st' I H).
  - exact (Inv_resume tid st st' I H).
  - injection H as <-. apply Inv_close, I.
Qed.

Lemma Inv_exec (env : Env) (ls : list Label) :
  forall st st', Inv st -> exec env ls st = Some st' -> Inv st'.
Proof.
  induction ls as [|l rest IH]; intros st st' I H; cbn in H.
  - injection H as <-. exact I.
  - destruct (step env l st) as [st1|] eqn:E; [|discriminate].
    exact (IH st1 st' (Inv_step env l st st1 I E) H).
Qed.

Lemma Inv_reachable (env : Env) (st : State) : reachable env st -> Inv st.
Proof. intros [ls H]. exact (Inv_exec env ls initial st Inv_initial H). Qed.

Lemma exec_app (env : Env) (ls1 ls2 : list Label) (st st1 : State) :
  exec env ls1 st = Some st1 ->
  exec env (ls1 ++ ls2) st = exec env ls2 st1.
Proof.
  revert st. induction ls1 as [|l r IH]; intros st H; cbn in *.
  - injection H as <-. reflexivity.
  - destruct (step env l st); [apply IH, H | discriminate].
Qed.

(** A waiting caller can always be brought to return: its attempt
    settles, if it has not yet, and the caller resumes. *)
Lemma waiting_completes (env : Env) (st : State) (tid : nat) (leader : bool)
    (pid : nat) :
  Inv st ->
  tasks st !! tid = Some (Awaiting leader pid) ->
  exists ls st' b,
    exec env ls st = Some st' /\
    tasks st' !! tid = Some (Returned (Ok b)) /\
    (leader = true -> loginPromise (session st') = None).
Proof.
  intros I Ht.
  assert (Hresume : forall st1 r,
            tasks st1 !! tid = Some (Awaiting leader pid) ->
            promises st1 !! pid = Some (Settled r) ->
            exists st', resume tid st1 = Some st' /\
                        tasks st' !! tid = Some (Returned r) /\
                        (leader = true -> loginPromise (session st') = None)).
  { intros st1 r H1 H2. unfold resume. rewrite H1, H2. eexists.
    split; [reflexivity|]. cbn [tasks session]. split.
    - apply list_lookup_insert_eq. exact (lookup_lt_Some _ _ _ H1).
    - intros ->. reflexivity. }
  pose proof (inv_waiting st I _ _ _ Ht) as Hlt.
  apply lookup_lt_is_Some in Hlt as [pr Hpr].
  destruct pr as [u p|r].
  - destruct (performLogin_total env u p (session st)) as (b & s' & E & _).
    assert (Hs : settle env pid st
                 = Some (mkState s' (<[pid := Settled (Ok b)]> (promises st)) (tasks st))).
    { unfold settle. rewrite Hpr, E. reflexivity. }
    destruct (Hresume (mkState s' (<[pid := Settled (Ok b)]> (promises st)) (tasks st))
                (Ok b)) as (st' & Hr & Hret & Hm).
    + exact Ht.
    + cbn. apply list_lookup_insert_eq. exact (lookup_lt_Some _ _ _ Hpr).
    + exists [Settle pid; Resume tid], st', b. cbn. rewrite Hs, Hr. auto.
  - destruct (inv_settled st I _ _ Hpr) as [b ->].
    destruct (Hresume st (Ok b) Ht Hpr) as (st' & Hr & Hret & Hm).
    exists [Resume tid], st', b. cbn. rewrite Hr. auto.
Qed.

(** C8.  [login] never raises: [performLogin] always settles with a
    boolean, and with [false] and [isLoggedIn = false] whenever its
    authentication sequence throws; whatever the callers do, a call that
    has returned has returned a boolean, and every call can be brought to
    return one. *)
Theorem login_never_raises (env : Env) :
  (forall username password s,
     exists b s',
       performLogin env username password s = (Ok b, s') /\
       (forall e s0,
          loginSequence (env username password) s = (Throw e, s0) ->
          b = false /\ isLoggedIn s' = false)) /\
  (forall st tid r,
     reachable env st ->
     tasks st !! tid = Some (Returned r) ->
     exists b, r = Ok b) /\
  (forall st username password,
     reachable env st ->
     exists ls st' b,
       exec env ls (call username password st) = Some st' /\
       tasks st' !! length (tasks st) = Some (Returned (Ok b))).
Proof.
  split; [|split].
  - intros u p s.
    destruct (performLogin_total env u p s) as (b & s' & E & _ & _ & Hthrow).
    exists b, s'. auto.
  - intros st tid r Hr Ht. exact (inv_returned st (Inv_reachable env st Hr) tid r Ht).
  - intros st u p Hr.
    pose proof (Inv_call u p st (Inv_reachable env st Hr)) as I1.
    assert (Hnew : exists x, tasks (call u p st) !! length (tasks st) = Some x /\
                             (x = Returned (Ok true) \/
                              exists leader pid, x = Awaiting leader pid)).
    { unfold call. destruct (isLoggedIn (session st));
        [|destruct (loginPromise (session st))]; cbn [tasks];
        eexists; (split; [apply list_lookup_middle; reflexivity|]); eauto. }
    destruct Hnew as (x & Hx & [->|(leader & pid & ->)]).
    + exists [], (call u p st), true. auto.
    + destruct (waiting_completes env _ _ _ _ I1 Hx) as (ls & st' & b & He & Ht & _).
      exists ls, st', b. auto.
Qed.

(** With the portal unreachable, the first caller's attempt throws at the
    navigation; both callers get [false] and the session stays logged
    out. *)
Lemma login_never_raises_witness :
  Login.exec Demo.env (Demo.twoCallers ++ [Settle 0; Resume 0; Resume 1]) initial
  = Some Demo.afterFailure /\
  (loginSequence (Demo.env "anna" "falsch") (session Demo.inFlight)).1
  = Throw "net::ERR_INTERNET_DISCONNECTED" /\
  tasks Demo.afterFailure !! 0%nat = Some (Returned (Ok false)) /\
  isLoggedIn (session Demo.afterFailure) = false /\
  exists b, Ok false = Ok b.
Proof.
  assert (He : Login.exec Demo.env (Demo.twoCallers ++ [Settle 0; Resume 0; Resume 1])
                 initial = Some Demo.afterFailure) by (vm_compute; reflexivity).
  assert (Ht : tasks Demo.afterFailure !! 0%nat = Some (Returned (Ok false)))
    by (vm_compute; reflexivity).
  split; [exact He|]. split; [vm_compute; reflexivity|].
  split; [exact Ht|]. split; [vm_compute; reflexivity|].
  destruct (login_never_raises Demo.env) as (_ & Hret & _).
  apply (Hret Demo.afterFailure 0%nat (Ok false)); [|exact Ht].
  eexists. exact He.
Defined.

(** C9.  In every state the callers can bring about, at most one
    authentication attempt is in flight.  A caller that enters [login]
    while an attempt is in flight starts none: it waits for that attempt.
    Every caller waiting for a settled attempt resumes with the value the
    attempt settled with.  When the caller that started the attempt
    resumes, the in-flight marker is cleared, and a later call on a
    session that is not logged in starts a fresh attempt. *)
Theorem login_single_flight (env : Env) (st : State) :
  reachable env st ->
  (forall pid pid', pendingAt st pid -> pendingAt st pid' -> pid = pid') /\
  (forall pid username password,
     pendingAt st pid ->
     call username password st
     = mkState (session st) (promises st) (tasks st ++ [Awaiting false pid])) /\
  (forall tid leader pid r,
     tasks st !! tid = Some (Awaiting leader pid) ->
     promises st !! pid = Some (Settled r) ->
     exists st', resume tid st = Some st' /\
                 tasks st' !! tid = Some (Returned r) /\
                 promises st' = promises st) /\
  (forall tid pid st',
     tasks st !! tid = Some (Awaiting true pid) ->
     resume tid st = Some st' ->
     loginPromise (session st') = None /\
     (forall pid', ~ pendingAt st' pid') /\
     (isLoggedIn (session st') = false ->
      forall username password,
        pendingAt (call username password st') (length (promises st')))).
Proof.
  intros Hr. pose proof (Inv_reachable env st Hr) as I.
  split; [|split; [|split]].
  - intros pid pid' H H'.
    destruct (inv_pending st I pid H) as [Hm _].
    destruct (inv_pending st I pid' H') as [Hm' _]. congruence.
  - intros pid u p H. destruct (inv_pending st I pid H) as [Hm Hli].
    unfold call. rewrite Hli, Hm. reflexivity.
  - intros tid leader pid r Ht Hp. unfold resume. rewrite Ht, Hp.
    eexists. split; [reflexivity|]. cbn [tasks promises]. split; [|reflexivity].
    apply list_lookup_insert_eq. exact (lookup_lt_Some _ _ _ Ht).
  - intros tid pid st' Ht Hres.
    pose proof (Inv_resume tid st st' I Hres) as I'.
    assert (Hnone : loginPromise (session st') = None).
    { unfold resume in Hres. rewrite Ht in Hres.
      destruct (promises st !! pid) as [[? ?|r]|]; try discriminate.
      injection Hres as <-. reflexivity. }
    split; [exact Hnone|]. split.
    + intros pid' H. destruct (inv_pending st' I' pid' H). congruence.
    + intros Hli u p. unfold call. rewrite Hli, Hnone.
      exists u, p. cbn [promises]. apply list_lookup_middle. reflexivity.
Qed.

(** The second caller waits for attempt 0; after the failure the marker
    is cleared and a third call starts attempt 1. *)
Lemma login_single_flight_witness :
  pendingAt Demo.inFlight 0 /\
  call "anna" "geheim" Demo.inFlight
  = mkState (session Demo.inFlight) (promises Demo.inFlight)
            (tasks Demo.inFlight ++ [Awaiting false 0%nat]) /\
  loginPromise (session Demo.afterFailure) = None /\
  pendingAt (call "anna" "geheim" Demo.afterFailure) 1.
Proof.
  assert (Hr : reachable Demo.env Demo.inFlight)
    by (exists Demo.twoCallers; vm_compute; reflexivity).
  assert (Hp : pendingAt Demo.inFlight 0)
    by (exists "anna", "falsch"; vm_compute; reflexivity).
  destruct (login_single_flight Demo.env Demo.inFlight Hr) as (_ & Hcall & _ & _).
  split; [exact Hp|]. split; [exact (Hcall 0%nat "anna" "geheim" Hp)|].
  split; [vm_compute; reflexivity|].
  exists "anna", "geheim". vm_compute. reflexivity.
Defined.

End LoginFacts.

(** *** More on the extraction *)

Section ExtractionMore.

Import SchulmanagerService RawSlots ExtractionTerms.

Lemma initSchedule_keys days key :
  is_Some (getProp key (initSchedule days)) <-> In key days.
Proof.
  unfold initSchedule.
  assert (G : forall sched,
             is_Some (getProp key (fold_left (fun sched day => setProp day [] sched)
                                     days sched))
             <-> In key days \/ is_Some (getProp key sched)).
  { induction days as [|d r IH]; intros sched; cbn [fold_left In].
    - tauto.
    - rewrite IH, getProp_setProp.
      destruct (String.eqb_spec key d) as [->|Hne].
      + split; [auto | intros _; right; eauto].
      + split; [intros [H|H]; auto | intros [[H|H]|H]; auto; congruence]. }
  rewrite G. cbn. split; [intros [H|[x H]]; [exact H | discriminate] | auto].
Qed.

Lemma processCell_throw days h i cell sched e :
  processCell days h i cell sched = Throw e ->
  e = pushError /\
  exists lc, cell = Some lc /\ cellClassName lc <> "" /\
             getProp (columnKey days i) sched = None.
Proof.
  unfold processCell. destruct cell as [lc|]; [|discriminate].
  destruct (scrapeCell h lc) as [lesson|] eqn:Hs; [|discriminate].
  unfold pushLesson. fold (columnKey days i).
  destruct (getProp (columnKey days i) sched) eqn:Hg; [discriminate|].
  intros [= <-]. split; [reflexivity|]. exists lc.
  apply scrapeCell_Some in Hs as (_ & _ & Hne). auto.
Qed.

Lemma processCell_keys days h i cell sched sched' key :
  processCell days h i cell sched = Ok sched' ->
  is_Some (getProp key sched') <-> is_Some (getProp key sched).
Proof.
  intros H. rewrite (processCell_getProp _ _ _ _ _ _ H key).
  destruct (getProp key sched); cbn; split; intros [x Hx]; eauto; discriminate.
Qed.

Lemma hasSubject_true sl : hasSubject sl = true <-> subjectLabel sl <> "".
Proof.
  unfold hasSubject. destruct (String.eqb_spec (subjectLabel sl) ""); cbn;
    split; congruence.
Qed.

(** A row is abandoned exactly when one of its cells with a subject sits
    in a column that no day label names. *)
Lemma forEachCell_throws days h cells :
  forall i sched,
    (forall key, is_Some (getProp key sched) <-> In key days) ->
    (exists e, forEachCell days h cells i sched = Throw e) <->
    misfiledIn days (fun key => rowSlots days key h cells i).
Proof.
  induction cells as [|cell rest IH]; intros i sched K.
  - cbn. split; [intros [e [=]] | intros (key & sl & _ & [] & _)].
  - cbn [forEachCell rowSlots].
    destruct (processCell days h i cell sched) as [sched1|e] eqn:Hp.
    + assert (K1 : forall key, is_Some (getProp key sched1) <-> In key days).
      { intros key. rewrite (processCell_keys _ _ _ _ _ _ key Hp). apply K. }
      rewrite (IH (S i) sched1 K1). unfold misfiledIn. split.
      * intros (key & sl & Hk & Hin & Hs). exists key, sl.
        split; [exact Hk|]. split; [apply in_or_app; right; exact Hin | exact Hs].
      * intros (key & sl & Hk & Hin & Hs). exists key, sl.
        split; [exact Hk|]. split; [|exact Hs].
        apply in_app_or in Hin as [Hin|Hin]; [|exact Hin]. exfalso.
        unfold cellSlot in Hin. destruct cell as [lc|]; [|destruct Hin].
        destruct (String.eqb_spec key (columnKey days i)) as [->|Hne];
          [|destruct Hin].
        destruct Hin as [<-|[]]. apply hasSubject_true in Hs. cbn in Hs.
        unfold processCell in Hp.
        destruct (scrapeCell h lc) as [lesson|] eqn:Hsc.
        -- unfold pushLesson in Hp. fold (columnKey days i) in Hp.
           destruct (getProp (columnKey days i) sched) eqn:Hg; [|discriminate].
           apply Hk, K. rewrite Hg. eauto.
        -- apply scrapeCell_None in Hsc. unfold subjectLabel in Hs. cbn in Hs.
           congruence.
    + split; [|eauto]. intros _.
      apply processCell_throw in Hp as (_ & lc & -> & Hne & Hg).
      exists (columnKey days i), (mkSlot h lc). split.
      * intros Hin. apply K in Hin. rewrite Hg in Hin. destruct Hin; discriminate.
      * split; [|apply hasSubject_true; exact Hne].
        apply in_or_app. left. cbn. rewrite String.eqb_refl. left. reflexivity.
Qed.

Lemma forEachCell_keys days h cells :
  forall i sched sched' key,
    forEachCell days h cells i sched = Ok sched' ->
    is_Some (getProp key sched') <-> is_Some (getProp key sched).
Proof.
  intros i sched sched' key H. rewrite (forEachCell_getProp _ _ _ _ _ _ H key).
  destruct (getProp key sched); cbn; split; intros [x Hx]; eauto; discriminate.
Qed.

Lemma forEachCell_error days h cells :
  forall i sched e, forEachCell days h cells i sched = Throw e -> e = pushError.
Proof.
  induction cells as [|cell rest IH]; intros i sched e H; [discriminate|].
  cbn in H. destruct (processCell days h i cell sched) as [sched1|e1] eqn:Hp.
  - exact (IH _ _ _ H).
  - injection H as <-. apply processCell_throw in Hp as [-> _]. reflexivity.
Qed.

Lemma forEachRow_throws days rws :
  forall hi sched,
    (forall key, is_Some (getProp key sched) <-> In key days) ->
    (exists e, forEachRow days rws hi sched = Throw e) <->
    misfiledIn days (fun key => tableSlots days key rws hi).
Proof.
  induction rws as [|row rest IH]; intros hi sched K.
  - cbn. split; [intros [e [=]] | intros (key & sl & _ & [] & _)].
  - cbn [forEachRow tableSlots].
    pose proof (forEachCell_throws days (Z.of_nat hi + 1) row 0 sched K) as Hrow.
    destruct (forEachCell days (Z.of_nat hi + 1) row 0 sched) as [sched1|e] eqn:Hc.
    + assert (K1 : forall key, is_Some (getProp key sched1) <-> In key days).
      { intros key. rewrite (forEachCell_keys _ _ _ _ _ _ key Hc). apply K. }
      rewrite (IH (S hi) sched1 K1). unfold misfiledIn in *. split.
      * intros (key & sl & Hk & Hin & Hs). exists key, sl.
        split; [exact Hk|]. split; [apply in_or_app; right; exact Hin | exact Hs].
      * intros (key & sl & Hk & Hin & Hs).
        apply in_app_or in Hin as [Hin|Hin].
        -- exfalso. assert (Hm : exists e : string, Ok sched1 = Throw e :> Result WeekSchedule).
           { apply Hrow. exists key, sl. auto. }
           destruct Hm as [e [=]].
        -- exists key, sl. auto.
    + split; [|eauto]. intros _.
      destruct (proj1 Hrow (ex_intro _ e eq_refl)) as (key & sl & Hk & Hin & Hs).
      exists key, sl. split; [exact Hk|].
      split; [apply in_or_app; left; exact Hin | exact Hs].
Qed.

Lemma forEachRow_error days rws :
  forall hi sched e, forEachRow days rws hi sched = Throw e -> e = pushError.
Proof.
  induction rws as [|row rest IH]; intros hi sched e H; [discriminate|].
  cbn in H.
  destruct (forEachCell days (Z.of_nat hi + 1) row 0 sched) as [sched1|e1] eqn:Hc.
  - exact (IH _ _ _ H).
  - injection H as <-. exact (forEachCell_error _ _ _ _ _ _ Hc).
Qed.

(** X1.  The extraction fails exactly when a marker cell with a subject
    sits in a column that no day header names (a row longer than the
    header, with no header reading "undefined"); the failure is then the
    TypeError of pushing to a missing property. *)
Theorem extractSchedule_throws (t : Table) :
  ((exists e, extractSchedule (Some t) = Throw e) <->
   exists key sl,
     ~ In key (dayHeaders t) /\ In sl (daySlots t key) /\ hasSubject sl = true) /\
  (forall e, extractSchedule (Some t) = Throw e -> e = pushError).
Proof.
  split.
  - cbn [extractSchedule]. apply forEachRow_throws. apply initSchedule_keys.
  - intros e H. exact (forEachRow_error _ _ _ _ _ H).
Qed.

(** X2.  When the extraction succeeds, the schedule has an entry for a
    key exactly when the key is one of the day headers: a day without
    lessons is there with an empty list, and nothing else is. *)
Theorem extractSchedule_keys (t : Table) (ws : WeekSchedule) (key : string) :
  extractSchedule (Some t) = Ok ws ->
  (is_Some (getProp key ws) <-> In key (dayHeaders t)) /\
  (In key (dayHeaders t) -> daySlots t key = [] -> getProp key ws = Some []).
Proof.
  intros H. cbn [extractSchedule] in H.
  pose proof (forEachRow_getProp _ _ _ _ _ H key) as Hg.
  pose proof (initSchedule_keys (dayHeaders t) key) as Hi.
  split.
  - rewrite <- Hi, Hg.
    destruct (getProp key (initSchedule (dayHeaders t))); cbn;
      split; intros [x Hx]; eauto; discriminate.
  - intros Hin Hempty. apply Hi in Hin as [l0 Hl0].
    rewrite Hg, Hl0. apply initSchedule_getProp in Hl0. subst l0.
    unfold daySlots in Hempty. rewrite Hempty. reflexivity.
Qed.


Lemma extractSchedule_keys_witness :
  is_Some (getProp "Do" Demo.week) /\ getProp "Do" Demo.week = Some [].
Proof.
  assert (H : extractSchedule (Some Demo.thisWeek) = Ok Demo.week)
    by (vm_compute; reflexivity).
  destruct (extractSchedule_keys Demo.thisWeek Demo.week "Do" H) as [Hk He].
  assert (Hin : In "Do" (dayHeaders Demo.thisWeek)) by (vm_compute; tauto).
  split; [apply Hk, Hin | apply He; [exact Hin | vm_compute; reflexivity]].
Defined.

(** A column the day labels name once holds at most one slot per row. *)
Lemma rowSlots_at_most_one days key h cells :
  forall i ds,
    (forall j, days !! (i + j)%nat = ds !! j) ->
    List.NoDup ds ->
    (length cells <= length ds)%nat ->
    (length (rowSlots days key h cells i) <= 1)%nat /\
    (~ In key ds -> rowSlots days key h cells i = []).
Proof.
  induction cells as [|cell rest IH]; intros i ds Hds Hnd Hlen; cbn [rowSlots].
  - cbn. split; [lia | reflexivity].
  - destruct ds as [|d ds']; [cbn in Hlen; lia|].
    assert (Hd : days !! i = Some d).
    { specialize (Hds 0%nat). rewrite Nat.add_0_r in Hds. exact Hds. }
    assert (Hds' : forall j, days !! (S i + j)%nat = ds' !! j).
    { intros j. specialize (Hds (S j)). rewrite Nat.add_succ_r in Hds. exact Hds. }
    inversion Hnd as [|? ? Hnotin Hnd']; subst.
    cbn in Hlen.
    destruct (IH (S i) ds' Hds' Hnd' ltac:(lia)) as [IH1 IH2].
    assert (Hkey : columnKey days i = d) by (unfold columnKey; rewrite Hd; reflexivity).
    unfold cellSlot. rewrite Hkey.
    destruct (String.eqb_spec key d) as [->|Hne].
    + rewrite (IH2 Hnotin). split.
      * destruct cell; cbn; lia.
      * intros Hn. destruct Hn. left. reflexivity.
    + destruct cell; cbn [app]; (split; [exact IH1|]);
        intros Hn; apply IH2; intros Hin; apply Hn; right; exact Hin.
Qed.

Lemma Sorted_hours_app (l1 l2 : list RawSlot) (h : Z) :
  (length l1 <= 1)%nat ->
  Forall (fun sl => slotHour sl = h) l1 ->
  Forall (fun sl => h + 1 <= slotHour sl) l2 ->
  StronglySorted Z.lt (map slotHour l2) ->
  StronglySorted Z.lt (map slotHour (l1 ++ l2)).
Proof.
  intros Hlen H1 H2 Hs. destruct l1 as [|a [|b l1]]; cbn in *; try lia.
  - exact Hs.
  - constructor; [exact Hs|].
    apply List.Forall_forall. intros x Hx. apply in_map_iff in Hx as (sl & <- & Hin).
    rewrite List.Forall_forall in H2. specialize (H2 sl Hin).
    inversion H1; subst. lia.
Qed.

Lemma tableSlots_sorted days key rws :
  List.NoDup days ->
  Forall (fun row : list Cell => (length row <= length days)%nat) rws ->
  forall hi, StronglySorted Z.lt (map slotHour (tableSlots days key rws hi)).
Proof.
  intros Hnd Hfit. induction rws as [|row rest IH]; intros hi; cbn [tableSlots].
  - constructor.
  - inversion Hfit as [|? ? Hrow Hrest]; subst.
    apply (Sorted_hours_app _ _ (Z.of_nat hi + 1)).
    + apply (rowSlots_at_most_one days key _ row 0 days); auto.
    + apply rowSlots_hour.
    + eapply List.Forall_impl; [|apply (tableSlots_hour days key rest (S hi))].
      cbn. intros sl H. lia.
    + apply IH, Hrest.
Qed.

Lemma omap_scrapeSlot_hours slots :
  StronglySorted Z.lt (map slotHour slots) ->
  StronglySorted Z.lt (map hour (omap scrapeSlot slots)).
Proof.
  induction slots as [|sl r IH]; cbn; intros H; [constructor|].
  inversion H as [|? ? Hr Hall]; subst.
  destruct (scrapeSlot sl) as [l|] eqn:Hs; cbn; [|exact (IH Hr)].
  constructor; [exact (IH Hr)|].
  unfold scrapeSlot in Hs. apply scrapeCell_Some in Hs as (_ & -> & _).
  apply List.Forall_forall. intros x Hx.
  apply in_map_iff in Hx as (l' & <- & Hin).
  apply In_omap_scrapeSlot in Hin as (sl' & Hin' & Hs').
  unfold scrapeSlot in Hs'. apply scrapeCell_Some in Hs' as (_ & -> & _).
  rewrite List.Forall_forall in Hall. apply Hall, in_map, Hin'.
Qed.

(** X3.  When the day headers are pairwise distinct and no row is longer
    than the header, the lessons [getTimetable] returns have strictly
    increasing lesson numbers: there is at most one Lesson per hour. *)
Theorem getTimetable_hours_increase tz portal now s date doc lessons :
  portal (WeekAnchor.getMondayOfWeek tz now) = Ok (Some doc) ->
  List.NoDup (dayHeaders doc) ->
  Forall (fun row : list Cell => (length row <= length (dayHeaders doc))%nat)
         (rows doc) ->
  getTimetable tz portal now s date = Ok lessons ->
  StronglySorted Z.lt (map LessonModel.lessonNumber lessons).
Proof.
  intros Hp Hnd Hfit H.
  apply getTimetable_slots in H as (slots & -> & _ & Hslots).
  assert (Hsorted : StronglySorted Z.lt (map slotHour slots)).
  { destruct Hslots as [->|(doc' & key & Hp' & _ & ->)]; [constructor|].
    rewrite Hp in Hp'. injection Hp' as <-.
    apply tableSlots_sorted; assumption. }
  unfold toLessons. rewrite map_map.
  rewrite (map_ext _ hour) by (intros sl; apply toLesson_lessonNumber).
  apply omap_scrapeSlot_hours, Hsorted.
Qed.

Lemma getTimetable_hours_increase_witness :
  StronglySorted Z.lt (map LessonModel.lessonNumber Demo.monday).
Proof.
  apply (getTimetable_hours_increase 0 Demo.portal Demo.now Demo.session
           "2025-10-13" Demo.thisWeek Demo.monday).
  - vm_compute. reflexivity.
  - vm_compute. repeat constructor; cbn; intuition discriminate.
  - vm_compute. repeat constructor.
  - vm_compute. reflexivity.
Defined.

Lemma findDay_no_match shortDay ws :
  (forall key ls, In (key, ls) ws -> includes key (tplStr shortDay) = false) ->
  findDay shortDay ws = [].
Proof.
  induction ws as [|[k ls] r IH]; intros H; cbn; [reflexivity|].
  rewrite (H k ls) by (left; reflexivity).
  apply IH. intros key ls' Hin. apply (H key ls'). right. exact Hin.
Qed.

Lemma In_keys_getProp key ls (ws : WeekSchedule) :
  In (key, ls) ws -> is_Some (getProp key ws).
Proof.
  intros Hin. destruct (getProp key ws) eqn:E; [eauto|].
  exfalso. apply (getProp_None_keys _ _ E).
  change key with (fst (key, ls)). apply in_map, Hin.
Qed.

Lemma dayMapping_weekend wd :
  wd = 0 \/ wd = 6 -> dayMapping (germanWeekday wd) = None.
Proof. intros [->| ->]; reflexivity. Qed.

(** X4.  For a date that falls on a Saturday or a Sunday in the host's
    local time, [getTimetable] returns the empty list and no error, as
    long as the session is logged in, the week's page is extracted, and
    no day header contains the text "undefined". *)
Theorem getTimetable_weekend_empty tz portal now s date t doc ws :
  isLoggedIn s = true -> page s = true ->
  portal (WeekAnchor.getMondayOfWeek tz now) = Ok (Some doc) ->
  extractSchedule (Some doc) = Ok ws ->
  Forall (fun h => includes h "undefined" = false) (dayHeaders doc) ->
  Date_parse date = Some t ->
  getDay tz t = 0 \/ getDay tz t = 6 ->
  getTimetable tz portal now s date = Ok [].
Proof.
  intros Hli Hpg Hp Hx Hhdr Hdate Hwd.
  assert (Hsd : shortDayOf tz date = None).
  { unfold shortDayOf. rewrite Hdate. apply dayMapping_weekend, Hwd. }
  unfold getTimetable, getWeekSchedule. rewrite Hli, Hpg. cbn [negb orb default].
  rewrite Hp. cbn [bind]. rewrite Hx. cbn [bind]. rewrite Hsd.
  rewrite findDay_no_match; [reflexivity|].
  intros key ls Hin. cbn [tplStr].
  apply In_keys_getProp in Hin.
  assert (Hk : In key (dayHeaders doc)).
  { cbn [extractSchedule] in Hx.
    pose proof (forEachRow_getProp _ _ _ _ _ Hx key) as Hg.
    apply initSchedule_keys.
    destruct (getProp key (initSchedule (dayHeaders doc))); [eauto|].
    rewrite Hg in Hin. destruct Hin; discriminate. }
  rewrite List.Forall_forall in Hhdr. exact (Hhdr key Hk).
Qed.

Lemma getTimetable_weekend_empty_witness :
  getTimetable 0 Demo.portal Demo.now Demo.session "2025-10-18" = Ok [] /\
  getTimetable 0 Demo.portal Demo.now Demo.session "2025-10-19" = Ok [].
Proof.
  assert (Hx : extractSchedule (Some Demo.thisWeek) = Ok Demo.week)
    by (vm_compute; reflexivity).
  assert (Hh : Forall (fun h => includes h "undefined" = false)
                 (dayHeaders Demo.thisWeek))
    by (vm_compute; repeat constructor).
  split.
  - apply (getTimetable_weekend_empty 0 Demo.portal Demo.now Demo.session
             "2025-10-18" 1760745600000 Demo.thisWeek Demo.week);
      try reflexivity; try assumption.
    right. vm_compute. reflexivity.
  - apply (getTimetable_weekend_empty 0 Demo.portal Demo.now Demo.session
             "2025-10-19" 1760832000000 Demo.thisWeek Demo.week);
      try reflexivity; try assumption.
    left. vm_compute. reflexivity.
Defined.

End ExtractionMore.

(** *** More on substitutions and cancelled classes *)

Section SubstitutionsMore.

Import SchulmanagerService SubstitutionTerms.

Lemma entry_lessonNumber now lesson :
  SubstitutionModel.lessonNumber
    (SubstitutionModel.fromScrapedData now (substitutionData lesson))
  = LessonModel.lessonNumber lesson.
Proof. reflexivity. Qed.

Lemma entry_isCancellation now lesson :
  isCancellation (SubstitutionModel.fromScrapedData now (substitutionData lesson))
  = LessonModel.isCancelled lesson.
Proof.
  unfold isCancellation. cbn [SubstitutionModel.type SubstitutionModel.fromScrapedData].
  unfold SubstitutionModel.classify, substitutionData.
  cbn [SubstitutionModel.d_isCancelled SubstitutionModel.d_note
       SubstitutionModel.d_substituteTeacher SubstitutionModel.d_substituteSubject
       SubstitutionModel.d_room SubstitutionModel.d_originalRoom
       SubstitutionModel.noteSaysCancelled default].
  destruct (LessonModel.isCancelled lesson); cbn [orb id]; [reflexivity|].
  cbv [id].
  destruct (truthy (Some (LessonModel.teacher lesson))
            || truthy (Some (LessonModel.subject lesson))); [reflexivity|].
  destruct (truthy (Some (LessonModel.room lesson))
            && SubstitutionModel.differs (Some (LessonModel.room lesson)) None);
    reflexivity.
Qed.

Lemma cancelled_numbers now lessons :
  map LessonModel.lessonNumber (List.filter LessonModel.isCancelled lessons)
  = map SubstitutionModel.lessonNumber
        (List.filter isCancellation (toSubstitutions now lessons)).
Proof.
  induction lessons as [|l r IH]; [reflexivity|].
  cbn [toSubstitutions List.filter].
  destruct (LessonModel.isCancelled l) eqn:Hc.
  - rewrite orb_true_r. cbn [List.filter].
    rewrite entry_isCancellation, Hc. cbn [map]. rewrite IH. reflexivity.
  - rewrite orb_false_r. destruct (LessonModel.isSubstitution l); [|exact IH].
    cbn [List.filter]. rewrite entry_isCancellation, Hc. exact IH.
Qed.

(** X5.  The two views of a day agree on the cancellations: whenever
    [getSubstitutions] succeeds, [getCancelledClasses] succeeds on the
    same inputs, and the lesson numbers of the cancelled classes are, in
    order, those of the entries of type CANCELLATION. *)
Theorem cancelled_classes_match_cancellations tz portal now s date subs :
  getSubstitutions tz portal now s date = Ok subs ->
  exists cancelled,
    getCancelledClasses tz portal now s date = Ok cancelled /\
    Forall (fun l => LessonModel.isCancelled l = true) cancelled /\
    map LessonModel.lessonNumber cancelled
    = map SubstitutionModel.lessonNumber (List.filter isCancellation subs).
Proof.
  intros H. apply getSubstitutions_inv in H as (lessons & Ht & ->).
  exists (List.filter LessonModel.isCancelled lessons).
  split; [|split].
  - unfold getCancelledClasses.
    assert (Hli : negb (isLoggedIn s) = false).
    { unfold getTimetable in Ht. destruct (negb (isLoggedIn s)); [discriminate|].
      reflexivity. }
    rewrite Hli, Ht. reflexivity.
  - apply List.Forall_forall. intros l Hl. apply filter_In in Hl. tauto.
  - apply cancelled_numbers.
Qed.

Lemma cancelled_classes_match_cancellations_witness :
  exists cancelled,
    getCancelledClasses 0 Demo.portal Demo.now Demo.session "2025-10-13"
    = Ok cancelled /\
    Forall (fun l => LessonModel.isCancelled l = true) cancelled /\
    map LessonModel.lessonNumber cancelled
    = map SubstitutionModel.lessonNumber
          (List.filter isCancellation Demo.mondaySubstitutions).
Proof.
  apply (cancelled_classes_match_cancellations 0 Demo.portal Demo.now Demo.session
           "2025-10-13" Demo.mondaySubstitutions).
  vm_compute. reflexivity.
Defined.

Lemma toLesson_subject_nonempty now date sl :
  class_ sl <> "" -> LessonModel.subject (toLesson now date sl) = class_ sl.
Proof. intros H. cbn. apply orStr_nonempty, H. Qed.

(** X6.  Every entry of [getSubstitutions] for a non-empty date string
    stands for a flagged Lesson of the day's timetable and carries that
    Lesson's id, date, lesson number and subject. *)
Theorem getSubstitutions_entries_of_lessons tz portal now s date subs e :
  date <> "" ->
  getSubstitutions tz portal now s date = Ok subs ->
  In e subs ->
  exists lessons l,
    getTimetable tz portal now s date = Ok lessons /\
    In l lessons /\ flagged l = true /\
    SubstitutionModel.id e = LessonModel.id l /\
    SubstitutionModel.date e = date /\
    SubstitutionModel.lessonNumber e = LessonModel.lessonNumber l /\
    SubstitutionModel.originalSubject e = LessonModel.subject l /\
    SubstitutionModel.isCancelled e = LessonModel.isCancelled l.
Proof.
  intros Hne H Hin.
  apply getSubstitutions_inv in H as (lessons & Ht & ->).
  apply In_toSubstitutions in Hin as (l & Hl & Hf & ->).
  exists lessons, l. split; [exact Ht|]. split; [exact Hl|]. split; [exact Hf|].
  destruct (getTimetable_lesson _ _ _ _ _ _ _ Ht Hl) as (sl & -> & _ & Hc).
  destruct (toLesson_labels now date sl Hne) as [Hd Hid].
  pose proof (toLesson_subject_nonempty now date sl Hc) as Hs.
  set (l := toLesson now date sl) in *.
  cbn [SubstitutionModel.fromScrapedData substitutionData SubstitutionModel.id
       SubstitutionModel.date SubstitutionModel.lessonNumber
       SubstitutionModel.originalSubject SubstitutionModel.isCancelled
       SubstitutionModel.d_id SubstitutionModel.d_date
       SubstitutionModel.d_lessonNumber SubstitutionModel.d_originalSubject
       SubstitutionModel.d_isCancelled orDefault tplStr tplNum default].
  rewrite Hd, Hid. subst l. rewrite toLesson_lessonNumber.
  split; [reflexivity|]. split; [apply orStr_nonempty, Hne|].
  split; [reflexivity|]. split; [|reflexivity].
  apply orStr_nonempty. rewrite Hs. exact Hc.
Qed.

Lemma getSubstitutions_entries_of_lessons_witness :
  Forall (fun e => exists l, In l Demo.monday /\
                             SubstitutionModel.id e = LessonModel.id l)
         Demo.mondaySubstitutions.
Proof.
  assert (Hs : getSubstitutions 0 Demo.portal Demo.now Demo.session "2025-10-13"
               = Ok Demo.mondaySubstitutions) by (vm_compute; reflexivity).
  assert (Ht : getTimetable 0 Demo.portal Demo.now Demo.session "2025-10-13"
               = Ok Demo.monday) by (vm_compute; reflexivity).
  assert (Hne : "2025-10-13" <> "") by discriminate.
  apply List.Forall_forall. intros e Hin.
  destruct (getSubstitutions_entries_of_lessons 0 Demo.portal Demo.now Demo.session
              "2025-10-13" Demo.mondaySubstitutions e Hne Hs Hin)
    as (lessons & l & Ht' & Hl & _ & Hid & _).
  rewrite Ht in Ht'. injection Ht' as <-. exists l. auto.
Defined.

Lemma some_entry_iff_flagged now lessons :
  (0 <? length (toSubstitutions now lessons))%nat = existsb flagged lessons.
Proof.
  induction lessons as [|l r IH]; [reflexivity|].
  cbn [toSubstitutions existsb]. unfold flagged at 1.
  destruct (LessonModel.isSubstitution l || LessonModel.isCancelled l);
    [reflexivity | exact IH].
Qed.

(** X7.  [hasSubstitutionsToday] answers true exactly when a Lesson of
    the timetable for today's UTC date carries a flag, and fails exactly
    as that timetable fails. *)
Theorem hasSubstitutionsToday_spec tz portal now s :
  match getTimetable tz portal now s (toISODate now) with
  | Ok lessons =>
      ServiceMethods.hasSubstitutionsToday tz portal now s
      = Ok (existsb flagged lessons)
  | Throw e => ServiceMethods.hasSubstitutionsToday tz portal now s = Throw e
  end.
Proof.
  unfold ServiceMethods.hasSubstitutionsToday, getSubstitutions.
  destruct (getTimetable tz portal now s (toISODate now)) as [lessons|e] eqn:Ht.
  - assert (Hli : negb (isLoggedIn s) = false).
    { unfold getTimetable in Ht. destruct (negb (isLoggedIn s)); [discriminate|].
      reflexivity. }
    rewrite Hli. cbn [bind]. f_equal. apply some_entry_iff_flagged.
  - destruct (negb (isLoggedIn s)) eqn:Hli; cbn [bind]; [|reflexivity].
    unfold getTimetable in Ht. rewrite Hli in Ht. injection Ht as <-. reflexivity.
Qed.

End SubstitutionsMore.

(** *** The models *)

Section ModelsMore.

Import SchulmanagerService SubstitutionTerms.

Lemma append_dash_nonempty (a b : string) : (a ++ "-" ++ b)%string <> "".
Proof. destruct a; discriminate. Qed.

Lemma str_append_assoc (a b c : string) :
  ((a ++ b) ++ c = a ++ (b ++ c))%string.
Proof.
  induction a as [|x a IH]; [reflexivity|].
  change (String x ((a ++ b) ++ c) = String x (a ++ (b ++ c)))%string.
  f_equal. exact IH.
Qed.

Lemma toISODate_nonempty (t : Z) : toISODate t <> "".
Proof. unfold toISODate. apply append_dash_nonempty. Qed.

Lemma orDefault_nonempty (o : option string) (d : string) :
  d <> "" -> orDefault o d <> "".
Proof.
  intros H. destruct o as [x|]; cbn; [apply orStr_default_nonempty, H | exact H].
Qed.

Lemma orDefault_Some_nonempty (x d : string) :
  x <> "" -> orDefault (Some x) d = x.
Proof. intros H. cbn. apply orStr_nonempty, H. Qed.

Lemma Lesson_fields_nonempty now data :
  let l := LessonModel.fromScrapedData now data in
  LessonModel.id l <> "" /\ LessonModel.subject l <> "" /\
  LessonModel.teacher l <> "" /\ LessonModel.room l <> "" /\
  LessonModel.startTime l <> "" /\ LessonModel.endTime l <> "" /\
  LessonModel.date l <> "".
Proof.
  cbn. repeat split; apply orDefault_nonempty;
    try discriminate; try apply append_dash_nonempty; apply toISODate_nonempty.
Qed.

(** X8.  Whatever is handed to [LessonModel.fromScrapedData], the Lesson
    it builds has a non-empty id, subject, teacher, room, start time, end
    time and date; and handing a Lesson it built back to it, at any later
    time, gives the same Lesson. *)
Theorem LessonModel_fromScrapedData_normal now now' data :
  let l := LessonModel.fromScrapedData now data in
  (LessonModel.id l <> "" /\ LessonModel.subject l <> "" /\
   LessonModel.teacher l <> "" /\ LessonModel.room l <> "" /\
   LessonModel.startTime l <> "" /\ LessonModel.endTime l <> "" /\
   LessonModel.date l <> "") /\
  LessonModel.fromScrapedData now' (LessonMethods.asData l) = l.
Proof.
  intros l. pose proof (Lesson_fields_nonempty now data) as H.
  fold l in H. cbv zeta in H. split; [exact H|].
  destruct H as (H1 & H2 & H3 & H4 & H5 & H6 & H7).
  destruct l as [i sj te ro st en n d su ca]. cbn in *.
  unfold LessonModel.fromScrapedData, LessonMethods.asData.
  cbn [LessonModel.d_id LessonModel.d_subject LessonModel.d_teacher
       LessonModel.d_room LessonModel.d_startTime LessonModel.d_endTime
       LessonModel.d_lessonNumber LessonModel.d_date LessonModel.d_isSubstitution
       LessonModel.d_isCancelled LessonModel.id LessonModel.subject
       LessonModel.teacher LessonModel.room LessonModel.startTime
       LessonModel.endTime LessonModel.lessonNumber LessonModel.date
       LessonModel.isSubstitution LessonModel.isCancelled default].
  rewrite !orDefault_Some_nonempty by assumption. reflexivity.
Qed.

(** X9.  Whatever is handed to [SubstitutionModel.fromScrapedData], the
    entry it builds never has the type TIME_CHANGE; an entry marked
    cancelled has the type CANCELLATION; an entry of type SUBSTITUTION
    names a substitute teacher or subject, and one of type ROOM_CHANGE
    names a room and is neither cancelled nor carries a substitute. *)
Theorem SubstitutionModel_fromScrapedData_types now data :
  let e := SubstitutionModel.fromScrapedData now data in
  SubstitutionModel.type e <> SubstitutionModel.TIME_CHANGE /\
  (SubstitutionModel.isCancelled e = true ->
   SubstitutionModel.type e = SubstitutionModel.CANCELLATION) /\
  (SubstitutionModel.type e = SubstitutionModel.SUBSTITUTION ->
   truthy (SubstitutionModel.substituteTeacher e)
   || truthy (SubstitutionModel.substituteSubject e) = true) /\
  (SubstitutionModel.type e = SubstitutionModel.ROOM_CHANGE ->
   truthy (SubstitutionModel.room e) = true /\
   SubstitutionModel.isCancelled e = false /\
   truthy (SubstitutionModel.substituteTeacher e) = false /\
   truthy (SubstitutionModel.substituteSubject e) = false).
Proof.
  cbn [SubstitutionModel.fromScrapedData SubstitutionModel.type
       SubstitutionModel.isCancelled SubstitutionModel.substituteTeacher
       SubstitutionModel.substituteSubject SubstitutionModel.room].
  unfold SubstitutionModel.classify.
  destruct (default false (SubstitutionModel.d_isCancelled data)) eqn:Hc;
    cbn [orb].
  - repeat split; try discriminate.
  - destruct (SubstitutionModel.noteSaysCancelled (SubstitutionModel.d_note data)).
    + repeat split; try discriminate.
    + destruct (truthy (SubstitutionModel.d_substituteTeacher data)) eqn:Ht;
        destruct (truthy (SubstitutionModel.d_substituteSubject data)) eqn:Hs;
        cbn [orb]; try (repeat split; (discriminate || reflexivity)).
      destruct (truthy (SubstitutionModel.d_room data)) eqn:Hr; cbn [andb].
      * destruct (SubstitutionModel.differs (SubstitutionModel.d_room data)
                    (SubstitutionModel.d_originalRoom data));
          repeat split; (discriminate || reflexivity).
      * repeat split; discriminate.
Qed.

(** X10.  For a cancelled Lesson of a timetable, the sentence Alexa reads
    for its substitution entry is the sentence it reads for the Lesson
    itself. *)
Theorem cancelled_sentences_agree tz portal now s date lessons l :
  getTimetable tz portal now s date = Ok lessons ->
  In l lessons ->
  LessonModel.isCancelled l = true ->
  let e := SubstitutionModel.fromScrapedData now (substitutionData l) in
  In e (toSubstitutions now lessons) /\
  SubstitutionMethods.toAlexaFormat e = LessonMethods.toAlexaFormat l /\
  LessonMethods.toAlexaFormat l
  = (LessonModel.subject l ++ " in der "
     ++ Number_toString (LessonModel.lessonNumber l) ++ ". Stunde fällt aus")%string.
Proof.
  intros Ht Hl Hc e. split; [|split].
  - apply In_toSubstitutions. exists l. rewrite Hc, orb_true_r. auto.
  - destruct (getTimetable_lesson _ _ _ _ _ _ _ Ht Hl) as (sl & Hlsl & _ & Hne).
    assert (Hs : LessonModel.subject l <> "").
    { rewrite Hlsl, toLesson_subject_nonempty by exact Hne. exact Hne. }
    unfold SubstitutionMethods.toAlexaFormat, LessonMethods.toAlexaFormat.
    destruct (cancelled_entry now l Hc) as (Hty & _). fold e in Hty.
    rewrite Hty, Hc. subst e.
    cbn [SubstitutionModel.originalSubject SubstitutionModel.lessonNumber
         SubstitutionModel.fromScrapedData substitutionData
         SubstitutionModel.d_originalSubject SubstitutionModel.d_lessonNumber default].
    rewrite orDefault_Some_nonempty by exact Hs. reflexivity.
  - unfold LessonMethods.toAlexaFormat. rewrite Hc. reflexivity.
Qed.

Lemma cancelled_sentences_agree_witness :
  SubstitutionMethods.toAlexaFormat
    (SubstitutionModel.fromScrapedData Demo.now (substitutionData Demo.cancelledLesson))
  = "Deutsch in der 2. Stunde fällt aus".
Proof.
  assert (Ht : getTimetable 0 Demo.portal Demo.now Demo.session "2025-10-13"
               = Ok Demo.monday) by (vm_compute; reflexivity).
  assert (Hl : In Demo.cancelledLesson Demo.monday) by (right; left; reflexivity).
  destruct (cancelled_sentences_agree 0 Demo.portal Demo.now Demo.session
              "2025-10-13" Demo.monday Demo.cancelledLesson Ht Hl eq_refl)
    as (_ & H1 & H2).
  rewrite H1, H2. vm_compute. reflexivity.
Defined.

(** X11.  For an entry of [getSubstitutions] that is not cancelled, Alexa
    reads "<subject> in der <n>. Stunde wird von <teacher> vertreten",
    with the Lesson's own teacher and never a " mit <subject>" part. *)
Theorem substitution_sentence tz portal now s date subs e :
  getSubstitutions tz portal now s date = Ok subs ->
  In e subs ->
  SubstitutionModel.isCancelled e = false ->
  exists teacher,
    SubstitutionModel.substituteTeacher e = Some teacher /\
    SubstitutionModel.substituteSubject e = Some (SubstitutionModel.originalSubject e) /\
    SubstitutionMethods.toAlexaFormat e
    = (SubstitutionModel.originalSubject e ++ " in der "
       ++ Number_toString (SubstitutionModel.lessonNumber e)
       ++ ". Stunde wird von " ++ teacher ++ " vertreten")%string.
Proof.
  intros H Hin Hc.
  apply getSubstitutions_inv in H as (lessons & Ht & ->).
  apply In_toSubstitutions in Hin as (l & Hl & _ & ->).
  destruct (getTimetable_lesson _ _ _ _ _ _ _ Ht Hl) as (sl & Hlsl & _ & Hne).
  assert (Hs : LessonModel.subject l <> "").
  { rewrite Hlsl, toLesson_subject_nonempty by exact Hne. exact Hne. }
  assert (Hte : LessonModel.teacher l <> "").
  { rewrite Hlsl. apply toLesson_teacher_nonempty. }
  assert (Hcl : LessonModel.isCancelled l = false) by exact Hc.
  exists (LessonModel.teacher l).
  unfold SubstitutionMethods.toAlexaFormat.
  cbn [SubstitutionModel.fromScrapedData SubstitutionModel.type
       SubstitutionModel.substituteTeacher SubstitutionModel.substituteSubject
       SubstitutionModel.originalSubject SubstitutionModel.lessonNumber].
  unfold SubstitutionModel.classify, substitutionData.
  cbn [SubstitutionModel.d_isCancelled SubstitutionModel.d_note
       SubstitutionModel.d_substituteTeacher SubstitutionModel.d_substituteSubject
       SubstitutionModel.d_originalSubject SubstitutionModel.d_lessonNumber
       SubstitutionModel.noteSaysCancelled default].
  cbv [id]. rewrite Hcl. cbn [orb].
  rewrite (truthy_Some_nonempty _ Hte), (truthy_Some_nonempty _ Hs).
  rewrite orDefault_Some_nonempty by exact Hs.
  cbn [orb andb SubstitutionModel.differs tplStr].
  rewrite String.eqb_refl. cbn [negb].
  split; [reflexivity|]. split; [reflexivity|].
  rewrite !str_append_assoc. reflexivity.
Qed.

Lemma substitution_sentence_witness :
  exists e, In e Demo.mondaySubstitutions /\
            SubstitutionMethods.toAlexaFormat e
            = "Englisch in der 4. Stunde wird von Klein vertreten".
Proof.
  assert (Hs : getSubstitutions 0 Demo.portal Demo.now Demo.session "2025-10-13"
               = Ok Demo.mondaySubstitutions) by (vm_compute; reflexivity).
  exists (nth 1 Demo.mondaySubstitutions
              (SubstitutionModel.fromScrapedData 0 (substitutionData Demo.cancelledLesson))).
  assert (Hin : In (nth 1 Demo.mondaySubstitutions
                      (SubstitutionModel.fromScrapedData 0
                         (substitutionData Demo.cancelledLesson)))
                   Demo.mondaySubstitutions) by (right; left; reflexivity).
  split; [exact Hin|].
  destruct (substitution_sentence 0 Demo.portal Demo.now Demo.session "2025-10-13"
              Demo.mondaySubstitutions _ Hs Hin eq_refl) as (teacher & Ht & _ & Hsen).
  rewrite Hsen. injection Ht as <-. vm_compute. reflexivity.
Defined.

(** X12.  A substitution dated today (in UTC) counts as upcoming only at
    the very first millisecond of the day: its date is read as midnight
    UTC, which every later instant of the day has passed. *)
Theorem today_is_not_upcoming now e :
  0 <= YearFromTime now <= 9999 ->
  SubstitutionMethods.isToday now e = true ->
  SubstitutionMethods.isUpcoming now e = (TimeWithinDay now =? 0).
Proof.
  intros Hy Ht. unfold SubstitutionMethods.isToday in Ht.
  apply String.eqb_eq in Ht. unfold SubstitutionMethods.isUpcoming.
  rewrite Ht, (Date_parse_toISODate now Hy).
  unfold Day, TimeWithinDay.
  pose proof (Z.div_mod now msPerDay ltac:(discriminate)) as Hdm.
  pose proof (Z.mod_pos_bound now msPerDay ltac:(reflexivity)) as Hb.
  destruct (Z.eqb_spec (now mod msPerDay) 0) as [E|E].
  - apply Z.leb_le. lia.
  - apply Z.leb_gt. lia.
Qed.

Lemma today_is_not_upcoming_witness :
  SubstitutionMethods.isUpcoming Demo.now
    (SubstitutionModel.fromScrapedData Demo.now
       (SubstitutionModel.mkData None None None None None None None None None
          None None None))
  = false.
Proof.
  rewrite (today_is_not_upcoming Demo.now _).
  - vm_compute. reflexivity.
  - vm_compute. split; discriminate.
  - vm_compute. reflexivity.
Defined.

End ModelsMore.

(** *** More on the session *)

Section SessionMore.

Import SchulmanagerService Login SessionTerms.

Ltac run_cases :=
  match goal with
  | |- context [match ?x with Ok _ => _ | Throw _ => _ end] => destruct x
  | |- context [if ?b then _ else _] => destruct b
  | |- context [let (_, _) := ?x in _] => destruct x
  end; cbn.

(** When the [try] block returns, there is a browser and a page. *)
Lemma loginSequence_connected (run : Run) (s : Session) :
  forall b, (loginSequence run s).1 = Ok b ->
            browser (loginSequence run s).2 = true /\
            page (loginSequence run s).2 = true.
Proof.
  unfold loginSequence, init, findEmailInput, bindM, tryCatch, lift, ret, throw,
    getSession, setBrowser, setPage, setIsLoggedIn.
  destruct s as [[|] [|] li lp]; cbn;
    repeat run_cases; intros b' E; try discriminate; auto.
Qed.

Lemma performLogin_connected (env : Env) (username password : string)
    (s s' : Session) (b : bool) :
  performLogin env username password s = (Ok b, s') ->
  isLoggedIn s' = b /\ (b = true -> browser s' = true /\ page s' = true).
Proof.
  unfold performLogin, tryCatch.
  pose proof (loginSequence_cases (env username password) s) as [_ Hok].
  pose proof (loginSequence_connected (env username password) s) as Hconn.
  destruct (loginSequence (env username password) s) as [[b0|e] s1];
    cbn [fst snd] in *.
  - intros [= <- <-]. split; [apply Hok; reflexivity|]. intros _.
    apply (Hconn b0). reflexivity.
  - cbn. intros [= <- <-]. cbn. split; [reflexivity | discriminate].
Qed.

(** X13.  What a login attempt leaves behind decides the next fetch: after
    [performLogin] has returned true the session is logged in with a
    page, so [getWeekSchedule] goes to the portal; after it has returned
    false every fetch fails with "Not logged in to Schulmanager" without
    touching the portal. *)
Theorem performLogin_then_fetch env username password s b s' tz portal now :
  performLogin env username password s = (Ok b, s') ->
  if b then
    forall date,
      getWeekSchedule tz portal now s' date
      = bind (portal (WeekAnchor.getMondayOfWeek tz (default now date)))
             extractSchedule
  else
    forall date,
      getWeekSchedule tz portal now s' None = Throw notLoggedIn /\
      getTimetable tz portal now s' date = Throw notLoggedIn /\
      getSubstitutions tz portal now s' date = Throw notLoggedIn /\
      getCancelledClasses tz portal now s' date = Throw notLoggedIn.
Proof.
  intros H. apply performLogin_connected in H as [Hli Hconn].
  destruct b.
  - destruct (Hconn eq_refl) as [_ Hpg]. intros date.
    unfold getWeekSchedule. rewrite Hli, Hpg. reflexivity.
  - intros date.
    unfold getCancelledClasses, getSubstitutions, getTimetable, getWeekSchedule.
    rewrite Hli. cbn. auto.
Qed.

Lemma performLogin_then_fetch_witness :
  getTimetable 0 Demo.portal Demo.now
    (performLogin Demo.env "anna" "falsch" (session initial)).2 "2025-10-13"
  = Throw notLoggedIn /\
  getWeekSchedule 0 Demo.portal Demo.now
    (performLogin Demo.env "anna" "geheim" (session initial)).2 None
  = Ok Demo.week.
Proof.
  split.
  - assert (H : performLogin Demo.env "anna" "falsch" (session initial)
                = (Ok false, (performLogin Demo.env "anna" "falsch" (session initial)).2))
      by (vm_compute; reflexivity).
    exact (proj1 (proj2 (performLogin_then_fetch _ _ _ _ _ _ 0 Demo.portal Demo.now H
                           "2025-10-13"))).
  - assert (H : performLogin Demo.env "anna" "geheim" (session initial)
                = (Ok true, (performLogin Demo.env "anna" "geheim" (session initial)).2))
      by (vm_compute; reflexivity).
    rewrite (performLogin_then_fetch _ _ _ _ _ _ 0 Demo.portal Demo.now H None).
    vm_compute. reflexivity.
Defined.

Lemma connected_step (env : Env) (l : Label) (st st' : State) :
  connected (session st) -> step env l st = Some st' -> connected (session st').
Proof.
  unfold connected. intros C H. destruct l as [u p|pid|tid|]; cbn in H.
  - injection H as <-. unfold call.
    destruct (isLoggedIn (session st)) eqn:Hli.
    + cbn. intros _. apply C. reflexivity.
    + destruct (loginPromise (session st)); cbn; intros Hl; congruence.
  - unfold settle in H.
    destruct (promises st !! pid) as [[u p|r]|]; try discriminate.
    destruct (performLogin env u p (session st)) as [r s1] eqn:E.
    injection H as <-. cbn [session].
    destruct (performLogin_total env u p (session st)) as (b & s2 & E2 & _).
    rewrite E in E2. injection E2 as -> ->.
    apply performLogin_connected in E as [Hli Hc]. intros Hl. apply Hc. congruence.
  - unfold resume in H.
    destruct (tasks st !! tid) as [[leader pid|r0]|]; try discriminate.
    destruct (promises st !! pid) as [[u p|r]|]; try discriminate.
    injection H as <-. destruct leader; exact C.
  - injection H as <-. unfold close.
    destruct (browser (session st)) eqn:Hb; [cbn; discriminate|].
    intros Hl. destruct (C Hl). discriminate.
Qed.

Lemma connected_exec (env : Env) (ls : list Label) :
  forall st st', connected (session st) -> exec env ls st = Some st' ->
                 connected (session st').
Proof.
  induction ls as [|l rest IH]; intros st st' C H; cbn in H.
  - injection H as <-. exact C.
  - destruct (step env l st) as [st1|] eqn:E; [|discriminate].
    exact (IH st1 st' (connected_step env l st st1 C E) H).
Qed.

(** X14.  Whatever the callers do, a logged-in session has a browser and
    a page.  So [close()] always ends with a session that is logged out:
    every fetch after it fails with "Not logged in to Schulmanager";
    closing again changes nothing, and the in-flight marker of a login is
    left as it was. *)
Theorem close_logs_out env st :
  reachable env st ->
  connected (session st) /\
  isLoggedIn (session (close st)) = false /\
  (forall tz portal now date,
     getTimetable tz portal now (session (close st)) date = Throw notLoggedIn /\
     getWeekSchedule tz portal now (session (close st)) None = Throw notLoggedIn) /\
  close (close st) = close st /\
  loginPromise (session (close st)) = loginPromise (session st).
Proof.
  intros [ls Hr].
  assert (C : connected (session st)).
  { apply (connected_exec env ls initial st); [|exact Hr]. intros [=]. }
  assert (Hout : isLoggedIn (session (close st)) = false).
  { unfold close. destruct (browser (session st)) eqn:Hb; [reflexivity|].
    destruct (isLoggedIn (session st)) eqn:Hli; [|reflexivity].
    destruct (C Hli). congruence. }
  split; [exact C|]. split; [exact Hout|]. split; [|split].
  - intros tz portal now date. unfold getTimetable, getWeekSchedule.
    rewrite Hout. cbn. auto.
  - unfold close. destruct (browser (session st)) eqn:Hb; cbn; [reflexivity|].
    rewrite Hb. reflexivity.
  - unfold close. destruct (browser (session st)); reflexivity.
Qed.

Lemma close_logs_out_witness :
  isLoggedIn (session LoginDemo.loggedIn) = true /\
  isLoggedIn (session (close LoginDemo.loggedIn)) = false /\
  close (close LoginDemo.loggedIn) = close LoginDemo.loggedIn.
Proof.
  assert (Hr : reachable Demo.env LoginDemo.loggedIn)
    by (exists LoginDemo.oneLogin; vm_compute; reflexivity).
  destruct (close_logs_out Demo.env LoginDemo.loggedIn Hr) as (_ & H1 & _ & H2 & _).
  split; [vm_compute; reflexivity|]. split; [exact H1 | exact H2].
Defined.

End SessionMore.

(** *** More on the cache *)

Section CacheMore.

Import CacheService CacheMethods.

Context {V : Type}.

(** [config.cache.ttl.timetable] *)
Variable cfg : Z.

(** X15.  [set] then [get]: the value comes back as long as the entry
    has not expired, other keys are not affected, and once the TTL (the
    given one, or the configured timetable TTL for 0 or none) has run
    out the key yields no value and is removed. *)
Theorem set_get_roundtrip (key : string) (value : V) (ttl : option Z)
    (now now' : Z) (d : gmap string (@Entry V)) :
  let d' := set cfg key value ttl now d in
  let lifetime := effectiveTtl cfg ttl in
  (forall k, k <> key -> d' !! k = d !! k) /\
  (expired now' (wrap now lifetime value) = false ->
   get key now' d' = (Some value, d')) /\
  (expired now' (wrap now lifetime value) = true ->
   get key now' d' = (None, delete key d)) /\
  (0 < lifetime -> 0 <= now ->
   expired now' (wrap now lifetime value) = (now + lifetime * 1000 <? now')) /\
  (lifetime = 0 -> expired now' (wrap now lifetime value) = false).
Proof.
  intros d' lifetime. subst d'. unfold set, get, NodeCache_set, NodeCache_get.
  split; [|split; [|split; [|split]]].
  - intros k Hk. apply lookup_insert_ne. congruence.
  - intros Hx. rewrite lookup_insert_eq. fold lifetime. rewrite Hx. reflexivity.
  - intros Hx. rewrite lookup_insert_eq. fold lifetime. rewrite Hx.
    rewrite delete_insert_eq. reflexivity.
  - intros Hl Hn. unfold expired, wrap. cbn [t].
    destruct (Z.eqb_spec lifetime 0) as [E|E]; [lia|].
    destruct (Z.eqb_spec (now + lifetime * 1000) 0) as [E0|E0]; [lia|].
    reflexivity.
  - intros ->. reflexivity.
Qed.


Lemma NodeCache_del_count (keys : list string) :
  forall (n : nat) (d : gmap string (@Entry V)),
    NoDup keys ->
    (forall k, k ∈ keys -> is_Some (d !! k)) ->
    (fold_left
       (fun acc key =>
          match acc.2 !! key with
          | Some _ => (S acc.1, delete key acc.2)
          | None => acc
          end)
       keys (n, d)).1 = (n + length keys)%nat.
Proof.
  induction keys as [|key r IH]; intros n d Hnd Hin; cbn [fold_left length].
  - cbn. lia.
  - apply NoDup_cons in Hnd as [Hnotin Hnd]. cbn [fst snd].
    destruct (Hin key ltac:(apply elem_of_cons; left; reflexivity)) as [e He].
    rewrite He. rewrite IH; [lia | exact Hnd|].
    intros k Hk. rewrite lookup_delete_ne.
    + apply Hin, elem_of_cons. right. exact Hk.
    + intros ->. exact (Hnotin Hk).
Qed.

Lemma filter_nil_all_false {A} (f : A -> bool) (l : list A) :
  (forall x, In x l -> f x = false) -> List.filter f l = [].
Proof.
  induction l as [|a r IH]; intros H; cbn; [reflexivity|].
  rewrite (H a) by (left; reflexivity).
  apply IH. intros x Hx. apply H. right. exact Hx.
Qed.

(** X16.  [delByPrefix] returns the number of stored keys that start with
    the prefix; run a second time it finds nothing and changes nothing;
    and with the empty prefix it empties the cache like [flush]. *)
Theorem delByPrefix_count (prefix : string) (d : gmap string (@Entry V)) :
  (delByPrefix prefix d).1
  = length (List.filter (fun key => startsWith key prefix) (NodeCache_keys d)) /\
  delByPrefix prefix (delByPrefix prefix d).2 = (0%nat, (delByPrefix prefix d).2) /\
  (delByPrefix "" d).2 = flush d.
Proof.
  split; [|split].
  - unfold delByPrefix, NodeCache_del.
    rewrite NodeCache_del_count; [reflexivity| |].
    + apply NoDup_ListNoDup, List.NoDup_filter, NoDup_ListNoDup.
      unfold NodeCache_keys. apply NoDup_fst_map_to_list.
    + intros k Hk. apply list_elem_of_In, filter_In in Hk as [Hk _].
      apply list_elem_of_In, elem_of_NodeCache_keys in Hk. exact Hk.
  - set (d' := (delByPrefix prefix d).2).
    assert (Hnone : List.filter (fun key => startsWith key prefix) (NodeCache_keys d')
                    = []).
    { apply filter_nil_all_false. intros k Hk.
      apply list_elem_of_In, elem_of_NodeCache_keys in Hk as [e He].
      subst d'. rewrite delByPrefix_get in He.
      destruct (startsWith k prefix); [discriminate | reflexivity]. }
    unfold delByPrefix at 1. rewrite Hnone. reflexivity.
  - unfold flush, NodeCache_flushAll. apply map_eq. intros k.
    rewrite delByPrefix_get, lookup_empty. destruct k; reflexivity.
Qed.

Lemma startsWith_app (p x : string) : startsWith (p ++ x) p = true.
Proof.
  unfold startsWith. induction p as [|a p IH].
  - destruct x; reflexivity.
  - change (String.prefix (String a p) (String a (p ++ x)) = true).
    cbn [String.prefix]. destruct (ascii_dec a a); [exact IH | congruence].
Qed.

(** X17.  Clearing the category "timetable:" removes the timetable key of
    every user and date, and the week key of the handlers, and leaves
    every substitutions key and every user key as it was. *)
Theorem delByPrefix_timetable_category (d : gmap string (@Entry V))
    (userId date : string) :
  let d' := (delByPrefix "timetable:" d).2 in
  d' !! getTimetableKey userId date = None /\
  d' !! "timetable:week:current" = None /\
  d' !! getSubstitutionsKey userId date = d !! getSubstitutionsKey userId date /\
  d' !! getUserDataKey userId = d !! getUserDataKey userId.
Proof.
  cbv zeta. rewrite !delByPrefix_get. unfold getTimetableKey.
  rewrite startsWith_app. repeat split.
Qed.

(** X18.  When the compute function fails on a miss, [getOrSet] passes
    the failure on, counts the invocation, and stores nothing: the key
    has no entry afterwards, so the next call computes again. *)
Theorem getOrSet_failure (key : string) (fn : Compute) (ttl : option Z)
    (w : @World V) (e : string) (elapsed : Z) :
  (forall x, ~ live key (clock w) (data w) x) ->
  fn (calls w) = (Throw e, elapsed) ->
  exists w',
    getOrSet cfg key fn ttl w = (Throw e, w') /\
    calls w' = S (calls w) /\
    data w' !! key = None /\
    (forall now x, ~ live key now (data w') x).
Proof.
  intros Hmiss Hfn. unfold getOrSet.
  pose proof (get_not_live _ _ _ Hmiss) as Hg.
  assert (Hd : (get key (clock w) (data w)).2 !! key = None).
  { unfold get, NodeCache_get.
    destruct (data w !! key) as [en|] eqn:E; [|exact E].
    destruct (expired (clock w) en) eqn:Hx; cbn.
    - apply lookup_delete_eq.
    - exfalso. apply (Hmiss (v en)). exists en. auto. }
  destruct (get key (clock w) (data w)) as [cached d1]. cbn in Hg, Hd. subst cached.
  rewrite Hfn. eexists. split; [reflexivity|]. cbn [calls data].
  split; [reflexivity|]. split; [exact Hd|].
  intros now x (en & He & _). congruence.
Qed.

(** X19.  [getOrSet] only ever touches its own key: whatever the outcome,
    every other key holds what it held before, and the compute function
    has been invoked at most once. *)
Theorem getOrSet_frame (key : string) (fn : Compute) (ttl : option Z)
    (w : @World V) (k : string) :
  k <> key ->
  data (getOrSet cfg key fn ttl w).2 !! k = data w !! k /\
  (calls w <= calls (getOrSet cfg key fn ttl w).2 <= S (calls w))%nat.
Proof.
  intros Hk. unfold getOrSet.
  assert (Hg : (get key (clock w) (data w)).2 !! k = data w !! k).
  { unfold get, NodeCache_get. destruct (data w !! key) as [en|]; [|reflexivity].
    destruct (expired (clock w) en); cbn; [|reflexivity].
    apply lookup_delete_ne. congruence. }
  destruct (get key (clock w) (data w)) as [[value|] d1]; cbn [snd] in *.
  - cbn. split; [exact Hg | lia].
  - destruct (fn (calls w)) as [[value|e] elapsed]; cbn [snd data calls].
    + unfold set, NodeCache_set. rewrite lookup_insert_ne by congruence.
      split; [exact Hg | lia].
    + split; [exact Hg | lia].
Qed.

End CacheMore.

Lemma set_get_roundtrip_witness :
  CacheService.get "k" 60000 (CacheService.set 21600 "k" 7%nat (Some 60) 1000 ∅)
  = (Some 7%nat, CacheService.set 21600 "k" 7%nat (Some 60) 1000 ∅) /\
  CacheService.get "k" 61001 (CacheService.set 21600 "k" 7%nat (Some 60) 1000 ∅)
  = (None, delete "k" ∅).
Proof.
  destruct (set_get_roundtrip 21600 "k" 7%nat (Some 60) 1000 60000 ∅)
    as (_ & Hlive & _).
  destruct (set_get_roundtrip 21600 "k" 7%nat (Some 60) 1000 61001 ∅)
    as (_ & _ & Hdead & _).
  split; [apply Hlive | apply Hdead]; vm_compute; reflexivity.
Defined.

(** A compute function that fails once. *)
Lemma getOrSet_failure_witness :
  exists w',
    CacheService.getOrSet 21600 "k" CacheDemo.failing None Demo.emptyWorld
    = (Throw "Failed to login to Schulmanager", w') /\
    CacheService.calls w' = 1%nat /\
    CacheService.data w' !! "k" = None.
Proof.
  destruct (getOrSet_failure 21600 "k" CacheDemo.failing None Demo.emptyWorld
              "Failed to login to Schulmanager" 5000) as (w' & H1 & H2 & H3 & _).
  - intros x (e & He & _). vm_compute in He. discriminate.
  - reflexivity.
  - exists w'. auto.
Defined.

Lemma getOrSet_frame_witness :
  CacheService.data
    (CacheService.getOrSet 21600 "timetable:default:2025-10-13" Demo.seven None
       (CacheService.mkWorld 1000 Demo.twoCategories 0)).2
    !! "substitutions:default:2025-10-13"
  = Some (CacheService.mkEntry 2%nat 0).
Proof.
  rewrite (proj1 (getOrSet_frame 21600 "timetable:default:2025-10-13" Demo.seven None
                    (CacheService.mkWorld 1000 Demo.twoCategories 0)
                    "substitutions:default:2025-10-13" ltac:(discriminate))).
  vm_compute. reflexivity.
Defined.

(** *** The handlers *)

Section HandlersMore.

Import SchulmanagerService Controllers ControllerTerms.

Lemma digitVal_isDigit (c : ascii) (d : Z) : digitVal c = Some d -> isDigit c = true.
Proof.
  unfold digitVal, isDigit.
  destruct ((48 <=? nat_of_ascii c) && (nat_of_ascii c <=? 57))%nat;
    [reflexivity | discriminate].
Qed.

Lemma Date_parse_regex (s : string) (t : Z) :
  Date_parse s = Some t -> dateRegexTest s = true.
Proof.
  unfold Date_parse, dateRegexTest.
  destruct (list_ascii_of_string s)
    as [|y1 [|y2 [|y3 [|y4 [|s1 [|m1 [|m2 [|s2 [|d1 [|d2 [|? ?]]]]]]]]]]];
    try discriminate.
  destruct (isDash s1); [|discriminate]. destruct (isDash s2); [|discriminate].
  cbn [andb digitsVal].
  destruct (digitVal y1) eqn:E1; [|discriminate].
  destruct (digitVal y2) eqn:E2; [|discriminate].
  destruct (digitVal y3) eqn:E3; [|discriminate].
  destruct (digitVal y4) eqn:E4; [|discriminate].
  destruct (digitVal m1) eqn:E5; [|discriminate].
  destruct (digitVal m2) eqn:E6; [|discriminate].
  destruct (digitVal d1) eqn:E7; [|destruct (10 * (10 * 0 + z3) + z4); discriminate].
  destruct (digitVal d2) eqn:E8; [|destruct (10 * (10 * 0 + z3) + z4); discriminate].
  intros _.
  rewrite (digitVal_isDigit _ _ E1), (digitVal_isDigit _ _ E2),
    (digitVal_isDigit _ _ E3), (digitVal_isDigit _ _ E4),
    (digitVal_isDigit _ _ E5), (digitVal_isDigit _ _ E6),
    (digitVal_isDigit _ _ E7), (digitVal_isDigit _ _ E8).
  reflexivity.
Qed.

(** X20.  The date check of the by-date handlers lets through every date
    string the service itself prints (today, tomorrow, the Monday of a
    week; years 0 to 9999) and every string that [new Date] reads as a
    calendar date in the date-only form. *)
Theorem dateRegex_accepts_dates :
  (forall t, 0 <= YearFromTime t <= 9999 -> dateRegexTest (toISODate t) = true) /\
  (forall tz t, 0 <= YearFromTime (WeekAnchor.mondayInstant tz t) <= 9999 ->
                dateRegexTest (WeekAnchor.getMondayOfWeek tz t) = true) /\
  (forall s t, Date_parse s = Some t -> dateRegexTest s = true).
Proof.
  split; [|split].
  - intros t Hy. exact (Date_parse_regex _ _ (Date_parse_toISODate t Hy)).
  - intros tz t Hy. unfold WeekAnchor.getMondayOfWeek.
    exact (Date_parse_regex _ _ (Date_parse_toISODate _ Hy)).
  - exact Date_parse_regex.
Qed.

Lemma dateRegex_accepts_dates_witness :
  dateRegexTest (toISODate Demo.now) = true /\
  dateRegexTest "2025-13-45" = true /\ dateRegexTest "13.10.2025" = false.
Proof.
  destruct dateRegex_accepts_dates as (H & _).
  split; [apply H; vm_compute; split; discriminate|].
  split; reflexivity.
Defined.

Lemma setProp_fresh key v (sched : WeekSchedule) :
  getProp key sched = None -> setProp key v sched = (sched ++ [(key, v)])%list.
Proof.
  induction sched as [|[k w] r IH]; cbn; [reflexivity|].
  destruct (String.eqb key k); [discriminate|]. intros H. rewrite (IH H). reflexivity.
Qed.

Lemma getProp_not_in key (a : WeekSchedule) :
  ~ In key a.*1 -> getProp key a = None.
Proof.
  induction a as [|[k w] r IH]; cbn; [reflexivity|]. intros H.
  destruct (String.eqb_spec key k) as [->|Hne]; [destruct H; auto|].
  apply IH. intros Hin. apply H. right. exact Hin.
Qed.

Lemma cancelledOfWeek_fold (ws : WeekSchedule) :
  forall acc n,
    List.NoDup (acc.*1 ++ ws.*1)%list ->
    fold_left
      (fun acc entry =>
         let cancelled := List.filter isCancelled (snd entry) in
         mkWeekCancelled (setProp (fst entry) cancelled (days acc))
                         (totalCancelled acc + Z.of_nat (length cancelled)))
      ws (mkWeekCancelled acc n)
    = mkWeekCancelled (acc ++ map cancelledEntry ws)%list
        (n + Z.of_nat (length (List.filter isCancelled (allLessons ws)))).
Proof.
  induction ws as [|[k ls] r IH]; intros acc n Hnd; cbn [fold_left].
  - cbn. rewrite app_nil_r, Z.add_0_r. reflexivity.
  - cbn [fst snd days totalCancelled].
    assert (Hfresh : getProp k acc = None).
    { apply getProp_not_in. intros Hin.
      apply NoDup_ListNoDup, NoDup_app in Hnd as (_ & Hdisj & _).
      apply (Hdisj k); [apply list_elem_of_In, Hin|].
      apply elem_of_cons. left. reflexivity. }
    rewrite setProp_fresh by exact Hfresh.
    rewrite IH.
    + unfold allLessons. cbn [map concat]. rewrite List.filter_app, length_app.
      rewrite <- app_assoc. cbn [app]. f_equal.
      unfold cancelledEntry. cbn [fst snd]. lia.
    + rewrite fmap_app. cbn [fmap list_fmap]. rewrite <- app_assoc. exact Hnd.
Qed.

(** X21.  For an extracted week, the summary [getWeekCancelled] caches
    lists every day of the week in order, each with exactly its cancelled
    lessons, and [totalCancelled] is the number of cancelled lessons of
    the whole week; it is 0 exactly when no lesson of the week is
    cancelled. *)
Theorem cancelledOfWeek_spec (doc : option Table) (ws : WeekSchedule) :
  extractSchedule doc = Ok ws ->
  let wc := cancelledOfWeek ws in
  days wc = map cancelledEntry ws /\
  totalCancelled wc
  = Z.of_nat (length (List.filter isCancelled (allLessons ws))) /\
  (totalCancelled wc = 0 <->
   Forall (fun l => isCancelled l = false) (allLessons ws)).
Proof.
  intros H wc.
  assert (Hnd : List.NoDup ws.*1).
  { destruct doc as [t|]; cbn in H.
    - apply (NoDup_forEachRow _ _ _ _ _ H), NoDup_initSchedule.
    - injection H as <-. constructor. }
  assert (Hwc : wc = mkWeekCancelled (map cancelledEntry ws)
                  (Z.of_nat (length (List.filter isCancelled (allLessons ws))))).
  { subst wc. unfold cancelledOfWeek. rewrite cancelledOfWeek_fold; [reflexivity|].
    exact Hnd. }
  rewrite Hwc. cbn [days totalCancelled]. split; [reflexivity|].
  split; [reflexivity|].
  generalize (allLessons ws). intros l. split.
  - intros H0. apply List.Forall_forall. intros x Hx.
    destruct (isCancelled x) eqn:E; [|reflexivity]. exfalso.
    assert (Hin : In x (List.filter isCancelled l)) by (apply filter_In; auto).
    destruct (List.filter isCancelled l); [destruct Hin | cbn in H0; lia].
  - intros Hall. rewrite filter_nil_all_false; [reflexivity|].
    rewrite List.Forall_forall in Hall. exact Hall.
Qed.

Lemma cancelledOfWeek_spec_witness :
  totalCancelled (cancelledOfWeek Demo.week) = 1 /\
  map fst (days (cancelledOfWeek Demo.week)) = ["Mo"; "Di"; "Mi"; "Do"; "Fr"].
Proof.
  assert (H : extractSchedule (Some Demo.thisWeek) = Ok Demo.week)
    by (vm_compute; reflexivity).
  destruct (cancelledOfWeek_spec (Some Demo.thisWeek) Demo.week H) as (Hd & Ht & _).
  rewrite Hd, Ht. split; vm_compute; reflexivity.
Defined.

End HandlersMore.

Section ApiAuthFacts.

Import ApiAuth.

(** X22.  [apiKeyAuth] passes a request on in exactly two cases: its path
    starts with "/health", or it carries a non-empty API key equal to the
    configured one.  Every other request is answered with status 401,
    with the code MISSING_API_KEY when the key is absent or empty and
    INVALID_API_KEY otherwise. *)
Theorem apiKeyAuth_spec (configKey path : string) (apiKey : option string) :
  (apiKeyAuth configKey path apiKey = Next <->
   startsWith path "/health" = true \/
   (exists k, apiKey = Some k /\ k <> "" /\ k = configKey)) /\
  (forall status code,
     apiKeyAuth configKey path apiKey = Rejected status code ->
     status = 401 /\
     (code = "MISSING_API_KEY" <-> truthy apiKey = false) /\
     (code = "MISSING_API_KEY" \/ code = "INVALID_API_KEY")).
Proof.
  unfold apiKeyAuth.
  assert (Hh : String.eqb path "/health" || startsWith path "/health"
               = startsWith path "/health").
  { destruct (String.eqb_spec path "/health") as [->|]; reflexivity. }
  rewrite Hh. destruct (startsWith path "/health").
  - split; [split; auto | intros ? ? [=]].
  - destruct apiKey as [[|c k]|]; cbn [truthy negb].
    + split; [split; [discriminate | intros [[=]|(k & [= <-] & Hk & _)]; congruence]|].
      intros status code [= <- <-]. repeat split; auto; discriminate.
    + cbn [SubstitutionModel.differs].
      destruct (String.eqb_spec (String c k) configKey) as [E|E]; cbn [negb].
      * split; [split; [intros _; right; exists (String c k); repeat split; auto;
                        discriminate | reflexivity]
               | intros ? ? [=]].
      * split; [split; [discriminate
                       | intros [[=]|(k' & [= <-] & _ & Hk)]; congruence]|].
        intros status code [= <- <-].
        repeat split; auto; discriminate.
    + split; [split; [discriminate | intros [[=]|(k & [=] & _)]]|].
      intros status code [= <- <-]. repeat split; auto; discriminate.
Qed.

End ApiAuthFacts.

(** *** The Monday of a week *)

Section WeekAnchorMore.

Import WeekAnchor.

(** X23.  In the host's local time [getMondayOfWeek] always reaches a
    Monday: the instant it computes is a Monday in local time, at the
    local time of day of its argument, and lies a whole number of days,
    between none and six, before the argument (the host's offset from UTC
    taken as fixed). *)
Theorem mondayInstant_local_monday (tz date : Z) :
  let m := mondayInstant tz date in
  WeekDay (LocalTime tz m) = 1 /\
  TimeWithinDay (LocalTime tz m) = TimeWithinDay (LocalTime tz date) /\
  date - m = backToMonday (getDay tz date) * msPerDay /\
  0 <= backToMonday (getDay tz date) <= 6.
Proof.
  intros m. subst m. split; [apply mondayInstant_local_weekday|].
  pose proof (mondayInstant_local tz date) as H.
  pose proof (TimeWithinDay_range (LocalTime tz date)) as Hr.
  assert (Hb : 0 <= backToMonday (getDay tz date) <= 6).
  { unfold backToMonday, getDay, WeekDay, WeekDayOfDay.
    pose proof (Z.mod_pos_bound (Day (LocalTime tz date) + 4) 7 ltac:(lia)).
    destruct (Z.eqb_spec ((Day (LocalTime tz date) + 4) mod 7) 0); lia. }
  split; [|split; [|exact Hb]].
  - rewrite H. unfold MakeDate, TimeWithinDay at 1.
    rewrite Z.add_comm, Z.mod_add by discriminate.
    apply Z.mod_small. exact Hr.
  - revert H. generalize (mondayInstant tz date). intros m H.
    unfold MakeDate in H.
    assert (Hd : LocalTime tz date
                 = Day (LocalTime tz date) * msPerDay
                   + TimeWithinDay (LocalTime tz date)).
    { unfold Day, TimeWithinDay.
      pose proof (Z.div_mod (LocalTime tz date) msPerDay ltac:(discriminate)).
      lia. }
    unfold LocalTime in H, Hd |- *.
    set (D := Day (date + tz * 60000)) in *.
    set (T := TimeWithinDay (date + tz * 60000)) in *.
    set (b := backToMonday (getDay tz date)) in *.
    lia.
Qed.

(** X24.  On a host whose local time is UTC, [getMondayOfWeek] returns the
    date of a Monday, and applied to the date it returned it returns that
    date again (for Mondays in the years 0 to 9999). *)
Theorem getMondayOfWeek_utc_host (date : Z) :
  0 <= YearFromTime (mondayInstant 0 date) <= 9999 ->
  weekdayOfDateString (getMondayOfWeek 0 date) = Some 1 /\
  again 0 (getMondayOfWeek 0 date) = Some (getMondayOfWeek 0 date).
Proof.
  intros Hy. split.
  - apply getMondayOfWeek_utc_monday, Hy.
  - apply getMondayOfWeek_utc_idempotent, Hy.
Qed.

Lemma getMondayOfWeek_utc_host_witness :
  weekdayOfDateString (getMondayOfWeek 0 Demo.now) = Some 1 /\
  again 0 (getMondayOfWeek 0 Demo.now) = Some (getMondayOfWeek 0 Demo.now).
Proof.
  apply (getMondayOfWeek_utc_host Demo.now). vm_compute. split; discriminate.
Defined.

End WeekAnchorMore.

(** *** The weekday column of the current week *)

Section WeekdayColumn.

Import SchulmanagerService RawSlots WeekdayTerms.

Lemma dayMapping_shortName (wd : Z) :
  dayMapping (germanWeekday wd) = shortName wd.
Proof.
  destruct wd as [|p|p]; try reflexivity.
  do 3 (destruct p as [p|p|]; try reflexivity).
Qed.

(** Midnight UTC of a day, seen from a host east or west of UTC. *)
Lemma Day_midnight_local (tz n : Z) :
  (0 <= tz < 1440 -> Day (LocalTime tz (MakeDate n 0)) = n) /\
  (-1440 <= tz < 0 -> Day (LocalTime tz (MakeDate n 0)) = n - 1).
Proof.
  unfold Day, LocalTime, MakeDate, msPerDay, msPerMinute. split; intros H.
  - symmetry. apply (Z.div_unique _ _ _ (tz * 60000)); lia.
  - symmetry. apply (Z.div_unique _ _ _ (86400000 + tz * 60000)); lia.
Qed.

Lemma Date_parse_midnight (s : string) (t : Z) :
  Date_parse s = Some t -> exists n, t = MakeDate n 0.
Proof.
  unfold Date_parse.
  destruct (list_ascii_of_string s)
    as [|y1 [|y2 [|y3 [|y4 [|s1 [|m1 [|m2 [|s2 [|d1 [|d2 [|? ?]]]]]]]]]]];
    try discriminate.
  destruct (isDash s1 && isDash s2); [|discriminate].
  destruct (digitsVal 0 [y1; y2; y3; y4]) as [y|]; [|discriminate].
  destruct (digitsVal 0 [m1; m2]) as [m|]; [|discriminate].
  destruct (digitsVal 0 [d1; d2]) as [d|]; [|discriminate].
  destruct ((1 <=? m) && (m <=? 12) && (1 <=? d) && (d <=? 31)); [|discriminate].
  intros [= <-]. eauto.
Qed.

Lemma Date_parse_nonempty (s : string) (t : Z) : Date_parse s = Some t -> s <> "".
Proof. intros H ->. discriminate. Qed.

(** The weekday of midnight UTC of a calendar day, in local time. *)
Lemma getDay_date_string tz date wd :
  WeekAnchor.weekdayOfDateString date = Some wd ->
  exists t,
    Date_parse date = Some t /\
    (0 <= tz < 1440 -> getDay tz t = wd) /\
    (-1440 <= tz < 0 -> 1 <= wd -> getDay tz t = wd - 1).
Proof.
  unfold WeekAnchor.weekdayOfDateString.
  destruct (Date_parse date) as [t|] eqn:Hp; [|discriminate].
  intros [= <-]. exists t. split; [reflexivity|].
  destruct (Date_parse_midnight _ _ Hp) as [n ->].
  destruct (Day_midnight_local tz n) as [He Hw].
  unfold getDay, WeekDay.
  assert (Hn : Day (MakeDate n 0) = n).
  { unfold MakeDate. rewrite Z.add_0_r. apply Day_midnight. }
  rewrite Hn. split.
  - intros H. rewrite (He H). reflexivity.
  - intros H H1. rewrite (Hw H). unfold WeekDayOfDay in *.
    pose proof (Z.mod_pos_bound (n + 4) 7 ltac:(lia)) as Hb.
    pose proof (Z.div_mod (n + 4) 7 ltac:(lia)) as Hd.
    symmetry. apply (Z.mod_unique _ _ ((n + 4) / 7)); lia.
Qed.

Lemma find_skip_repeated (P : string -> bool) (x : string) (l r : list string) :
  In x l -> List.find P (l ++ x :: r) = List.find P (l ++ r).
Proof.
  induction l as [|a l IH]; intros Hin; [destruct Hin|].
  cbn [app List.find]. destruct (P a) eqn:Ha; [reflexivity|].
  destruct Hin as [->|Hin].
  - clear IH. induction l as [|b l IH]; cbn [app List.find].
    + rewrite Ha. reflexivity.
    + destruct (P b); [reflexivity | exact IH].
  - exact (IH Hin).
Qed.

Lemma initSchedule_find (P : string -> bool) (days : list string) :
  List.find P (initSchedule days).*1 = List.find P days.
Proof.
  unfold initSchedule.
  enough (H : forall acc : WeekSchedule,
             List.find P (fold_left (fun sched day => setProp day [] sched) days acc).*1
             = List.find P (acc.*1 ++ days)%list) by exact (H []).
  induction days as [|day rest IH]; intros acc; cbn [fold_left].
  - rewrite app_nil_r. reflexivity.
  - rewrite IH, keys_setProp.
    destruct (getProp day acc) as [ls|] eqn:Hg.
    + symmetry. apply find_skip_repeated.
      assert (Hs : is_Some (getProp day acc)) by eauto.
      clear -Hs. induction acc as [|[k v] r IH]; cbn in *.
      * destruct Hs; discriminate.
      * destruct (String.eqb_spec day k); [left; congruence | right; auto].
    + rewrite <- app_assoc. reflexivity.
Qed.

Lemma forEachCell_same_keys days h cells :
  forall i sched sched',
    forEachCell days h cells i sched = Ok sched' -> sched'.*1 = sched.*1.
Proof.
  induction cells as [|cell rest IH]; intros i sched sched' H.
  - injection H as <-. reflexivity.
  - cbn in H.
    destruct (processCell days h i cell sched) as [sched1|e] eqn:Hp; [|discriminate].
    rewrite (IH _ _ _ H). unfold processCell in Hp.
    destruct cell as [lc|]; [|injection Hp as <-; reflexivity].
    destruct (scrapeCell h lc); [|injection Hp as <-; reflexivity].
    unfold pushLesson in Hp.
    destruct (getProp (tplStr (days !! i)) sched) eqn:Hg; [|discriminate].
    injection Hp as <-. rewrite keys_setProp, Hg. reflexivity.
Qed.

Lemma forEachRow_same_keys days rws :
  forall hi sched sched',
    forEachRow days rws hi sched = Ok sched' -> sched'.*1 = sched.*1.
Proof.
  induction rws as [|row rest IH]; intros hi sched sched' H.
  - injection H as <-. reflexivity.
  - cbn in H.
    destruct (forEachCell days (Z.of_nat hi + 1) row 0 sched) as [sched1|e] eqn:Hc;
      [|discriminate].
    rewrite (IH _ _ _ H). exact (forEachCell_same_keys _ _ _ _ _ _ Hc).
Qed.

(** The loop with its [break] takes the first entry whose key contains
    the short name. *)
Lemma findDay_first short (ws : WeekSchedule) :
  findDay (Some short) ws
  = match List.find (fun key => includes key short) ws.*1 with
    | Some key => default [] (getProp key ws)
    | None => []
    end.
Proof.
  induction ws as [|[k ls] r IH]; [reflexivity|].
  cbn [findDay tplStr fmap list_fmap fst List.find].
  destruct (includes k short) eqn:Hk.
  - cbn [getProp]. rewrite String.eqb_refl. reflexivity.
  - change (findDay (Some short) r) with (findDay (Some short) r). rewrite IH.
    change (list_fmap _ _ fst r) with (r.*1).
    destruct (List.find (fun key => includes key short) r.*1) as [key|] eqn:Hf;
      [|reflexivity].
    apply find_some in Hf as [_ Hinc]. cbn [getProp].
    destruct (String.eqb_spec key k) as [->|]; [congruence | reflexivity].
Qed.

(** With the weekday the code reads off the date, [getTimetable] returns
    that weekday's column of the page for the current week. *)
Lemma getTimetable_column tz portal now s date t doc ws key :
  isLoggedIn s = true -> page s = true ->
  portal (WeekAnchor.getMondayOfWeek tz now) = Ok (Some doc) ->
  extractSchedule (Some doc) = Ok ws ->
  Date_parse date = Some t ->
  columnOf doc (getDay tz t) = Some key ->
  getTimetable tz portal now s date
  = Ok (toLessons now date (omap scrapeSlot (daySlots doc key))).
Proof.
  intros Hli Hpg Hp Hx Hd Hcol.
  unfold getTimetable, getWeekSchedule. rewrite Hli, Hpg. cbn [negb orb default].
  rewrite Hp. cbn [bind]. rewrite Hx. cbn [bind]. do 2 f_equal.
  unfold shortDayOf, toLocaleWeekday. rewrite Hd, dayMapping_shortName.
  unfold columnOf in Hcol.
  destruct (shortName (getDay tz t)) as [short|]; [|discriminate].
  rewrite findDay_first.
  cbn [extractSchedule] in Hx.
  rewrite (forEachRow_same_keys _ _ _ _ _ Hx), initSchedule_find, Hcol.
  rewrite (forEachRow_getProp _ _ _ _ _ Hx key).
  apply find_some in Hcol as [Hin _].
  apply initSchedule_keys in Hin as [ls Hls].
  rewrite Hls. rewrite (initSchedule_getProp _ _ _ Hls). reflexivity.
Qed.

Lemma toLessons_labelled now date (ls : list ScrapedLesson) :
  date <> "" -> Forall (labelled date) (toLessons now date ls).
Proof.
  intros Hne. apply List.Forall_forall. intros l Hin.
  apply in_map_iff in Hin as (sl & <- & _).
  unfold labelled. rewrite toLesson_lessonNumber. apply toLesson_labels, Hne.
Qed.

(** C10.  [getTimetable(date)] takes its Lessons from the page of the
    current week, whatever week the date lies in, and labels each with
    the requested date and an id built from it.  The column it takes is
    not always the one of the date's weekday: on a host west of UTC the
    date, read as midnight UTC, falls on the evening before in local
    time, and the Lessons returned are those of the weekday before. *)
Theorem getTimetable_west_of_utc tz portal now s date wd doc ws key :
  -1440 <= tz < 0 ->
  isLoggedIn s = true -> page s = true ->
  portal (WeekAnchor.getMondayOfWeek tz now) = Ok (Some doc) ->
  extractSchedule (Some doc) = Ok ws ->
  WeekAnchor.weekdayOfDateString date = Some wd ->
  columnOf doc (wd - 1) = Some key ->
  getTimetable tz portal now s date
  = Ok (toLessons now date (omap scrapeSlot (daySlots doc key))) /\
  Forall2 lessonOf (toLessons now date (omap scrapeSlot (daySlots doc key)))
          (List.filter hasSubject (daySlots doc key)) /\
  Forall (labelled date) (toLessons now date (omap scrapeSlot (daySlots doc key))).
Proof.
  intros Htz Hli Hpg Hp Hx Hwd Hcol.
  destruct (getDay_date_string tz date wd Hwd) as (t & Hd & _ & Hw).
  assert (H1 : 1 <= wd).
  { unfold columnOf in Hcol. destruct (shortName (wd - 1)) eqn:E; [|discriminate].
    destruct wd as [|p|p]; [discriminate | lia | discriminate]. }
  split; [|split].
  - apply (getTimetable_column tz portal now s date t doc ws key); auto.
    rewrite (Hw Htz H1). exact Hcol.
  - apply toLessons_lessonOf.
  - apply toLessons_labelled. exact (Date_parse_nonempty _ _ Hd).
Qed.

(** Asked on a host four hours west of UTC for Tuesday 2025-10-21, a day
    of the following week, the service returns the three Monday lessons
    of the current week's page, labelled with that Tuesday; the page's
    Tuesday column holds another lesson. *)
Lemma getTimetable_west_of_utc_witness :
  getTimetable (-240) Demo.portal Demo.now Demo.session "2025-10-21"
  = Ok (toLessons Demo.now "2025-10-21"
          (omap scrapeSlot (daySlots Demo.thisWeek "Mo"))) /\
  map LessonModel.subject
      (toLessons Demo.now "2025-10-21"
         (omap scrapeSlot (daySlots Demo.thisWeek "Mo")))
  = ["Mathe"; "Deutsch"; "Englisch"] /\
  map subjectLabel (List.filter hasSubject (daySlots Demo.thisWeek "Di"))
  = ["Physik"].
Proof.
  assert (Htz : -1440 <= -240 < 0) by lia.
  assert (Hp : Demo.portal (WeekAnchor.getMondayOfWeek (-240) Demo.now)
               = Ok (Some Demo.thisWeek)) by (vm_compute; reflexivity).
  assert (Hx : extractSchedule (Some Demo.thisWeek) = Ok Demo.week)
    by (vm_compute; reflexivity).
  assert (Hwd : WeekAnchor.weekdayOfDateString "2025-10-21" = Some 2)
    by (vm_compute; reflexivity).
  assert (Hcol : columnOf Demo.thisWeek (2 - 1) = Some "Mo")
    by (vm_compute; reflexivity).
  destruct (getTimetable_west_of_utc (-240) Demo.portal Demo.now Demo.session
              "2025-10-21" 2 Demo.thisWeek Demo.week "Mo"
              Htz eq_refl eq_refl Hp Hx Hwd Hcol) as (H & _ & _).
  split; [exact H|]. split; vm_compute; reflexivity.
Defined.



End WeekdayColumn.
